(** * Cluster settings and group lookups of the dashboard backend

    A shallow embedding of
    - [updateClusterSettings], [getClusterSettings], [readJupyterhubCfg] and
      [patchCM] (the cluster-settings route utilities), and
    - [getGroup], [getAllGroups] and [MissingGroupError] (the group utilities),
    over an explicit model of the Kubernetes API the handlers talk to.

    The handlers are sequences of API calls glued by JavaScript control flow
    (try/catch, promise chains, truthiness tests), so the embedding is an
    exception-and-state monad over a [World]: the cluster objects, the faults
    the API may answer with, the requests that were fired without being
    awaited, and what the handler logged. *)

From Stdlib Require Import ZArith String Ascii List DecimalString.
From Stdlib Require Import Floats.SpecFloat.
From stdpp Require Import gmap strings list fin_maps.

Local Open Scope string_scope.
Local Open Scope Z_scope.

(* ===================================================================== *)
(** * JavaScript values the handlers compute with *)
(* ===================================================================== *)

(** ** Numbers

    A JavaScript Number is an IEEE 754 binary64 value.  [spec_float] with
    53 bits of precision and maximal exponent 1024 is exactly that format;
    all values built below are in canonical form, so the comparison
    [SFeqb] is the [===] of two Numbers (NaN differs from itself, the two
    zeros are equal). *)
Module Js.

Definition number := spec_float.

Definition prec : Z := 53.
Definition emax : Z := 1024.

Definition NaN : number := S754_nan.

(** The Number denoted by an integer literal of the source. *)
Definition num (z : Z) : number := binary_normalize prec emax z 0 false.

Definition div (x y : number) : number := SFdiv prec emax x y.
Definition mul (x y : number) : number := SFmul prec emax x y.

(** [x === y] on two Numbers. *)
Definition strict_eq (x y : number) : bool := SFeqb x y.

(** The Number value of the decimal [m * 10^e] with [m > 0], correctly
    rounded (to nearest, ties to even). *)
Definition of_decimal (neg : bool) (m : positive) (e : Z) : number :=
  match e with
  | Zneg d =>
      let '(q, e', l) := SFdiv_core_binary prec emax (Zpos m) 0 (10 ^ Zpos d) 0 in
      binary_round_aux prec emax neg q e' l
  | _ => binary_round prec emax neg (Z.to_pos (Zpos m * 10 ^ e)) 0
  end.

(** *** Strings to Numbers: [Number(s)]

    Strings are sequences of code units; the model covers the code units
    below 256.  White space is TAB, LF, VT, FF, CR, SP and NBSP. *)
Definition is_ws (c : ascii) : bool :=
  let n := N_of_ascii c in
  ((9 <=? n) && (n <=? 13))%N || (n =? 32)%N || (n =? 160)%N.

Fixpoint trim_start (s : string) : string :=
  match s with
  | String c s' => if is_ws c then trim_start s' else s
  | EmptyString => EmptyString
  end.

Definition trim (s : string) : string :=
  String.rev (trim_start (String.rev (trim_start s))).

(** Value of a digit in the given radix. *)
Definition digit_of (radix : Z) (c : ascii) : option Z :=
  let n := Z.of_N (N_of_ascii c) in
  let v :=
    if (48 <=? n) && (n <=? 57) then Some (n - 48)
    else if (97 <=? n) && (n <=? 102) then Some (n - 87)
    else if (65 <=? n) && (n <=? 70) then Some (n - 55)
    else None in
  match v with
  | Some d => if d <? radix then Some d else None
  | None => None
  end.

(** Longest prefix of digits: its value (folded into [acc]), its length,
    and the rest of the string. *)
Fixpoint digits (radix : Z) (s : string) (acc : Z) (len : Z) : Z * Z * string :=
  match s with
  | String c s' =>
      match digit_of radix c with
      | Some d => digits radix s' (acc * radix + d) (len + 1)
      | None => (acc, len, s)
      end
  | EmptyString => (acc, len, s)
  end.

(** A string made of one or more digits of the radix, and nothing else. *)
Definition integer_literal (radix : Z) (s : string) : option Z :=
  let '(v, len, rest) := digits radix s 0 0 in
  if (0 <? len) && bool_decide (rest = "") then Some v else None.

(** Optional sign: whether it is a minus, and the rest. *)
Definition sign (s : string) : bool * string :=
  match s with
  | String "-" s' => (true, s')
  | String "+" s' => (false, s')
  | _ => (false, s)
  end.

(** [ExponentPart], when present: [e] or [E], an optional sign and at
    least one digit.  [None] is a syntax error. *)
Definition exponent_part (s : string) : option Z :=
  match s with
  | EmptyString => Some 0
  | String c s' =>
      if bool_decide (c = "e"%char) || bool_decide (c = "E"%char) then
        let '(neg, s'') := sign s' in
        match integer_literal 10 s'' with
        | Some v => Some (if neg then - v else v)
        | None => None
        end
      else None
  end.

(** [StrUnsignedDecimalLiteral] other than [Infinity]: mantissa and
    decimal exponent. *)
Definition unsigned_decimal (s : string) : option (Z * Z) :=
  let '(ip, ilen, rest) := digits 10 s 0 0 in
  let '(m, flen, rest') :=
    match rest with
    | String "." r => let '(m, flen, r') := digits 10 r ip 0 in (m, flen, r')
    | _ => (ip, 0, rest)
    end in
  if 0 <? ilen + flen then
    match exponent_part rest' with
    | Some e => Some (m, e - flen)
    | None => None
    end
  else None.

Definition signed_zero (neg : bool) : number := S754_zero neg.

Definition str_decimal_literal (s : string) : number :=
  let '(neg, s') := sign s in
  if bool_decide (s' = "Infinity") then S754_infinity neg
  else
    match unsigned_decimal s' with
    | Some (Zpos m, e) => of_decimal neg m e
    | Some (_, _) => signed_zero neg
    | None => NaN
    end.

Definition non_decimal_literal (s : string) : option number :=
  match s with
  | String "0" (String c s') =>
      let radix :=
        if bool_decide (c = "x"%char) || bool_decide (c = "X"%char) then Some 16
        else if bool_decide (c = "o"%char) || bool_decide (c = "O"%char) then Some 8
        else if bool_decide (c = "b"%char) || bool_decide (c = "B"%char) then Some 2
        else None in
      match radix with
      | Some r =>
          Some match integer_literal r s' with
               | Some v => num v
               | None => NaN
               end
      | None => None
      end
  | _ => None
  end.

(** [Number(s)] for a string [s] (StringToNumber). *)
Definition string_to_number (s : string) : number :=
  let t := trim s in
  if bool_decide (t = "") then signed_zero false
  else
    match non_decimal_literal t with
    | Some n => n
    | None => str_decimal_literal t
    end.

(** [Number(v)] for a value that is a string or [undefined]. *)
Definition Number (v : option string) : number :=
  match v with
  | Some s => string_to_number s
  | None => NaN
  end.

(** *** Numbers to strings: [String(x)]

    Number::toString in radix 10: the shortest digit string [s] (of [k]
    digits) and the exponent [n] with [s * 10^(n-k)] rounding to [x];
    of several such [s] the one closest to [x]. *)

(** Exact value of a positive finite Number as a fraction. *)
Definition fraction (m : positive) (e : Z) : Z * Z :=
  match e with
  | Zneg d => (Zpos m, 2 ^ Zpos d)
  | _ => (Zpos m * 2 ^ e, 1)
  end.

(** The fraction [a / b] multiplied by [10^p]. *)
Definition scale10 (ab : Z * Z) (p : Z) : Z * Z :=
  let '(a, b) := ab in
  match p with
  | Zneg d => (a, b * 10 ^ Zpos d)
  | _ => (a * 10 ^ p, b)
  end.

(** Smallest [n >= n0] with [a / b < 10^n], looking at most [fuel] steps. *)
Fixpoint magnitude10 (fuel : nat) (ab : Z * Z) (n0 : Z) : Z :=
  match fuel with
  | O => n0
  | S fuel' =>
      let '(a, b) := scale10 ab (- n0) in
      if a <? b then n0 else magnitude10 fuel' ab (n0 + 1)
  end.

Definition decimal_exponent (m : positive) (e : Z) : Z :=
  let d2 := Zpos (digits2_pos m) + e in
  magnitude10 8 (fraction m e) ((d2 - 1) * 30103 / 100000 - 2).

(** The digits for a given length [k], if some [k]-digit decimal rounds
    to [x = m * 2^e]. *)
Definition digits_of_length (m : positive) (e : Z) (n k : Z) : option Z :=
  let '(a, b) := scale10 (fraction m e) (k - n) in
  let lo := a / b in
  let r := a mod b in
  let hi := lo + 1 in
  let back (s : Z) :=
    match s with
    | Zpos p =>
        match of_decimal false p (n - k) with
        | S754_finite false m' e' => (m' =? m)%positive && (e' =? e)
        | _ => false
        end
    | _ => false
    end in
  match back lo, back hi with
  | true, true =>
      match 2 * r ?= b with
      | Lt => Some lo
      | Gt => Some hi
      | Eq => Some (if Z.even lo then lo else hi)
      end
  | true, false => Some lo
  | false, true => Some hi
  | false, false => None
  end.

(** The shortest digits: try lengths [k], [k + 1], ... *)
Fixpoint shortest_digits (fuel : nat) (m : positive) (e : Z) (n k : Z) : Z * Z :=
  match fuel with
  | O => (0, k)
  | S fuel' =>
      match digits_of_length m e n k with
      | Some s => (s, k)
      | None => shortest_digits fuel' m e n (k + 1)
      end
  end.

Definition decimal_string (z : Z) : string :=
  NilEmpty.string_of_uint (N.to_uint (Z.to_N z)).

Fixpoint strip_zeros (fuel : nat) (s : Z) : Z :=
  match fuel with
  | O => s
  | S fuel' => if (0 <? s) && (s mod 10 =? 0) then strip_zeros fuel' (s / 10) else s
  end.

Fixpoint zeros (n : nat) : string :=
  match n with
  | O => ""
  | S n' => String "0" (zeros n')
  end.

Definition string_length (s : string) : Z := Z.of_nat (String.length s).

(** Layout of the digits [ds] with decimal exponent [n]. *)
Definition layout (ds : string) (n : Z) : string :=
  let k := string_length ds in
  if (k <=? n) && (n <=? 21) then ds ++ zeros (Z.to_nat (n - k))
  else if (0 <? n) && (n <=? 21) then
    substring 0 (Z.to_nat n) ds ++ "." ++ substring (Z.to_nat n) (Z.to_nat (k - n)) ds
  else if (-6 <? n) && (n <=? 0) then "0." ++ zeros (Z.to_nat (- n)) ++ ds
  else
    let ex := (if n - 1 <? 0 then "-" else "+") ++ decimal_string (Z.abs (n - 1)) in
    if k =? 1 then ds ++ "e" ++ ex
    else substring 0 1 ds ++ "." ++ substring 1 (Z.to_nat (k - 1)) ds ++ "e" ++ ex.

Definition positive_to_string (m : positive) (e : Z) : string :=
  let n := decimal_exponent m e in
  let '(s, k) := shortest_digits 17 m e n 1 in
  let ds := decimal_string (strip_zeros 25 s) in
  layout ds (n + (string_length (decimal_string s) - k)).

(** [String(x)] for a Number [x]. *)
Definition number_to_string (x : number) : string :=
  match x with
  | S754_nan => "NaN"
  | S754_zero _ => "0"
  | S754_infinity neg => if neg then "-Infinity" else "Infinity"
  | S754_finite neg m e => (if neg then "-" else "") ++ positive_to_string m e
  end.

(** ** Strings, truthiness and errors *)

(** [String(b)] for a boolean. *)
Definition bool_to_string (b : bool) : string := if b then "true" else "false".

(** [s.replace(pat, rep)] with a string pattern: the first occurrence only. *)
Fixpoint replace (pat rep s : string) : string :=
  if String.prefix pat s then
    rep ++ substring (String.length pat) (String.length s - String.length pat) s
  else
    match s with
    | EmptyString => EmptyString
    | String c s' => String c (replace pat rep s')
    end.

(** Truthiness of a value that is a string or [undefined] ([Boolean(v)],
    and the test of [if], [&&]): only [undefined] and the empty string are
    falsy. *)
Definition truthy (v : option string) : bool :=
  match v with
  | Some s => negb (bool_decide (s = ""))
  | None => false
  end.

(** A value interpolated in a template literal. *)
Definition interpolate (v : option string) : string :=
  match v with
  | Some s => s
  | None => "undefined"
  end.

(** What the handlers can catch: the error of a failed API request (the
    Kubernetes client's [HttpError], which carries the status code both as
    [statusCode] and as [response.statusCode]), a [TypeError] of the
    runtime, a plain [Error], and the [MissingGroupError] subclass of the
    group utilities. *)
Inductive JsError :=
  | HttpError (statusCode : Z)
  | TypeError (message : string)
  | Error (message : string)
  | MissingGroupError (message : string).

Definition message (e : JsError) : string :=
  match e with
  | HttpError _ => "HTTP request failed"
  | TypeError m | Error m | MissingGroupError m => m
  end.

Definition to_string (e : JsError) : string :=
  match e with
  | TypeError m => "TypeError: " ++ m
  | _ => "Error: " ++ message e
  end.

(** [e.statusCode] *)
Definition statusCode (e : JsError) : option Z :=
  match e with
  | HttpError c => Some c
  | _ => None
  end.

(** [e.response?.statusCode] *)
Definition response_statusCode (e : JsError) : option Z :=
  match e with
  | HttpError c => Some c
  | _ => None
  end.

(** [e.respose]: no error object has a property of that name. *)
Definition respose (e : JsError) : option string := None.

(** [e instanceof MissingGroupError] *)
Definition is_MissingGroupError (e : JsError) : bool :=
  match e with
  | MissingGroupError _ => true
  | _ => false
  end.

(** Reading a property of [undefined]. *)
Definition undefined_property (key : string) : JsError :=
  TypeError ("Cannot read properties of undefined (reading '" ++ key ++ "')").

End Js.

(* ===================================================================== *)
(** * The cluster the handlers talk to *)
(* ===================================================================== *)

Inductive Workload := Deployment | DeploymentConfig.

(** A ConfigMap is named and holds string data; a patch body is the object
    literal the handler passes, whose values may be [undefined]. *)
Inductive ApiRequest :=
  | ReadConfigMap (name : string)
  | PatchConfigMap (name : string) (data : list (string * option string))
  | CreateConfigMap (name : string) (data : gmap string string)
  | DeleteConfigMap (name : string)
  | Rollout (kind : Workload) (name : string)
  | GetGroup (name : string)
  | ListGroups.

Inductive ApiResponse :=
  | ConfigMapBody (data : option (gmap string string))
  | GroupBody (users : list string)
  | GroupListBody (names : list string)
  | Accepted.

(** Modelled from the spec: the Dashboard Config object returned by
    [getDashboardConfig] (its type declaration is not part of the sources).
    The handlers read [spec.notebookController.enabled], in places through
    optional chaining, so [spec] and [notebookController] may be missing. *)
Record NotebookControllerConfig := { enabled : bool }.
Record DashboardSpec := { notebookController : option NotebookControllerConfig }.
Record DashboardConfig := { spec : option DashboardSpec }.

(** The objects held by the API server. *)
Record Cluster := {
  configMaps : gmap string (gmap string string);
  groups : gmap string (list string);
  restarted : list (Workload * string)
}.

Inductive LogLevel := LogWarn | LogError.

(** The world of one handler run.
    - [faults]: the requests the API answers with an error of its own
      (forbidden, unavailable, ...), whatever the objects are;
    - [overtakes]: whether an awaited request is served before the requests
      still in flight;
    - [inflight]: requests fired without being awaited, not yet served;
    - [issued]: every request the handler sent, oldest first;
    - [unhandled]: rejections of promises nobody awaited. *)
Record World := {
  cluster : Cluster;
  dashboardConfig : DashboardConfig;
  faults : ApiRequest -> option Js.JsError;
  overtakes : ApiRequest -> bool;
  inflight : list ApiRequest;
  issued : list ApiRequest;
  unhandled : list Js.JsError;
  logs : list (LogLevel * string)
}.

Definition with_cluster (c : Cluster) (w : World) : World :=
  {| cluster := c; dashboardConfig := dashboardConfig w; faults := faults w;
     overtakes := overtakes w; inflight := inflight w; issued := issued w;
     unhandled := unhandled w; logs := logs w |}.

Definition with_inflight (l : list ApiRequest) (w : World) : World :=
  {| cluster := cluster w; dashboardConfig := dashboardConfig w; faults := faults w;
     overtakes := overtakes w; inflight := l; issued := issued w;
     unhandled := unhandled w; logs := logs w |}.

Definition with_issued (l : list ApiRequest) (w : World) : World :=
  {| cluster := cluster w; dashboardConfig := dashboardConfig w; faults := faults w;
     overtakes := overtakes w; inflight := inflight w; issued := l;
     unhandled := unhandled w; logs := logs w |}.

Definition with_unhandled (l : list Js.JsError) (w : World) : World :=
  {| cluster := cluster w; dashboardConfig := dashboardConfig w; faults := faults w;
     overtakes := overtakes w; inflight := inflight w; issued := issued w;
     unhandled := l; logs := logs w |}.

Definition with_logs (l : list (LogLevel * string)) (w : World) : World :=
  {| cluster := cluster w; dashboardConfig := dashboardConfig w; faults := faults w;
     overtakes := overtakes w; inflight := inflight w; issued := issued w;
     unhandled := unhandled w; logs := l |}.

Definition with_configMaps (m : gmap string (gmap string string)) (c : Cluster) : Cluster :=
  {| configMaps := m; groups := groups c; restarted := restarted c |}.

Definition with_restarted (l : list (Workload * string)) (c : Cluster) : Cluster :=
  {| configMaps := configMaps c; groups := groups c; restarted := l |}.

(** The JSON body of a patch: properties whose value is [undefined] are
    not serialised. *)
Fixpoint json_data (props : list (string * option string)) : gmap string string :=
  match props with
  | [] => ∅
  | (k, Some v) :: props' => <[k := v]> (json_data props')
  | (_, None) :: props' => json_data props'
  end.

(** The [data] of a ConfigMap as the client returns it: the field is left
    out of an object without entries. *)
Definition body_data (d : gmap string string) : option (gmap string string) :=
  if bool_decide (d = ∅) then None else Some d.

Definition not_found : Js.JsError := Js.HttpError 404.
Definition conflict : Js.JsError := Js.HttpError 409.

(** What the API server does with a request it accepts to look at:
    reading, patching or deleting an object that does not exist is answered
    404, creating one that exists 409; a merge patch overwrites the keys it
    names and keeps the others; a rollout request restarts the named
    workload. *)
Definition perform (r : ApiRequest) (c : Cluster) : (Js.JsError + ApiResponse) * Cluster :=
  match r with
  | ReadConfigMap name =>
      match configMaps c !! name with
      | Some d => (inr (ConfigMapBody (body_data d)), c)
      | None => (inl not_found, c)
      end
  | PatchConfigMap name props =>
      match configMaps c !! name with
      | Some d =>
          let d' := json_data props ∪ d in
          (inr (ConfigMapBody (body_data d')), with_configMaps (<[name := d']> (configMaps c)) c)
      | None => (inl not_found, c)
      end
  | CreateConfigMap name d =>
      match configMaps c !! name with
      | Some _ => (inl conflict, c)
      | None => (inr (ConfigMapBody (body_data d)), with_configMaps (<[name := d]> (configMaps c)) c)
      end
  | DeleteConfigMap name =>
      match configMaps c !! name with
      | Some _ => (inr Accepted, with_configMaps (delete name (configMaps c)) c)
      | None => (inl not_found, c)
      end
  | Rollout kind name => (inr Accepted, with_restarted (restarted c ++ [(kind, name)]) c)
  | GetGroup name =>
      match groups c !! name with
      | Some users => (inr (GroupBody users), c)
      | None => (inl not_found, c)
      end
  | ListGroups => (inr (GroupListBody (map fst (map_to_list (groups c)))), c)
  end.

(** A request reaching the API: a fault if the world has one for it. *)
Definition serve (r : ApiRequest) (w : World) : (Js.JsError + ApiResponse) * World :=
  match faults w r with
  | Some e => (inl e, w)
  | None => let '(res, c) := perform r (cluster w) in (res, with_cluster c w)
  end.

(** Serving a request nobody awaits: its failure is an unhandled rejection. *)
Definition serve_detached (w : World) (r : ApiRequest) : World :=
  match serve r w with
  | (inl e, w') => with_unhandled (unhandled w' ++ [e]) w'
  | (inr _, w') => w'
  end.

(** All the requests in flight are served, in the order they were sent. *)
Definition settle (w : World) : World :=
  fold_left serve_detached (inflight w) (with_inflight [] w).

(** ** The monad of a handler: state and exceptions *)

Inductive Completion (A : Type) :=
  | Normal (a : A)
  | Throw (e : Js.JsError).
Arguments Normal {A} a.
Arguments Throw {A} e.

Definition M (A : Type) : Type := World -> Completion A * World.

Definition ret {A} (a : A) : M A := fun w => (Normal a, w).

Definition bind {A B} (m : M A) (k : A -> M B) : M B :=
  fun w =>
    match m w with
    | (Normal a, w') => k a w'
    | (Throw e, w') => (Throw e, w')
    end.

Definition throw {A} (e : Js.JsError) : M A := fun w => (Throw e, w).

(** [try { m } catch (e) { h e }] *)
Definition try_catch {A} (m : M A) (h : Js.JsError -> M A) : M A :=
  fun w =>
    match m w with
    | (Normal a, w') => (Normal a, w')
    | (Throw e, w') => h e w'
    end.

#[global] Instance M_ret : MRet M := @ret.
#[global] Instance M_bind : MBind M := fun A B k m => bind m k.

(** [await api.request(...)] *)
Definition await (r : ApiRequest) : M ApiResponse :=
  fun w =>
    let w1 := with_issued (issued w ++ [r]) w in
    let w2 :=
      match inflight w1 with
      | [] => w1
      | _ :: _ => if overtakes w1 r then w1 else settle w1
      end in
    match serve r w2 with
    | (inl e, w3) => (Throw e, w3)
    | (inr x, w3) => (Normal x, w3)
    end.

(** [api.request(...)] whose promise is dropped. *)
Definition fire (r : ApiRequest) : M unit :=
  fun w => (Normal tt, with_inflight (inflight w ++ [r]) (with_issued (issued w ++ [r]) w)).

Definition log (level : LogLevel) (msg : string) : M unit :=
  fun w => (Normal tt, with_logs (logs w ++ [(level, msg)]) w).

(** Modelled from the spec: [getDashboardConfig] (utils/resourceUtils, not
    part of the sources) is a read-only accessor of the dashboard
    configuration the backend holds. *)
Definition getDashboardConfig : M DashboardConfig :=
  fun w => (Normal (dashboardConfig w), w).

(** JavaScript object access on what the API returned. *)

(** [o[key]] where [o] is an object of strings or [undefined]. *)
Definition property (o : option (gmap string string)) (key : string) : M (option string) :=
  match o with
  | Some d => ret (d !! key)
  | None => throw (Js.undefined_property key)
  end.

(** [v.replace(pat, rep)] where [v] is a string or [undefined]. *)
Definition call_replace (v : option string) (pat rep : string) : M string :=
  match v with
  | Some s => ret (Js.replace pat rep s)
  | None => throw (Js.undefined_property "replace")
  end.

(** The [body.data] of the ConfigMap a request answered with. *)
Definition response_data (r : ApiResponse) : option (gmap string string) :=
  match r with
  | ConfigMapBody d => d
  | _ => None
  end.

Definition readNamespacedConfigMap (name : string) : M (option (gmap string string)) :=
  r ← await (ReadConfigMap name); ret (response_data r).

Definition createNamespacedConfigMap (name : string) (data : gmap string string) : M unit :=
  await (CreateConfigMap name data);; ret tt.

Definition deleteNamespacedConfigMap (name : string) : M unit :=
  await (DeleteConfigMap name);; ret tt.

(** Modelled from the spec: [rolloutDeployment] (utils/deployment, not part
    of the sources) asks for a restart of the named Deployment; the
    handler awaits the request. *)
Definition rolloutDeployment (name : string) : M unit :=
  await (Rollout Deployment name);; ret tt.

(** Modelled from the spec: [rolloutDeploymentConfig] (utils/deployment,
    not part of the sources) asks for a restart of the named
    DeploymentConfig; the handler awaits the request. *)
Definition rolloutDeploymentConfig (name : string) : M unit :=
  await (Rollout DeploymentConfig name);; ret tt.

(* ===================================================================== *)
(** * Cluster settings *)
(* ===================================================================== *)

Definition jupyterhubCfg : string := "jupyterhub-cfg".
Definition nbcCfg : string := "notebook-controller-culler-config".
Definition segmentKeyCfg : string := "odh-segment-key-config".

Record ClusterSettings := {
  pvcSize : Js.number;
  cullerTimeout : Js.number;
  userTrackingEnabled : option bool
}.

Definition DEFAULT_PVC_SIZE : Js.number := Js.num 20.
Definition DEFAULT_CULLER_TIMEOUT : Js.number := Js.num 31536000.
Definition DEFAULT_IDLENESS_CHECK_PERIOD : string := "1".
Definition DEFAULT_CLUSTER_SETTINGS : ClusterSettings :=
  {| pvcSize := DEFAULT_PVC_SIZE;
     cullerTimeout := DEFAULT_CULLER_TIMEOUT;
     userTrackingEnabled := None |}.

Definition set_pvcSize (x : Js.number) (cs : ClusterSettings) : ClusterSettings :=
  {| pvcSize := x; cullerTimeout := cullerTimeout cs;
     userTrackingEnabled := userTrackingEnabled cs |}.

Definition set_cullerTimeout (x : Js.number) (cs : ClusterSettings) : ClusterSettings :=
  {| pvcSize := pvcSize cs; cullerTimeout := x;
     userTrackingEnabled := userTrackingEnabled cs |}.

Definition set_userTrackingEnabled (b : option bool) (cs : ClusterSettings) : ClusterSettings :=
  {| pvcSize := pvcSize cs; cullerTimeout := cullerTimeout cs;
     userTrackingEnabled := b |}.

(** The result object of [updateClusterSettings]. *)
Record UpdateResult := { success : bool; error : option string }.

(** [dashConfig.spec?.notebookController?.enabled], as a condition. *)
Definition notebookController_enabled (dashConfig : DashboardConfig) : bool :=
  match spec dashConfig with
  | Some sp =>
      match notebookController sp with
      | Some nc => enabled nc
      | None => false
      end
  | None => false
  end.

(** [dashConfig.spec.notebookController.enabled], without optional chaining. *)
Definition notebookController_enabled_strict (dashConfig : DashboardConfig) : M bool :=
  match spec dashConfig with
  | Some sp =>
      match notebookController sp with
      | Some nc => ret (enabled nc)
      | None => throw (Js.undefined_property "enabled")
      end
  | None => throw (Js.undefined_property "notebookController")
  end.

(** The request [patchCM] sends: a merge patch of the ConfigMap's data. *)
Definition patchCM_request (name : string) (data : list (string * option string)) : ApiRequest :=
  PatchConfigMap name data.

(** [await patchCM(fastify, name, {data})] *)
Definition patchCM (name : string) (data : list (string * option string))
  : M (option (gmap string string)) :=
  r ← await (patchCM_request name data); ret (response_data r).

(** [patchCM(fastify, name, {data})] as a statement: the request is sent
    and its promise dropped. *)
Definition patchCM_detached (name : string) (data : list (string * option string)) : M unit :=
  fire (patchCM_request name data).

(** The ConfigMap created when culling is switched on and none exists. *)
Definition culler_config (isEnabled : bool) (cullingTimeMin : Js.number) : gmap string string :=
  <["ENABLE_CULLING" := Js.bool_to_string isEnabled]>
    (<["CULL_IDLE_TIME" := Js.number_to_string cullingTimeMin]>
       (<["IDLENESS_CHECK_PERIOD" := DEFAULT_IDLENESS_CHECK_PERIOD]> ∅)).

(** The statements of the [try] of [updateClusterSettings], in order. *)

(** The tracking flag. *)
Definition update_tracking_flag (query : gmap string string) : M unit :=
  if bool_decide (query !! "userTrackingEnabled" ≠ Some "null") then
    patchCM segmentKeyCfg [("segmentKeyEnabled", query !! "userTrackingEnabled")];; ret tt
  else ret tt.

(** Notebook-controller mode: the culling ConfigMap is deleted, patched or
    created. *)
Definition update_culler_config (query : gmap string string) : M unit :=
  let cullingTimeMin := Js.div (Js.Number (query !! "cullerTimeout")) (Js.num 60) in
  let isEnabled :=
    if Js.strict_eq (Js.Number (query !! "cullerTimeout")) DEFAULT_CULLER_TIMEOUT
    then false else true in
  if negb isEnabled then
    deleteNamespacedConfigMap nbcCfg
  else
    try_catch
      (patchCM nbcCfg
         [("ENABLE_CULLING", Some (Js.bool_to_string isEnabled));
          ("CULL_IDLE_TIME", Some (Js.number_to_string cullingTimeMin))];; ret tt)
      (fun e =>
         if bool_decide (Js.statusCode e = Some 404) then
           createNamespacedConfigMap "notebook-controller-culler-config"
             (culler_config isEnabled cullingTimeMin)
         else ret tt).

(** PVC size and culler timeout, when both are given. *)
Definition update_size_and_timeout (query : gmap string string)
    (dashConfig : DashboardConfig) : M unit :=
  if Js.truthy (query !! "pvcSize") && Js.truthy (query !! "cullerTimeout") then
    if notebookController_enabled dashConfig then
      update_culler_config query
    else
      patchCM_detached jupyterhubCfg
        [("singleuser_pvc_size", Some (Js.interpolate (query !! "pvcSize") ++ "Gi"));
         ("culler_timeout", query !! "cullerTimeout")]
  else ret tt.

(** Legacy mode: the ConfigMap is read again and compared with the query. *)
Definition rollout_legacy (query : gmap string string) : M unit :=
  jupyterhubCM ← readNamespacedConfigMap jupyterhubCfg;
  size ← property jupyterhubCM "singleuser_pvc_size";
  size' ← call_replace size "Gi" "";
  (if bool_decide (Some size' ≠ query !! "pvcSize") then
     rolloutDeploymentConfig "jupyterhub"
   else ret tt);;
  timeout ← property jupyterhubCM "culler_timeout";
  if bool_decide (timeout ≠ query !! "cullerTimeout") then
    rolloutDeploymentConfig "jupyterhub-idle-culler"
  else ret tt.

(** The rollouts. *)
Definition rollout_changes (query : gmap string string)
    (dashConfig : DashboardConfig) : M unit :=
  nbc ← notebookController_enabled_strict dashConfig;
  if (nbc : bool) then rolloutDeployment "notebook-controller-deployment"
  else rollout_legacy query.

(** The body of the [try]. *)
Definition updateClusterSettings_body (query : gmap string string)
    (dashConfig : DashboardConfig) : M (option UpdateResult) :=
  update_tracking_flag query;;
  update_size_and_timeout query dashConfig;;
  rollout_changes query dashConfig;;
  ret (Some {| success := true; error := None |}).

(** The [catch] of [updateClusterSettings].  The argument of the log call
    reads [e.respose.body]; without a [return] for a 404 the function ends
    with [undefined]. *)
Definition updateClusterSettings_catch (e : Js.JsError) : M (option UpdateResult) :=
  if bool_decide (Js.response_statusCode e ≠ Some 404) then
    match Js.respose e with
    | Some body_message =>
        log LogError ("Setting cluster settings error: " ++ Js.to_string e ++ body_message);;
        ret (Some {| success := false;
                     error := Some ("Unable to update cluster settings. " ++ Js.message e) |})
    | None => throw (Js.undefined_property "body")
    end
  else ret None.

Definition updateClusterSettings (query : gmap string string) : M (option UpdateResult) :=
  dashConfig ← getDashboardConfig;
  try_catch (updateClusterSettings_body query dashConfig) updateClusterSettings_catch.

Definition readJupyterhubCfg : M (Js.number * Js.number) :=
  jupyterhubCfgResponse ← readNamespacedConfigMap jupyterhubCfg;
  size ← property jupyterhubCfgResponse "singleuser_pvc_size";
  size' ← call_replace size "Gi" "";
  let pvcSize := Js.Number (Some size') in
  timeout ← property jupyterhubCfgResponse "culler_timeout";
  let cullerTimeout := Js.Number timeout in
  ret (pvcSize, cullerTimeout).

(** The promise chain on the culling ConfigMap: the read and its [then]. *)
Definition read_culler_config (clusterSettings : ClusterSettings) : M ClusterSettings :=
  res ← readNamespacedConfigMap nbcCfg;
  cullerTimeout ← property res "CULL_IDLE_TIME";
  enable ← property res "ENABLE_CULLING";
  let isEnabled := Js.truthy enable in
  if isEnabled then
    ret (set_cullerTimeout (Js.mul (Js.Number cullerTimeout) (Js.num 60)) clusterSettings)
  else ret clusterSettings.

(** The [catch] of that chain. *)
Definition culler_config_catch (clusterSettings : ClusterSettings) (e : Js.JsError)
  : M ClusterSettings :=
  if bool_decide (Js.statusCode e = Some 404) then
    log LogWarn "Notebook controller culling config not found, culling disabled...";;
    ret clusterSettings
  else
    log LogError ("Error getting notebook controller culling settings: " ++ Js.to_string e);;
    throw e.

(** The first [try] of [getClusterSettings], on the tracking flag, and its
    [catch]. *)
Definition read_tracking_flag (clusterSettings : ClusterSettings) : M ClusterSettings :=
  segmentEnabledRes ← readNamespacedConfigMap segmentKeyCfg;
  flag ← property segmentEnabledRes "segmentKeyEnabled";
  ret (set_userTrackingEnabled (Some (bool_decide (flag = Some "true"))) clusterSettings).

Definition tracking_flag_catch (clusterSettings : ClusterSettings) (e : Js.JsError)
  : M ClusterSettings :=
  log LogError ("Error retrieving segment key enabled: " ++ Js.to_string e);;
  ret clusterSettings.

(** The [try] of the legacy branch and its [catch]. *)
Definition read_legacy_config (clusterSettings : ClusterSettings) : M ClusterSettings :=
  '(pvcSize, cullerTimeout) ← readJupyterhubCfg;
  ret (set_cullerTimeout cullerTimeout (set_pvcSize pvcSize clusterSettings)).

Definition legacy_config_catch (clusterSettings : ClusterSettings) (e : Js.JsError)
  : M ClusterSettings :=
  log LogError ("Error retrieving cluster settings: " ++ Js.to_string e);;
  ret clusterSettings.

(** [getClusterSettings] is declared to return [ClusterSettings | string]. *)
Definition getClusterSettings : M (ClusterSettings + string) :=
  let clusterSettings := DEFAULT_CLUSTER_SETTINGS in
  dashConfig ← getDashboardConfig;
  clusterSettings ←
    try_catch (read_tracking_flag clusterSettings) (tracking_flag_catch clusterSettings);
  clusterSettings ←
    (if notebookController_enabled dashConfig then
       let clusterSettings :=
         set_cullerTimeout DEFAULT_CULLER_TIMEOUT (set_pvcSize (Js.num 20) clusterSettings) in
       try_catch (read_culler_config clusterSettings) (culler_config_catch clusterSettings)
     else
       try_catch (read_legacy_config clusterSettings) (legacy_config_catch clusterSettings));
  ret (inl clusterSettings).

(* ===================================================================== *)
(** * Groups *)
(* ===================================================================== *)

(** [getClusterCustomObject('user.openshift.io', 'v1', 'groups', name)],
    and the [users] of the body. *)
Definition getClusterCustomObject_users (name : string) : M (list string) :=
  r ← await (GetGroup name);
  ret match r with
      | GroupBody users => users
      | _ => []
      end.

Definition getGroup (adminGroup : string) : M (list string) :=
  try_catch (getClusterCustomObject_users adminGroup)
    (fun e =>
       throw (Js.MissingGroupError
                ("Failed to retrieve Group " ++ adminGroup ++ ", might not exist."))).

Definition listClusterCustomObject_names : M (list string) :=
  r ← await ListGroups;
  ret match r with
      | GroupListBody names => names
      | _ => []
      end.

Definition getAllGroups : M (list string) :=
  try_catch listClusterCustomObject_names
    (fun e => throw (Js.Error "Failed to list groups.")).

(* ===================================================================== *)
(** * Worlds and observations used in the statements *)
(* ===================================================================== *)

(** A handler starts with nothing in flight and nothing sent or logged. *)
Definition start (c : Cluster) (dashConfig : DashboardConfig)
    (f : ApiRequest -> option Js.JsError) (o : ApiRequest -> bool) : World :=
  {| cluster := c; dashboardConfig := dashConfig; faults := f; overtakes := o;
     inflight := []; issued := []; unhandled := []; logs := [] |}.

(** An API without faults of its own; the two extreme schedules: every
    request served in the order it was sent, and every awaited request
    served before what is still in flight. *)
Definition no_faults : ApiRequest -> option Js.JsError := fun _ => None.
Definition in_order : ApiRequest -> bool := fun _ => false.
Definition overtaking : ApiRequest -> bool := fun _ => true.

(** The API failing one given kind of request on one ConfigMap. *)
Definition failing_patch (name : string) (e : Js.JsError) : ApiRequest -> option Js.JsError :=
  fun r =>
    match r with
    | PatchConfigMap n _ => if bool_decide (n = name) then Some e else None
    | _ => None
    end.

Definition failing_create (name : string) (e : Js.JsError) : ApiRequest -> option Js.JsError :=
  fun r =>
    match r with
    | CreateConfigMap n _ => if bool_decide (n = name) then Some e else None
    | _ => None
    end.

(** The two modes: [notebookController.enabled] set or cleared. *)
Definition dashboard (nbc : bool) : DashboardConfig :=
  {| spec := Some {| notebookController := Some {| enabled := nbc |} |} |}.

Definition cluster_of (cms : gmap string (gmap string string)) : Cluster :=
  {| configMaps := cms; groups := ∅; restarted := [] |}.

(** Requests that write a ConfigMap whose name is in [prot]. *)
Definition writes (prot : string -> bool) (r : ApiRequest) : bool :=
  match r with
  | PatchConfigMap n _ | CreateConfigMap n _ | DeleteConfigMap n => prot n
  | _ => false
  end.

(** Requests that write the named ConfigMap. *)
Definition writes_to (name : string) : ApiRequest -> bool :=
  writes (fun n => bool_decide (n = name)).

(** The ConfigMaps behind PVC size and culler timeout. *)
Definition settings_store (n : string) : bool :=
  bool_decide (n = nbcCfg) || bool_decide (n = jupyterhubCfg).

(** The request that patches the tracking flag for a query. *)
Definition tracking_patch (query : gmap string string) : ApiRequest :=
  PatchConfigMap segmentKeyCfg [("segmentKeyEnabled", query !! "userTrackingEnabled")].

(** The first step of [updateClusterSettings] does not throw: either the
    query says ['null'] and nothing is sent, or the tracking ConfigMap
    exists and the API accepts the patch. *)
Definition tracking_step_ok (query : gmap string string) (c : Cluster)
    (f : ApiRequest -> option Js.JsError) : Prop :=
  query !! "userTrackingEnabled" = Some "null" ∨
  (is_Some (configMaps c !! segmentKeyCfg) ∧ f (tracking_patch query) = None).

(** The patch of the legacy ConfigMap for a query. *)
Definition legacy_patch (query : gmap string string) : ApiRequest :=
  PatchConfigMap jupyterhubCfg
    [("singleuser_pvc_size", Some (Js.interpolate (query !! "pvcSize") ++ "Gi"));
     ("culler_timeout", query !! "cullerTimeout")].

(** ** Concrete clusters and queries *)

Definition legacy_cluster : Cluster :=
  cluster_of {[ jupyterhubCfg :=
                  {[ "singleuser_pvc_size" := "20Gi"; "culler_timeout" := "3600" ]} ]}.

Definition culler_cluster (enable minutes : string) : Cluster :=
  cluster_of {[ nbcCfg := {[ "ENABLE_CULLING" := enable; "CULL_IDLE_TIME" := minutes ]} ]}.

Definition empty_cluster : Cluster := cluster_of ∅.

Definition query_of (size timeout tracking : string) : gmap string string :=
  {[ "pvcSize" := size; "cullerTimeout" := timeout; "userTrackingEnabled" := tracking ]}.

Definition timeout_only (timeout : string) : gmap string string :=
  {[ "cullerTimeout" := timeout; "userTrackingEnabled" := "null" ]}.

Definition tracked_cluster : Cluster :=
  cluster_of {[ segmentKeyCfg := {[ "segmentKeyEnabled" := "true" ]};
                jupyterhubCfg :=
                  {[ "singleuser_pvc_size" := "20Gi"; "culler_timeout" := "3600" ]} ]}.

Definition size_and_timeout (size timeout : string) : gmap string string :=
  {[ "pvcSize" := size; "cullerTimeout" := timeout ]}.

Definition tracking_only (tracking : string) : gmap string string :=
  {[ "userTrackingEnabled" := tracking ]}.

(** The result object of a successful update. *)
Definition ok : option UpdateResult := Some {| success := true; error := None |}.

(** The controller deployment of the notebook-controller mode. *)
Definition controller : Workload * string := (Deployment, "notebook-controller-deployment").

(** A run of [updateClusterSettings] on a cluster, with
    [notebookController.enabled] being [nbc], an API without faults of its
    own and every request served in the order it was sent. *)
Definition update_in (c : Cluster) (nbc : bool) (query : gmap string string)
  : Completion (option UpdateResult) * World :=
  updateClusterSettings query (start c (dashboard nbc) no_faults in_order).

(* ===================================================================== *)
(** * Assertions on worlds *)
(* ===================================================================== *)

(** A Hoare triple for handlers: from a world in [P], the completion and
    the final world of [m] are in [Q]. *)
Definition hoare {A} (P : World -> Prop) (m : M A)
    (Q : Completion A -> World -> Prop) : Prop :=
  forall w, P w -> Q (m w).1 (m w).2.

(** [m] keeps the invariant [I], however it completes. *)
Definition preserves {A} (I : World -> Prop) (m : M A) : Prop :=
  hoare I m (fun _ => I).

(** Frames.  [kept] says the ConfigMaps named by [prot] are what they were
    in [cms0] and nothing in flight will write them; [quiet] says the
    handler sent no request writing them. *)
Definition kept (prot : string -> bool) (cms0 : gmap string (gmap string string))
    (w : World) : Prop :=
  (forall n, prot n = true -> configMaps (cluster w) !! n = cms0 !! n) /\
  Forall (fun r => writes prot r = false) (inflight w).

Definition quiet (prot : string -> bool) (w : World) : Prop :=
  Forall (fun r => writes prot r = false) (issued w).

Definition framed (prot : string -> bool) (cms0 : gmap string (gmap string string))
    (w : World) : Prop :=
  kept prot cms0 w /\ quiet prot w.

(** The request [r0] is in the log of what was sent. *)
Definition sent (r0 : ApiRequest) (w : World) : Prop := r0 ∈ issued w.

Definition completion {A} (r : Js.JsError + A) : Completion A :=
  match r with
  | inl e => Throw e
  | inr a => Normal a
  end.

(** Nothing in flight, the faults [f], the ConfigMap [n] being [X] and the
    restarts so far [rs]. *)
Definition settled (f : ApiRequest -> option Js.JsError) (n : string)
    (X : option (gmap string string)) (rs : list (Workload * string)) (w : World) : Prop :=
  inflight w = [] /\ faults w = f /\
  configMaps (cluster w) !! n = X /\ restarted (cluster w) = rs.

(** The patch of ConfigMap [name] was sent without being awaited: either it
    is still in flight, or it has been applied. *)
Definition patch_pending (name : string) (props : list (string * option string))
    (d0 : gmap string string) (f : ApiRequest -> option Js.JsError) (w : World) : Prop :=
  faults w = f /\
  ((inflight w = [PatchConfigMap name props] /\ configMaps (cluster w) !! name = Some d0) \/
   (inflight w = [] /\ configMaps (cluster w) !! name = Some (json_data props ∪ d0))).

(** Nothing in flight, on the cluster [c]. *)
Definition reading (c : Cluster) (cfg : DashboardConfig)
    (f : ApiRequest -> option Js.JsError) (w : World) : Prop :=
  inflight w = [] /\ faults w = f /\ cluster w = c /\ dashboardConfig w = cfg.

(** The result of [getClusterSettings] written as a function of the
    cluster and the faults; [getClusterSettings_reading] below proves the
    handler computes it. *)

(** What reading a ConfigMap answers. *)
Definition read_result (name : string) (c : Cluster)
    (f : ApiRequest -> option Js.JsError) : Completion (option (gmap string string)) :=
  match f (ReadConfigMap name) with
  | Some e => Throw e
  | None =>
      match configMaps c !! name with
      | Some d => Normal (body_data d)
      | None => Throw not_found
      end
  end.

Definition tracking_settings (cs : ClusterSettings) (c : Cluster)
    (f : ApiRequest -> option Js.JsError) : ClusterSettings :=
  match read_result segmentKeyCfg c f with
  | Normal (Some d) =>
      set_userTrackingEnabled
        (Some (bool_decide (d !! "segmentKeyEnabled" = Some "true"))) cs
  | _ => cs
  end.

Definition culler_settings (cs : ClusterSettings) (c : Cluster)
    (f : ApiRequest -> option Js.JsError) : Completion ClusterSettings :=
  match read_result nbcCfg c f with
  | Normal (Some d) =>
      Normal (if Js.truthy (d !! "ENABLE_CULLING")
              then set_cullerTimeout
                     (Js.mul (Js.Number (d !! "CULL_IDLE_TIME")) (Js.num 60)) cs
              else cs)
  | Normal None => Throw (Js.undefined_property "CULL_IDLE_TIME")
  | Throw e => if bool_decide (Js.statusCode e = Some 404) then Normal cs else Throw e
  end.

Definition legacy_settings (cs : ClusterSettings) (c : Cluster)
    (f : ApiRequest -> option Js.JsError) : ClusterSettings :=
  match read_result jupyterhubCfg c f with
  | Normal (Some d) =>
      match d !! "singleuser_pvc_size" with
      | Some size =>
          set_cullerTimeout (Js.Number (d !! "culler_timeout"))
            (set_pvcSize (Js.Number (Some (Js.replace "Gi" "" size))) cs)
      | None => cs
      end
  | _ => cs
  end.

Definition settings_read (c : Cluster) (cfg : DashboardConfig)
    (f : ApiRequest -> option Js.JsError) : Completion (ClusterSettings + string) :=
  let cs := tracking_settings DEFAULT_CLUSTER_SETTINGS c f in
  if notebookController_enabled cfg then
    match culler_settings
            (set_cullerTimeout DEFAULT_CULLER_TIMEOUT (set_pvcSize (Js.num 20) cs)) c f with
    | Normal cs' => Normal (inl cs')
    | Throw e => Throw e
    end
  else Normal (inl (legacy_settings cs c f)).

(* ===================================================================== *)
(** * Groups configuration *)
(* ===================================================================== *)

Record GroupsConfigBody := { adminGroups : string; allowedGroups : string }.

(** Modelled from the spec: [getDashboardConfig().spec.groupsConfig], the
    field of the dashboard configuration the group utilities read; it is
    passed as [groupsConfig] ([None] when the field is missing), and reading
    it throws when [spec] is missing. *)
Definition spec_groupsConfig (groupsConfig : option GroupsConfigBody)
  : M (option GroupsConfigBody) :=
  dashConfig ← getDashboardConfig;
  match spec dashConfig with
  | Some _ => ret groupsConfig
  | None => throw (Js.undefined_property "groupsConfig")
  end.

Definition getGroupsCR (groupsConfig : option GroupsConfigBody) : M GroupsConfigBody :=
  try_catch
    (g ← spec_groupsConfig groupsConfig;
     ret match g with
         | Some body => body
         | None => {| adminGroups := ""; allowedGroups := "" |}
         end)
    (fun e => throw (Js.Error "Failed to retrieve Dashboard CR groups configuration")).

Definition getAdminGroups (groupsConfig : option GroupsConfigBody) : M string :=
  try_catch
    (g ← getGroupsCR groupsConfig; ret (adminGroups g))
    (fun e => throw (Js.Error (Js.to_string e ++ " for adminGroups attribute"))).

Definition getAllowedGroups (groupsConfig : option GroupsConfigBody) : M string :=
  try_catch
    (g ← getGroupsCR groupsConfig; ret (allowedGroups g))
    (fun e => throw (Js.Error (Js.to_string e ++ " for allowedGroups attribute"))).

(* ===================================================================== *)
(** * Requests of each mode *)
(* ===================================================================== *)

(** Every request the handler sent is in [allowed]. *)
Definition only (allowed : ApiRequest -> bool) (w : World) : Prop :=
  Forall (fun r => allowed r = true) (issued w).

(** The requests of [updateClusterSettings] in notebook-controller mode. *)
Definition nbc_requests (r : ApiRequest) : bool :=
  match r with
  | PatchConfigMap n _ => bool_decide (n = segmentKeyCfg) || bool_decide (n = nbcCfg)
  | CreateConfigMap n _ | DeleteConfigMap n => bool_decide (n = nbcCfg)
  | Rollout Deployment n => bool_decide (n = "notebook-controller-deployment")
  | _ => false
  end.

(** The requests of [updateClusterSettings] in legacy mode. *)
Definition legacy_requests (r : ApiRequest) : bool :=
  match r with
  | PatchConfigMap n _ => bool_decide (n = segmentKeyCfg) || bool_decide (n = jupyterhubCfg)
  | ReadConfigMap n => bool_decide (n = jupyterhubCfg)
  | Rollout DeploymentConfig n =>
      bool_decide (n = "jupyterhub") || bool_decide (n = "jupyterhub-idle-culler")
  | _ => false
  end.

(** The ConfigMap that holds the culler timeout in each mode. *)
Definition authoritative (cfg : DashboardConfig) : string :=
  if notebookController_enabled cfg then nbcCfg else jupyterhubCfg.

(* ===================================================================== *)
(** * The rollouts of legacy mode *)
(* ===================================================================== *)

Definition is_rollout (r : ApiRequest) : bool :=
  match r with
  | Rollout _ _ => true
  | _ => false
  end.

(** The faults are [f] and no rollout is in flight. *)
Definition no_rollout_inflight (f : ApiRequest -> option Js.JsError) (w : World) : Prop :=
  faults w = f /\ Forall (fun r => is_rollout r = false) (inflight w).

(** The DeploymentConfigs lines 102-107 roll out when the ConfigMap read
    again holds [d], with [size] as singleuser_pvc_size. *)
Definition legacy_diff (query : gmap string string) (d : gmap string string)
    (size : string) : list (Workload * string) :=
  (if bool_decide (Some (Js.replace "Gi" "" size) ≠ query !! "pvcSize")
   then [(DeploymentConfig, "jupyterhub")] else []) ++
  (if bool_decide (d !! "culler_timeout" ≠ query !! "cullerTimeout")
   then [(DeploymentConfig, "jupyterhub-idle-culler")] else []).

(** [pat] occurs in [s]. *)
Fixpoint occurs (pat s : string) : bool :=
  String.prefix pat s ||
  match s with
  | EmptyString => false
  | String _ s' => occurs pat s'
  end.

(** The patch of ConfigMap [name] was sent without being awaited and the
    API fails it with [e]: either it is still in flight, or it has been
    rejected with nobody to handle the rejection; the ConfigMap is [d0]. *)
Definition patch_failing (name : string) (props : list (string * option string))
    (d0 : gmap string string) (e : Js.JsError)
    (f : ApiRequest -> option Js.JsError) (w : World) : Prop :=
  faults w = f /\ configMaps (cluster w) !! name = Some d0 /\
  ((inflight w = [PatchConfigMap name props] /\ unhandled w = []) \/
   (inflight w = [] /\ unhandled w = [e])).

(* ===================================================================== *)
(** * Properties *)
(* ===================================================================== *)

(** ** A Hoare logic for handlers *)

Section Rules.
Context {A B : Type}.

Lemma hoare_weaken (P P' : World -> Prop) (Q Q' : Completion A -> World -> Prop) (m : M A) :
  hoare P m Q -> (forall w, P' w -> P w) -> (forall r w, Q r w -> Q' r w) ->
  hoare P' m Q'.
Proof. intros Hm HP HQ w Hw. apply HQ, Hm, HP, Hw. Qed.

Lemma hoare_ret (P : World -> Prop) (Q : Completion A -> World -> Prop) (a : A) :
  (forall w, P w -> Q (Normal a) w) -> hoare P (mret a) Q.
Proof. intros H w Hw. apply H, Hw. Qed.

Lemma hoare_throw (P : World -> Prop) (Q : Completion A -> World -> Prop) e :
  (forall w, P w -> Q (Throw e) w) -> hoare P (throw e) Q.
Proof. intros H w Hw. apply H, Hw. Qed.

Lemma hoare_bind (P : World -> Prop) (R : Completion A -> World -> Prop)
    (Q : Completion B -> World -> Prop) (m : M A) (k : A -> M B) :
  hoare P m R ->
  (forall a, hoare (R (Normal a)) (k a) Q) ->
  (forall e w, R (Throw e) w -> Q (Throw e) w) ->
  hoare P (m ≫= k) Q.
Proof.
  intros Hm Hk He w Hw. specialize (Hm w Hw).
  unfold mbind, M_bind, bind. destruct (m w) as [[a|e] w']; simpl in *.
  - apply Hk, Hm.
  - apply He, Hm.
Qed.

Lemma hoare_try_catch (P : World -> Prop) (R Q : Completion A -> World -> Prop)
    (m : M A) (h : Js.JsError -> M A) :
  hoare P m R ->
  (forall a w, R (Normal a) w -> Q (Normal a) w) ->
  (forall e, hoare (R (Throw e)) (h e) Q) ->
  hoare P (try_catch m h) Q.
Proof.
  intros Hm Ha Hh w Hw. specialize (Hm w Hw).
  unfold try_catch. destruct (m w) as [[a|e] w']; simpl in *.
  - apply Ha, Hm.
  - apply Hh, Hm.
Qed.

Lemma preserves_ret (I : World -> Prop) (a : A) : preserves I (mret a).
Proof. apply hoare_ret; auto. Qed.

Lemma preserves_throw (I : World -> Prop) e : preserves (A := A) I (throw e).
Proof. apply hoare_throw; auto. Qed.

Lemma preserves_bind (I : World -> Prop) (m : M A) (k : A -> M B) :
  preserves I m -> (forall a, preserves I (k a)) -> preserves I (m ≫= k).
Proof. intros Hm Hk. eapply hoare_bind; [exact Hm | exact Hk | auto]. Qed.

Lemma preserves_try_catch (I : World -> Prop) (m : M A) (h : Js.JsError -> M A) :
  preserves I m -> (forall e, preserves I (h e)) -> preserves I (try_catch m h).
Proof. intros Hm Hh. eapply hoare_try_catch; [exact Hm | auto | exact Hh]. Qed.
End Rules.

(** ** What a request leaves alone *)

Lemma serve_fixed r w :
  faults (serve r w).2 = faults w /\ overtakes (serve r w).2 = overtakes w /\
  dashboardConfig (serve r w).2 = dashboardConfig w /\
  inflight (serve r w).2 = inflight w /\ issued (serve r w).2 = issued w /\
  unhandled (serve r w).2 = unhandled w /\ logs (serve r w).2 = logs w.
Proof.
  unfold serve. destruct (faults w r); [done|].
  destruct (perform r (cluster w)); done.
Qed.

Lemma serve_detached_fixed w r :
  faults (serve_detached w r) = faults w /\ overtakes (serve_detached w r) = overtakes w /\
  dashboardConfig (serve_detached w r) = dashboardConfig w /\
  inflight (serve_detached w r) = inflight w /\ issued (serve_detached w r) = issued w /\
  logs (serve_detached w r) = logs w.
Proof.
  unfold serve_detached. pose proof (serve_fixed r w) as H.
  destruct (serve r w) as [[e|x] w']; simpl in *; intuition congruence.
Qed.

Lemma serve_all_fixed l w :
  let w' := fold_left serve_detached l w in
  faults w' = faults w /\ overtakes w' = overtakes w /\
  dashboardConfig w' = dashboardConfig w /\
  inflight w' = inflight w /\ issued w' = issued w /\ logs w' = logs w.
Proof.
  revert w. induction l as [|r l IH]; intros w; simpl; [done|].
  specialize (IH (serve_detached w r)). simpl in IH.
  pose proof (serve_detached_fixed w r). intuition congruence.
Qed.

Lemma settle_fixed w :
  faults (settle w) = faults w /\ overtakes (settle w) = overtakes w /\
  dashboardConfig (settle w) = dashboardConfig w /\
  inflight (settle w) = [] /\ issued (settle w) = issued w /\ logs (settle w) = logs w.
Proof.
  unfold settle. pose proof (serve_all_fixed (inflight w) (with_inflight [] w)) as H.
  simpl in H. intuition congruence.
Qed.

Lemma settle_idle w : inflight w = [] -> settle w = w.
Proof. destruct w; simpl; intros ->; reflexivity. Qed.

(** ** Frames: ConfigMaps no request writes

    [kept] says the ConfigMaps named by [prot] are what they were in [cms0]
    and nothing in flight will write them; [quiet] says the handler sent no
    request writing them. *)
Section Frame.
Variable prot : string -> bool.
Variable cms0 : gmap string (gmap string string).

Lemma perform_kept r c n :
  writes prot r = false -> prot n = true ->
  configMaps (perform r c).2 !! n = configMaps c !! n.
Proof.
  intros Hr Hn.
  assert (forall name, prot name = false -> name <> n) as Hne by congruence.
  destruct r; simpl in *; try reflexivity.
  all: repeat match goal with |- context [match ?x with _ => _ end] => destruct x end.
  all: simpl; try reflexivity.
  - apply lookup_insert_ne; auto.
  - apply lookup_insert_ne; auto.
  - apply lookup_delete_ne; auto.
Qed.

Lemma serve_kept r w n :
  writes prot r = false -> prot n = true ->
  configMaps (cluster (serve r w).2) !! n = configMaps (cluster w) !! n.
Proof.
  intros Hr Hn. unfold serve. destruct (faults w r); [done|].
  pose proof (perform_kept r (cluster w) n Hr Hn) as H.
  destruct (perform r (cluster w)); exact H.
Qed.

Lemma serve_detached_kept r w n :
  writes prot r = false -> prot n = true ->
  configMaps (cluster (serve_detached w r)) !! n = configMaps (cluster w) !! n.
Proof.
  intros Hr Hn. unfold serve_detached.
  pose proof (serve_kept r w n Hr Hn) as H.
  destruct (serve r w) as [[e|x] w']; exact H.
Qed.

Lemma serve_all_kept l w n :
  Forall (fun r => writes prot r = false) l -> prot n = true ->
  configMaps (cluster (fold_left serve_detached l w)) !! n = configMaps (cluster w) !! n.
Proof.
  intros Hl Hn. revert w. induction Hl as [|r l Hr Hl IH]; intros w; simpl; [done|].
  rewrite IH. apply serve_detached_kept; assumption.
Qed.

Lemma settle_kept w : kept prot cms0 w -> kept prot cms0 (settle w).
Proof.
  intros [Hc Hi]. split.
  - intros n Hn. unfold settle. rewrite serve_all_kept by assumption. apply Hc, Hn.
  - destruct (settle_fixed w) as (_ & _ & _ & -> & _). constructor.
Qed.

Lemma settle_quiet w : quiet prot w -> quiet prot (settle w).
Proof. unfold quiet. destruct (settle_fixed w) as (_ & _ & _ & _ & -> & _). auto. Qed.

Lemma settle_framed w : framed prot cms0 w -> framed prot cms0 (settle w).
Proof. intros [? ?]. split; [apply settle_kept | apply settle_quiet]; assumption. Qed.

(** The world in which an awaited request is served. *)
Lemma await_kept r : writes prot r = false -> preserves (kept prot cms0) (await r).
Proof.
  intros Hr w Hw. unfold await.
  set (w1 := with_issued (issued w ++ [r]) w).
  assert (kept prot cms0 w1) as H1 by exact Hw.
  set (w2 := match inflight w1 with
             | [] => w1
             | _ :: _ => if overtakes w1 r then w1 else settle w1
             end).
  assert (kept prot cms0 w2) as [Hc Hi].
  { subst w2. destruct (inflight w1); [assumption|].
    destruct (overtakes w1 r); [assumption | apply settle_kept, H1]. }
  pose proof (serve_fixed r w2) as (_ & _ & _ & Hfl & _).
  pose proof (fun n => serve_kept r w2 n Hr) as Hs.
  destruct (serve r w2) as [[e|x] w3]; simpl in *.
  all: split; [intros n Hn; rewrite Hs by assumption; auto | rewrite Hfl; assumption].
Qed.

Lemma await_quiet r : writes prot r = false -> preserves (quiet prot) (await r).
Proof.
  intros Hr w Hw. unfold await.
  set (w1 := with_issued (issued w ++ [r]) w).
  assert (quiet prot w1) as H1.
  { unfold quiet, w1. simpl. apply Forall_app. split; [exact Hw | by constructor]. }
  set (w2 := match inflight w1 with
             | [] => w1
             | _ :: _ => if overtakes w1 r then w1 else settle w1
             end).
  assert (quiet prot w2) as H2.
  { subst w2. destruct (inflight w1); [assumption|].
    destruct (overtakes w1 r); [assumption | apply settle_quiet, H1]. }
  pose proof (serve_fixed r w2) as (_ & _ & _ & _ & His & _).
  destruct (serve r w2) as [[e|x] w3]; simpl in *; unfold quiet; rewrite His; exact H2.
Qed.

Lemma await_framed r : writes prot r = false -> preserves (framed prot cms0) (await r).
Proof.
  intros Hr w [Hk Hq]. split; [apply await_kept | apply await_quiet]; assumption.
Qed.

Lemma fire_framed r : writes prot r = false -> preserves (framed prot cms0) (fire r).
Proof.
  intros Hr w [[Hc Hi] Hq]. repeat split; simpl.
  - exact Hc.
  - apply Forall_app. split; [exact Hi | by constructor].
  - unfold quiet. simpl. apply Forall_app. split; [exact Hq | by constructor].
Qed.

Lemma log_framed level msg : preserves (framed prot cms0) (log level msg).
Proof. intros w Hw. exact Hw. Qed.
End Frame.

(** ** Invariants of [updateClusterSettings]

    An invariant that survives the requests in [allowed], among them every
    request that writes no ConfigMap, survives the statements of the
    handler that send only such requests. *)
Section Stable.
Variable I : World -> Prop.
Variable allowed : ApiRequest -> bool.
Hypothesis I_await : forall r, allowed r = true -> preserves I (await r).
Hypothesis I_fire : forall r, allowed r = true -> preserves I (fire r).
Hypothesis I_log : forall level msg, preserves I (log level msg).
Hypothesis allowed_no_write : forall r, writes (fun _ => true) r = false -> allowed r = true.

Ltac stable_step :=
  first
    [ apply preserves_ret
    | apply preserves_throw
    | apply I_log
    | apply I_await; first [ assumption | apply allowed_no_write; reflexivity ]
    | apply I_fire; assumption
    | apply preserves_bind; [| intros ?]
    | apply preserves_try_catch; [| intros ?]
    | match goal with
      | |- preserves _ (match ?x with _ => _ end) => destruct x
      end ].

Lemma getDashboardConfig_stable : preserves I getDashboardConfig.
Proof. intros w Hw. exact Hw. Qed.

Lemma rollout_changes_stable q cfg : preserves I (rollout_changes q cfg).
Proof.
  unfold rollout_changes, rollout_legacy, notebookController_enabled_strict.
  unfold rolloutDeployment, rolloutDeploymentConfig, readNamespacedConfigMap.
  unfold property, call_replace.
  repeat stable_step.
Qed.

Lemma update_tracking_flag_stable q :
  q !! "userTrackingEnabled" = Some "null" \/ allowed (tracking_patch q) = true ->
  preserves I (update_tracking_flag q).
Proof.
  intros H. unfold update_tracking_flag, patchCM, patchCM_request.
  case_bool_decide as Hq; [| apply preserves_ret].
  destruct H as [H|H]; [congruence|]. unfold tracking_patch in H.
  repeat stable_step.
Qed.

Lemma update_size_and_timeout_stable q cfg :
  Js.truthy (q !! "pvcSize") && Js.truthy (q !! "cullerTimeout") = false \/
  (forall r, writes settings_store r = true -> allowed r = true) ->
  preserves I (update_size_and_timeout q cfg).
Proof.
  intros H. unfold update_size_and_timeout.
  destruct (Js.truthy (q !! "pvcSize") && Js.truthy (q !! "cullerTimeout"));
    [| apply preserves_ret].
  destruct H as [H|H]; [discriminate|].
  unfold update_culler_config, patchCM_detached, patchCM, patchCM_request.
  unfold deleteNamespacedConfigMap, createNamespacedConfigMap.
  repeat first [ stable_step | apply I_await, H; reflexivity | apply I_fire, H; reflexivity ].
Qed.

Lemma updateClusterSettings_catch_stable e : preserves I (updateClusterSettings_catch e).
Proof. unfold updateClusterSettings_catch. repeat stable_step. Qed.

Lemma updateClusterSettings_stable q :
  q !! "userTrackingEnabled" = Some "null" \/ allowed (tracking_patch q) = true ->
  Js.truthy (q !! "pvcSize") && Js.truthy (q !! "cullerTimeout") = false \/
  (forall r, writes settings_store r = true -> allowed r = true) ->
  preserves I (updateClusterSettings q).
Proof.
  intros H1 H2. unfold updateClusterSettings, updateClusterSettings_body.
  apply preserves_bind; [apply getDashboardConfig_stable | intros cfg].
  apply preserves_try_catch; [| apply updateClusterSettings_catch_stable].
  apply preserves_bind; [apply update_tracking_flag_stable, H1 | intros _].
  apply preserves_bind; [apply update_size_and_timeout_stable, H2 | intros _].
  apply preserves_bind; [apply rollout_changes_stable | intros _].
  apply preserves_ret.
Qed.
End Stable.

Lemma start_framed prot c cfg f o : framed prot (configMaps c) (start c cfg f o).
Proof. repeat split; constructor. Qed.

Lemma settings_store_names n :
  settings_store n = true -> n = nbcCfg \/ n = jupyterhubCfg.
Proof.
  unfold settings_store. intros H. apply orb_prop in H as [H|H].
  - left. by apply bool_decide_eq_true in H.
  - right. by apply bool_decide_eq_true in H.
Qed.

(** [updateClusterSettings] keeps a frame that excludes the ConfigMaps it
    may write for the query. *)
Lemma updateClusterSettings_framed prot cms0 q :
  q !! "userTrackingEnabled" = Some "null" \/ prot segmentKeyCfg = false ->
  Js.truthy (q !! "pvcSize") && Js.truthy (q !! "cullerTimeout") = false \/
  (prot nbcCfg = false /\ prot jupyterhubCfg = false) ->
  preserves (framed prot cms0) (updateClusterSettings q).
Proof.
  intros H1 H2.
  apply updateClusterSettings_stable with (allowed := fun r => negb (writes prot r)).
  - intros r Hr. apply await_framed. by apply negb_true_iff.
  - intros r Hr. apply fire_framed. by apply negb_true_iff.
  - intros [] Hr; simpl in *; congruence.
  - destruct H1 as [H1|H1]; [by left | right]. simpl. by rewrite H1.
  - destruct H2 as [H2|[Hn Hj]]; [by left | right].
    intros [] Hr; simpl in *; try discriminate.
    all: apply settings_store_names in Hr as [-> | ->]; by rewrite ?Hn, ?Hj.
Qed.

Lemma issued_await r w : issued (await r w).2 = (issued w ++ [r])%list.
Proof.
  unfold await.
  set (w1 := with_issued (issued w ++ [r]) w).
  set (w2 := match inflight w1 with
             | [] => w1
             | _ :: _ => if overtakes w1 r then w1 else settle w1
             end).
  assert (issued w2 = (issued w ++ [r])%list) as H2.
  { subst w2. destruct (inflight w1); [done|].
    destruct (overtakes w1 r); [done|].
    by destruct (settle_fixed w1) as (_ & _ & _ & _ & -> & _). }
  pose proof (serve_fixed r w2) as (_ & _ & _ & _ & His & _).
  destruct (serve r w2) as [[e|x] w3]; simpl in *; congruence.
Qed.

Lemma await_sent r0 r : preserves (sent r0) (await r).
Proof.
  intros w Hw. unfold sent. rewrite issued_await. apply elem_of_app. by left.
Qed.

Lemma await_sent_self r : hoare (fun _ => True) (await r) (fun _ => sent r).
Proof.
  intros w _. unfold sent. rewrite issued_await. apply elem_of_app. right. by left.
Qed.

Lemma fire_sent r0 r : preserves (sent r0) (fire r).
Proof. intros w Hw. unfold sent. simpl. apply elem_of_app. by left. Qed.

Lemma updateClusterSettings_sends_tracking_patch q :
  q !! "userTrackingEnabled" <> Some "null" ->
  hoare (fun _ => True) (updateClusterSettings q) (fun _ => sent (tracking_patch q)).
Proof.
  intros Hq. unfold updateClusterSettings, updateClusterSettings_body.
  set (I := sent (tracking_patch q)).
  assert (forall r, (fun _ : ApiRequest => true) r = true -> preserves I (await r)) as Ha
    by (intros; apply await_sent).
  assert (forall r, (fun _ : ApiRequest => true) r = true -> preserves I (fire r)) as Hf
    by (intros; apply fire_sent).
  eapply hoare_bind
    with (R := fun r _ => match r with Normal _ => True | Throw _ => False end);
    [by intros w _ | intros cfg | done].
  eapply hoare_try_catch with (R := fun _ => I).
  - eapply hoare_bind with (R := fun _ => I).
    + unfold update_tracking_flag. rewrite bool_decide_eq_true_2 by exact Hq.
      eapply hoare_bind with (R := fun _ => I).
      * unfold patchCM, patchCM_request.
        eapply hoare_bind with (R := fun _ => I); [apply await_sent_self | | done].
        intros a. by apply hoare_ret.
      * intros a. by apply hoare_ret.
      * done.
    + intros _. apply preserves_bind.
      * apply update_size_and_timeout_stable with (allowed := fun _ => true); auto.
      * intros _. apply preserves_bind; [| intros; apply preserves_ret].
        apply rollout_changes_stable with (allowed := fun _ => true); auto.
    + done.
  - done.
  - intros e. apply updateClusterSettings_catch_stable.
Qed.

(** ** Requests on a world with nothing in flight *)

Lemma await_idle r w :
  inflight w = [] ->
  await r w =
    let w1 := with_issued (issued w ++ [r]) w in
    match faults w r with
    | Some e => (Throw e, w1)
    | None => (completion (perform r (cluster w)).1, with_cluster (perform r (cluster w)).2 w1)
    end.
Proof.
  destruct w as [c cfg f o fl iss unh lg]. simpl. intros ->.
  unfold await, serve. simpl.
  destruct (f r); [reflexivity|].
  destruct (perform r c) as [[e|x] c']; reflexivity.
Qed.

Lemma update_tracking_flag_settled q f n X rs :
  n <> segmentKeyCfg ->
  hoare (fun w => settled f n X rs w /\ tracking_step_ok q (cluster w) f)
    (update_tracking_flag q)
    (fun r w => r = Normal tt /\ settled f n X rs w).
Proof.
  intros Hn w [(Hi & Hf & Hl & Hr) Hok]. unfold update_tracking_flag.
  case_bool_decide as Hq; [| done].
  destruct Hok as [Hok | [[d Hd] Hfl]]; [congruence|].
  unfold patchCM, patchCM_request, mbind, M_bind, bind.
  rewrite await_idle by exact Hi. cbv zeta.
  rewrite Hf. unfold tracking_patch in Hfl. rewrite Hfl.
  simpl. rewrite Hd. unfold settled. simpl.
  repeat split; try assumption.
  rewrite lookup_insert_ne by congruence. exact Hl.
Qed.

Lemma start_settled c cfg f o n :
  settled f n (configMaps c !! n) (restarted c) (start c cfg f o).
Proof. done. Qed.

Lemma kept_lookup n d w :
  kept (fun m => bool_decide (m = n)) {[ n := d ]} w ->
  configMaps (cluster w) !! n = Some d.
Proof.
  intros [H _]. rewrite H by (by apply bool_decide_eq_true).
  apply lookup_singleton_eq.
Qed.

Lemma settled_kept f n d rs w :
  settled f n (Some d) rs w -> kept (fun m => bool_decide (m = n)) {[ n := d ]} w.
Proof.
  intros (Hi & _ & Hl & _). split.
  - intros m Hm. apply bool_decide_eq_true in Hm as ->.
    by rewrite lookup_singleton_eq.
  - rewrite Hi. constructor.
Qed.

(** The rollouts and the [catch] write no ConfigMap. *)
Lemma rollout_changes_kept prot cms0 q cfg :
  preserves (kept prot cms0) (rollout_changes q cfg).
Proof.
  apply rollout_changes_stable with (allowed := fun r => negb (writes prot r)).
  - intros r Hr. apply await_kept. by apply negb_true_iff.
  - intros [] Hr; simpl in *; congruence.
Qed.

(** The culling ConfigMap is created when it is missing and the timeout is
    not the sentinel. *)
Ltac run_request :=
  rewrite await_idle by reflexivity;
  cbv beta iota zeta delta
    [perform completion fst snd with_cluster with_issued with_configMaps with_restarted
     cluster faults inflight issued configMaps groups restarted].

Lemma update_culler_config_creates q f rs :
  Js.strict_eq (Js.Number (q !! "cullerTimeout")) DEFAULT_CULLER_TIMEOUT = false ->
  (forall r, writes_to nbcCfg r = true -> f r = None) ->
  hoare (settled f nbcCfg None rs) (update_culler_config q)
    (fun r w =>
       r = Normal tt /\
       settled f nbcCfg
         (Some (culler_config true (Js.div (Js.Number (q !! "cullerTimeout")) (Js.num 60))))
         rs w).
Proof.
  intros Hne Hf [[cms grp rst] cfg f' o fl iss unh lg] (Hi & Hfw & Hl & Hr).
  simpl in *. subst. unfold update_culler_config.
  rewrite Hne. cbv [negb]. unfold nbcCfg in *.
  unfold try_catch, patchCM, patchCM_request, createNamespacedConfigMap, mbind, M_bind, bind.
  run_request. rewrite Hf by reflexivity. rewrite Hl.
  cbv beta iota. rewrite bool_decide_eq_true_2 by reflexivity.
  run_request. rewrite Hf by reflexivity. rewrite Hl.
  unfold settled. simpl.
  repeat split.
  apply lookup_insert_eq.
Qed.

Lemma updateClusterSettings_start q c cfg f o :
  updateClusterSettings q (start c cfg f o) =
  try_catch (updateClusterSettings_body q cfg) updateClusterSettings_catch (start c cfg f o).
Proof. reflexivity. Qed.

Lemma hoare_pure {A} (phi : Prop) (P : World -> Prop) (m : M A) Q :
  (phi -> hoare P m Q) -> hoare (fun w => phi /\ P w) m Q.
Proof. intros H w [Hphi Hw]. by apply H. Qed.

Lemma hoare_pure_r {A} (phi : Prop) (P : World -> Prop) (m : M A) Q :
  (phi -> hoare P m Q) -> hoare (fun w => P w /\ phi) m Q.
Proof. intros H w [Hw Hphi]. by apply H. Qed.

(** The timeout that is the sentinel is given and not empty. *)
Lemma sentinel_truthy v :
  Js.strict_eq (Js.Number v) DEFAULT_CULLER_TIMEOUT = true -> Js.truthy v = true.
Proof.
  destruct v as [s|]; [| discriminate].
  destruct s; [discriminate | reflexivity].
Qed.

Lemma notebookController_enabled_strict_true cfg :
  notebookController_enabled cfg = true ->
  notebookController_enabled_strict cfg = mret true.
Proof.
  destruct cfg as [[[[[b]|]]|]]; cbn; intros H; try discriminate H.
  by subst b.
Qed.

(** The sentinel deletes the culling ConfigMap; deleting what is not there
    is answered 404. *)
Lemma update_culler_config_deletes q f X rs :
  Js.strict_eq (Js.Number (q !! "cullerTimeout")) DEFAULT_CULLER_TIMEOUT = true ->
  f (DeleteConfigMap nbcCfg) = None ->
  hoare (settled f nbcCfg X rs) (update_culler_config q)
    (fun r w =>
       settled f nbcCfg None rs w /\
       r = match X with Some _ => Normal tt | None => Throw not_found end).
Proof.
  intros He Hf [[cms grp rst] cfg f' o fl iss unh lg] (Hi & Hfw & Hl & Hr).
  simpl in *. subst. unfold update_culler_config.
  rewrite He. cbv [negb].
  unfold deleteNamespacedConfigMap, mbind, M_bind, bind.
  run_request. rewrite Hf.
  destruct (cms !! nbcCfg) as [d|] eqn:Hd; unfold settled; simpl.
  - repeat split. apply lookup_delete_eq.
  - repeat split. exact Hd.
Qed.

(** In notebook-controller mode the controller deployment is rolled out. *)
Lemma rollout_changes_controller q cfg f X rs :
  notebookController_enabled cfg = true ->
  hoare (settled f nbcCfg X rs) (rollout_changes q cfg)
    (fun r w =>
       configMaps (cluster w) !! nbcCfg = X /\
       (f (Rollout Deployment "notebook-controller-deployment") = None ->
        r = Normal tt /\
        restarted (cluster w) = (rs ++ [(Deployment, "notebook-controller-deployment")])%list)).
Proof.
  intros Hnbc [[cms grp rst] cfg' f' o fl iss unh lg] (Hi & Hfw & Hl & Hr).
  simpl in *. subst. unfold rollout_changes.
  rewrite notebookController_enabled_strict_true by exact Hnbc.
  unfold rolloutDeployment, mbind, mret, M_bind, M_ret, bind, ret.
  run_request.
  destruct (f (Rollout Deployment "notebook-controller-deployment")); simpl.
  - split; [reflexivity | discriminate].
  - split; [reflexivity | intros _; split; reflexivity].
Qed.

(** The [catch] sends nothing and changes nothing. *)
Lemma updateClusterSettings_catch_world e w : (updateClusterSettings_catch e w).2 = w.
Proof. unfold updateClusterSettings_catch. by case_bool_decide. Qed.

(** C6 (amended).  In notebook-controller mode, for every request that
    gives a non-empty pvcSize together with a cullerTimeout that is not the
    sentinel, whose tracking-flag step goes through, when no culling
    ConfigMap exists and the API does not fail the writes to it:
    afterwards the culling ConfigMap exists and its data is exactly
    ENABLE_CULLING = 'true', CULL_IDLE_TIME = String(Number(cullerTimeout) / 60)
    and IDLENESS_CHECK_PERIOD = '1'. *)
Theorem culler_config_created q c cfg f o :
  notebookController_enabled cfg = true ->
  Js.truthy (q !! "pvcSize") = true ->
  Js.truthy (q !! "cullerTimeout") = true ->
  Js.strict_eq (Js.Number (q !! "cullerTimeout")) DEFAULT_CULLER_TIMEOUT = false ->
  tracking_step_ok q c f ->
  configMaps c !! nbcCfg = None ->
  (forall r, writes_to nbcCfg r = true -> f r = None) ->
  let w' := (updateClusterSettings q (start c cfg f o)).2 in
  configMaps (cluster w') !! nbcCfg =
    Some (<["ENABLE_CULLING" := "true"]>
            (<["CULL_IDLE_TIME" :=
                 Js.number_to_string (Js.div (Js.Number (q !! "cullerTimeout")) (Js.num 60))]>
               (<["IDLENESS_CHECK_PERIOD" := "1"]> ∅))).
Proof.
  intros Hnbc Hsize Htimeout Hne Htrack Habsent Hf w'. subst w'.
  rewrite updateClusterSettings_start.
  apply kept_lookup.
  set (data := <["ENABLE_CULLING" := "true"]> _).
  set (I := kept (fun m => bool_decide (m = nbcCfg)) {[ nbcCfg := data ]}).
  cut (hoare (fun w => settled f nbcCfg None (restarted c) w /\ tracking_step_ok q (cluster w) f)
         (try_catch (updateClusterSettings_body q cfg) updateClusterSettings_catch)
         (fun _ => I)).
  { intros H. apply H. split; [| exact Htrack]. rewrite <- Habsent. apply start_settled. }
  eapply hoare_try_catch with (R := fun _ => I);
    [| done | intros e; apply updateClusterSettings_catch_stable].
  unfold updateClusterSettings_body.
  eapply hoare_bind;
    [apply update_tracking_flag_settled; done | intros [] | by intros e w [? _]].
  apply hoare_pure; intros _.
  eapply hoare_bind with (R := fun _ => I).
  - unfold update_size_and_timeout. rewrite Hsize, Htimeout, Hnbc. cbv [andb].
    eapply hoare_weaken;
      [apply (update_culler_config_creates q f (restarted c)); assumption | done |].
    intros r w [_ Hw]. eapply settled_kept, Hw.
  - intros _. apply preserves_bind; [apply rollout_changes_kept | intros; apply preserves_ret].
  - done.
Qed.

Lemma culler_config_created_witness :
  configMaps (cluster (update_in empty_cluster true (query_of "20" "3600" "null")).2) !! nbcCfg =
    Some {[ "ENABLE_CULLING" := "true"; "CULL_IDLE_TIME" := "60";
            "IDLENESS_CHECK_PERIOD" := "1" ]}.
Proof.
  unfold update_in.
  rewrite (culler_config_created (query_of "20" "3600" "null") empty_cluster
             (dashboard true) no_faults in_order).
  - reflexivity.
  - reflexivity.
  - reflexivity.
  - reflexivity.
  - vm_compute. reflexivity.
  - left. reflexivity.
  - reflexivity.
  - intros r _. reflexivity.
Defined.

(** C6, as stated, fails: in notebook-controller mode, with no culling
    ConfigMap, a request whose cullerTimeout is 3600 and which gives no
    pvcSize is answered with success and creates no ConfigMap. *)
Lemma culler_config_not_created_without_size :
  notebookController_enabled (dashboard true) = true /\
  timeout_only "3600" !! "cullerTimeout" = Some "3600" /\
  Js.strict_eq (Js.Number (Some "3600")) DEFAULT_CULLER_TIMEOUT = false /\
  configMaps empty_cluster !! nbcCfg = None /\
  (update_in empty_cluster true (timeout_only "3600")).1 = Normal ok /\
  configMaps (cluster (update_in empty_cluster true (timeout_only "3600")).2) !! nbcCfg = None.
Proof. repeat split; vm_compute; reflexivity. Qed.

(** C1 (amended).  In notebook-controller mode, for every request that
    gives a non-empty pvcSize together with a cullerTimeout whose Number is
    the sentinel 31536000, whose tracking-flag step goes through, when the
    API does not fail the delete: the culling ConfigMap is absent
    afterwards, whether or not it existed before; and when it existed
    before and the rollout request is not failed, the result is
    [{success: true, error: null}] and the controller deployment is rolled
    out. *)
Theorem sentinel_deletes_culler_config q c cfg f o :
  notebookController_enabled cfg = true ->
  Js.truthy (q !! "pvcSize") = true ->
  Js.strict_eq (Js.Number (q !! "cullerTimeout")) DEFAULT_CULLER_TIMEOUT = true ->
  tracking_step_ok q c f ->
  f (DeleteConfigMap nbcCfg) = None ->
  let r := (updateClusterSettings q (start c cfg f o)).1 in
  let w' := (updateClusterSettings q (start c cfg f o)).2 in
  configMaps (cluster w') !! nbcCfg = None /\
  (is_Some (configMaps c !! nbcCfg) ->
   f (Rollout Deployment "notebook-controller-deployment") = None ->
   r = Normal (Some {| success := true; error := None |}) /\
   restarted (cluster w') = (restarted c ++ [controller])%list).
Proof.
  intros Hnbc Hsize He Htrack Hf r w'. subst r w'.
  rewrite updateClusterSettings_start.
  set (X := configMaps c !! nbcCfg).
  set (roll := Rollout Deployment "notebook-controller-deployment").
  set (Q := fun (r : Completion (option UpdateResult)) (w : World) =>
              configMaps (cluster w) !! nbcCfg = None /\
              (is_Some X -> f roll = None ->
               r = Normal (Some {| success := true; error := None |}) /\
               restarted (cluster w) = (restarted c ++ [(Deployment, "notebook-controller-deployment")])%list)).
  cut (hoare (fun w => settled f nbcCfg X (restarted c) w /\ tracking_step_ok q (cluster w) f)
         (try_catch (updateClusterSettings_body q cfg) updateClusterSettings_catch) Q).
  { intros H. apply H. split; [apply start_settled | exact Htrack]. }
  eapply hoare_try_catch with (R := Q); [| done |].
  - unfold updateClusterSettings_body.
    eapply hoare_bind;
      [apply update_tracking_flag_settled; done | intros [] | by intros e w [? _]].
    apply hoare_pure; intros _.
    eapply hoare_bind.
    + unfold update_size_and_timeout.
      rewrite Hsize, (sentinel_truthy _ He), Hnbc. cbv [andb].
      apply update_culler_config_deletes; assumption.
    + intros []. cbv beta. apply hoare_pure_r. intros _.
      eapply hoare_bind; [apply rollout_changes_controller, Hnbc | intros [] |].
      * apply hoare_ret. intros w [Hl Hr]. split; [exact Hl|].
        intros _ Hroll. destruct (Hr Hroll) as [_ ->]. done.
      * intros e w [Hl Hr]. split; [exact Hl|].
        intros _ Hroll. by destruct (Hr Hroll).
    + intros e w [(_ & _ & Hl & _) Hr]. split; [exact Hl|].
      intros [d Hd] _. rewrite Hd in Hr. discriminate.
  - intros e w [Hl Hr]. rewrite updateClusterSettings_catch_world. split; [exact Hl|].
    intros HX Hroll. by destruct (Hr HX Hroll).
Qed.

Lemma sentinel_deletes_culler_config_witness :
  (update_in (culler_cluster "true" "60") true (query_of "20" "31536000" "null")).1 = Normal ok /\
  configMaps
    (cluster (update_in (culler_cluster "true" "60") true (query_of "20" "31536000" "null")).2)
    !! nbcCfg = None /\
  restarted
    (cluster (update_in (culler_cluster "true" "60") true (query_of "20" "31536000" "null")).2) =
    [controller].
Proof.
  destruct (sentinel_deletes_culler_config (query_of "20" "31536000" "null")
              (culler_cluster "true" "60") (dashboard true) no_faults in_order)
    as [Habsent Hrolled].
  - reflexivity.
  - reflexivity.
  - vm_compute. reflexivity.
  - left. reflexivity.
  - reflexivity.
  - destruct Hrolled as [Hresult Hrestarted].
    + eexists. reflexivity.
    + reflexivity.
    + repeat split; assumption.
Defined.

(** C1, as stated, fails on two requests in notebook-controller mode whose
    cullerTimeout is the sentinel.  Without a pvcSize the culling ConfigMap
    is still there afterwards.  With a pvcSize and the culling ConfigMap
    already absent, the result is [undefined] instead of
    [{success: true}], and nothing is rolled out. *)
Lemma sentinel_claim_counterexample :
  notebookController_enabled (dashboard true) = true /\
  Js.strict_eq (Js.Number (Some "31536000")) DEFAULT_CULLER_TIMEOUT = true /\
  configMaps (cluster (update_in (culler_cluster "true" "60") true
                         (timeout_only "31536000")).2) !! nbcCfg =
    Some {[ "ENABLE_CULLING" := "true"; "CULL_IDLE_TIME" := "60" ]} /\
  (update_in empty_cluster true (query_of "20" "31536000" "null")).1 = Normal None /\
  restarted (cluster (update_in empty_cluster true (query_of "20" "31536000" "null")).2) = [].
Proof. repeat split; vm_compute; reflexivity. Qed.

(** ** Reading the settings *)

Lemma readNamespacedConfigMap_reading name c cfg f :
  hoare (reading c cfg f) (readNamespacedConfigMap name)
    (fun r w => r = read_result name c f /\ reading c cfg f w).
Proof.
  intros [c' cfg' f' o fl iss unh lg] (Hi & Hf & Hc & Hd). simpl in *. subst.
  unfold readNamespacedConfigMap, read_result, mbind, M_bind, bind.
  rewrite await_idle by reflexivity.
  cbv beta iota zeta delta [perform completion fst snd faults cluster].
  destruct (f (ReadConfigMap name)); [done|].
  by destruct (configMaps c !! name).
Qed.

Lemma log_reading c cfg f level msg :
  hoare (reading c cfg f) (log level msg) (fun r w => r = Normal tt /\ reading c cfg f w).
Proof. intros w Hw. split; [reflexivity | exact Hw]. Qed.

Lemma read_tracking_flag_reading c cfg f cs :
  hoare (reading c cfg f)
    (try_catch (read_tracking_flag cs) (tracking_flag_catch cs))
    (fun r w => r = Normal (tracking_settings cs c f) /\ reading c cfg f w).
Proof.
  eapply hoare_try_catch
    with (R := fun r w =>
                 reading c cfg f w /\
                 match r with
                 | Normal cs' => r = Normal (tracking_settings cs c f)
                 | Throw _ => tracking_settings cs c f = cs
                 end).
  - unfold read_tracking_flag.
    eapply hoare_bind; [apply readNamespacedConfigMap_reading | |].
    + intros [d|]; apply hoare_pure; intros Hr;
        unfold tracking_settings; rewrite <- Hr.
      * by apply hoare_ret.
      * by apply hoare_throw.
    + intros e w [Hr Hw]. unfold tracking_settings. by rewrite <- Hr.
  - intros cs' w [Hw Heq]. done.
  - intros e. unfold tracking_flag_catch. apply hoare_pure_r. intros Heq. rewrite Heq.
    eapply hoare_bind; [apply log_reading | intros ? | by intros ? ? [? _]].
    apply hoare_ret. by intros w [_ Hw].
Qed.

Lemma read_culler_config_reading c cfg f cs :
  hoare (reading c cfg f)
    (try_catch (read_culler_config cs) (culler_config_catch cs))
    (fun r w => r = culler_settings cs c f /\ reading c cfg f w).
Proof.
  eapply hoare_try_catch
    with (R := fun r w =>
                 reading c cfg f w /\
                 match r with
                 | Normal cs' => r = culler_settings cs c f
                 | Throw e =>
                     culler_settings cs c f =
                     if bool_decide (Js.statusCode e = Some 404) then Normal cs else Throw e
                 end).
  - unfold read_culler_config.
    eapply hoare_bind; [apply readNamespacedConfigMap_reading | |].
    + intros [d|]; apply hoare_pure; intros Hr;
        unfold culler_settings; rewrite <- Hr; [| by apply hoare_throw].
      unfold property, mbind, mret, M_bind, M_ret, bind, ret.
      intros w Hw. simpl. by destruct (Js.truthy (d !! "ENABLE_CULLING")).
    + intros e w [Hr Hw]. unfold culler_settings. by rewrite <- Hr.
  - by intros cs' w [Hw Heq].
  - intros e. unfold culler_config_catch. apply hoare_pure_r. intros Heq. rewrite Heq.
    case_bool_decide.
    + eapply hoare_bind; [apply log_reading | intros ? | by intros ? ? [? _]].
      apply hoare_ret. by intros w [_ Hw].
    + eapply hoare_bind; [apply log_reading | intros ? | by intros ? ? [? _]].
      apply hoare_throw. by intros w [_ Hw].
Qed.

Lemma read_legacy_config_reading c cfg f cs :
  hoare (reading c cfg f)
    (try_catch (read_legacy_config cs) (legacy_config_catch cs))
    (fun r w => r = Normal (legacy_settings cs c f) /\ reading c cfg f w).
Proof.
  eapply hoare_try_catch
    with (R := fun r w =>
                 reading c cfg f w /\
                 match r with
                 | Normal cs' => r = Normal (legacy_settings cs c f)
                 | Throw _ => legacy_settings cs c f = cs
                 end).
  - unfold read_legacy_config, readJupyterhubCfg.
    eapply hoare_bind; [eapply hoare_bind; [apply readNamespacedConfigMap_reading | |] | |].
    + intros [d|]; apply hoare_pure; intros Hr.
      * unfold property, call_replace, mbind, mret, M_bind, M_ret, bind, ret.
        intros w Hw. instantiate (1 := fun r w =>
          reading c cfg f w /\
          match r with
          | Normal (size, timeout) =>
              legacy_settings cs c f = set_cullerTimeout timeout (set_pvcSize size cs)
          | Throw _ => legacy_settings cs c f = cs
          end).
        unfold legacy_settings. rewrite <- Hr.
        by destruct (d !! "singleuser_pvc_size").
      * unfold property. apply hoare_throw. intros w Hw.
        unfold legacy_settings. by rewrite <- Hr.
    + intros e w [Hr Hw]. unfold legacy_settings. by rewrite <- Hr.
    + intros [size timeout]. apply hoare_pure_r. intros Heq.
      apply hoare_ret. intros w Hw. by rewrite Heq.
    + done.
  - by intros cs' w [Hw Heq].
  - intros e. unfold legacy_config_catch. apply hoare_pure_r. intros Heq. rewrite Heq.
    eapply hoare_bind; [apply log_reading | intros ? | by intros ? ? [? _]].
    apply hoare_ret. by intros w [_ Hw].
Qed.

(** The result of [getClusterSettings] as a function of the cluster. *)
Lemma getClusterSettings_reading c cfg f :
  hoare (reading c cfg f) getClusterSettings
    (fun r w => r = settings_read c cfg f /\ reading c cfg f w).
Proof.
  unfold getClusterSettings, settings_read.
  eapply hoare_bind
    with (R := fun r w => r = Normal cfg /\ reading c cfg f w).
  - intros w Hw. split; [| exact Hw]. simpl. by destruct Hw as (_ & _ & _ & ->).
  - intros cfg'. apply hoare_pure. intros [= ->].
    eapply hoare_bind; [apply read_tracking_flag_reading | | by intros ? ? [? _]].
    intros cs. apply hoare_pure. intros [= ->].
    destruct (notebookController_enabled cfg).
    + eapply hoare_bind; [apply read_culler_config_reading | |].
      * intros cs'. apply hoare_pure. intros <-. by apply hoare_ret.
      * intros e w [<- Hw]. done.
    + eapply hoare_bind; [apply read_legacy_config_reading | | by intros ? ? [? _]].
      intros cs'. apply hoare_pure. intros [= ->]. by apply hoare_ret.
  - by intros ? ? [? _].
Qed.

Lemma start_reading c cfg f o : reading c cfg f (start c cfg f o).
Proof. done. Qed.

(** ** A patch in flight *)

Section PatchPending.
Variable name : string.
Variable props : list (string * option string).
Variable d0 : gmap string string.
Variable f : ApiRequest -> option Js.JsError.
Hypothesis patch_accepted : f (PatchConfigMap name props) = None.

Lemma serve_patch_pending r w :
  writes_to name r = false -> (patch_pending name props d0 f) w -> (patch_pending name props d0 f) (serve r w).2.
Proof.
  intros Hr (Hf & H).
  pose proof (serve_fixed r w) as (Hf' & _ & _ & Hi & _).
  pose proof (serve_kept (fun n => bool_decide (n = name)) r w name Hr
                (bool_decide_eq_true_2 _ eq_refl)) as Hl.
  split; [congruence|]. rewrite Hi, Hl. exact H.
Qed.

Lemma settle_patch_pending w :
  (patch_pending name props d0 f) w ->
  faults (settle w) = f /\ inflight (settle w) = [] /\
  configMaps (cluster (settle w)) !! name = Some (json_data props ∪ d0).
Proof.
  intros (Hf & [[Hi Hl] | [Hi Hl]]).
  - destruct w as [[cms grp rst] cfg f' o fl iss unh lg]. simpl in *. subst.
    unfold settle, serve_detached, serve. simpl.
    rewrite patch_accepted, Hl. simpl.
    repeat split. apply lookup_insert_eq.
  - rewrite settle_idle by exact Hi. done.
Qed.

Lemma await_patch_pending r : writes_to name r = false -> preserves (patch_pending name props d0 f) (await r).
Proof.
  intros Hr w Hw. unfold await.
  set (w1 := with_issued (issued w ++ [r]) w).
  assert ((patch_pending name props d0 f) w1) as H1 by exact Hw.
  set (w2 := match inflight w1 with
             | [] => w1
             | _ :: _ => if overtakes w1 r then w1 else settle w1
             end).
  assert ((patch_pending name props d0 f) w2) as H2.
  { subst w2. destruct (inflight w1) eqn:Hi; [assumption|].
    destruct (overtakes w1 r); [assumption|].
    destruct (settle_patch_pending w1 H1) as (? & ? & ?). split; [assumption|]. by right. }
  pose proof (serve_patch_pending r w2 Hr H2) as H3.
  destruct (serve r w2) as [[e|x] w3]; exact H3.
Qed.

Lemma rollout_changes_patch_pending q cfg : preserves (patch_pending name props d0 f) (rollout_changes q cfg).
Proof.
  apply rollout_changes_stable with (allowed := fun r => negb (writes_to name r)).
  - intros r Hr. apply await_patch_pending. by apply negb_true_iff.
  - intros [] Hr; simpl in *; congruence.
Qed.
End PatchPending.

(** The dashboard configuration is not touched by [updateClusterSettings]. *)
Lemma updateClusterSettings_dashboardConfig q cfg :
  preserves (fun w => dashboardConfig w = cfg) (updateClusterSettings q).
Proof.
  apply updateClusterSettings_stable with (allowed := fun _ => true); auto.
  - intros r _ w Hw. unfold await.
    set (w1 := with_issued (issued w ++ [r]) w).
    set (w2 := match inflight w1 with
               | [] => w1
               | _ :: _ => if overtakes w1 r then w1 else settle w1
               end).
    assert (dashboardConfig w2 = cfg) as H2.
    { subst w2. destruct (inflight w1); [assumption|].
      destruct (overtakes w1 r); [assumption|].
      by destruct (settle_fixed w1) as (_ & _ & -> & _). }
    pose proof (serve_fixed r w2) as (_ & _ & Hd & _).
    destruct (serve r w2) as [[e|x] w3]; simpl in *; congruence.
  - intros r _ w Hw. exact Hw.
Qed.

(** Legacy mode: the patch of the legacy ConfigMap is sent, not awaited. *)
Lemma update_size_and_timeout_legacy q cfg f d rs :
  notebookController_enabled cfg = false ->
  Js.truthy (q !! "pvcSize") && Js.truthy (q !! "cullerTimeout") = true ->
  hoare (settled f jupyterhubCfg (Some d) rs) (update_size_and_timeout q cfg)
    (fun r w =>
       patch_pending jupyterhubCfg
         [("singleuser_pvc_size", Some (Js.interpolate (q !! "pvcSize") ++ "Gi"));
          ("culler_timeout", q !! "cullerTimeout")] d f w).
Proof.
  intros Hnbc Hq w (Hi & Hf & Hl & Hr).
  unfold update_size_and_timeout. rewrite Hq, Hnbc.
  unfold patchCM_detached, patchCM_request, fire. simpl.
  split; [exact Hf|]. left. by rewrite Hi.
Qed.

Lemma body_data_Some d k v : d !! k = Some v -> body_data d = Some d.
Proof.
  intros H. unfold body_data. rewrite bool_decide_eq_false_2; [done|].
  intros ->. by rewrite lookup_empty in H.
Qed.

(** C7.  Round trip in legacy mode: when [updateClusterSettings] is asked
    for pvcSize 20 and cullerTimeout 3600, its tracking-flag step goes
    through, the legacy ConfigMap exists and the API fails neither its
    patch nor its read, then, once the patch has been served, the
    ConfigMap holds singleuser_pvc_size '20Gi' and culler_timeout '3600',
    and [getClusterSettings] returns pvcSize 20 and cullerTimeout 3600. *)
Theorem legacy_round_trip q c cfg f o :
  notebookController_enabled cfg = false ->
  q !! "pvcSize" = Some "20" ->
  q !! "cullerTimeout" = Some "3600" ->
  tracking_step_ok q c f ->
  is_Some (configMaps c !! jupyterhubCfg) ->
  f (legacy_patch q) = None ->
  f (ReadConfigMap jupyterhubCfg) = None ->
  let w' := settle (updateClusterSettings q (start c cfg f o)).2 in
  (exists d, configMaps (cluster w') !! jupyterhubCfg = Some d /\
             d !! "singleuser_pvc_size" = Some "20Gi" /\
             d !! "culler_timeout" = Some "3600") /\
  exists cs, (getClusterSettings w').1 = Normal (inl cs) /\
             pvcSize cs = Js.num 20 /\ cullerTimeout cs = Js.num 3600.
Proof.
  intros Hnbc Hsize Htimeout Htrack [d0 Hd0] Hpatch Hread w'.
  set (props := [("singleuser_pvc_size", Some "20Gi"); ("culler_timeout", Some "3600")]).
  assert (legacy_patch q = PatchConfigMap jupyterhubCfg props) as Hp
    by (unfold legacy_patch; by rewrite Hsize, Htimeout).
  rewrite Hp in Hpatch.
  assert (patch_pending jupyterhubCfg props d0 f (updateClusterSettings q (start c cfg f o)).2)
    as HJ.
  { rewrite updateClusterSettings_start.
    cut (hoare (fun w => settled f jupyterhubCfg (Some d0) (restarted c) w /\
                         tracking_step_ok q (cluster w) f)
           (try_catch (updateClusterSettings_body q cfg) updateClusterSettings_catch)
           (fun _ => patch_pending jupyterhubCfg props d0 f)).
    { intros H. apply H. split; [| exact Htrack]. rewrite <- Hd0. apply start_settled. }
    eapply hoare_try_catch with (R := fun _ => patch_pending jupyterhubCfg props d0 f);
      [| done | intros e; apply updateClusterSettings_catch_stable].
    unfold updateClusterSettings_body.
    eapply hoare_bind;
      [apply update_tracking_flag_settled; done | intros [] | by intros e w [? _]].
    apply hoare_pure; intros _.
    eapply hoare_bind with (R := fun _ => patch_pending jupyterhubCfg props d0 f).
    - eapply hoare_weaken;
        [apply (update_size_and_timeout_legacy q cfg f d0 (restarted c)) | done |].
      + exact Hnbc.
      + by rewrite Hsize, Htimeout.
      + intros r w. by rewrite Hsize, Htimeout.
    - intros _. apply preserves_bind; [| intros; apply preserves_ret].
      by apply rollout_changes_patch_pending.
    - done. }
  pose proof (updateClusterSettings_dashboardConfig q cfg (start c cfg f o) eq_refl) as Hcfg.
  cbv beta in Hcfg.
  destruct (settle_patch_pending jupyterhubCfg props d0 f Hpatch _ HJ) as (Hf' & Hi' & Hl').
  fold w' in Hf', Hi', Hl'.
  assert (dashboardConfig w' = cfg) as Hcfg'.
  { subst w'. by destruct (settle_fixed (updateClusterSettings q (start c cfg f o)).2)
      as (_ & _ & -> & _). }
  set (D := json_data props ∪ d0) in *.
  assert (D !! "singleuser_pvc_size" = Some "20Gi") as Hs by (by apply lookup_union_Some_l).
  assert (D !! "culler_timeout" = Some "3600") as Ht by (by apply lookup_union_Some_l).
  split; [by exists D|].
  destruct (getClusterSettings_reading (cluster w') cfg f w') as [Hr _]; [done|].
  rewrite Hr. unfold settings_read. rewrite Hnbc.
  eexists. split; [reflexivity|].
  unfold legacy_settings, read_result. rewrite Hread, Hl', (body_data_Some _ _ _ Hs), Hs, Ht.
  split; reflexivity.
Qed.

Lemma legacy_round_trip_witness :
  exists cs,
    (getClusterSettings (settle (update_in legacy_cluster false (query_of "20" "3600" "null")).2)).1
      = Normal (inl cs) /\
    pvcSize cs = Js.num 20 /\ cullerTimeout cs = Js.num 3600.
Proof.
  apply (legacy_round_trip (query_of "20" "3600" "null") legacy_cluster
           (dashboard false) no_faults in_order).
  - reflexivity.
  - reflexivity.
  - reflexivity.
  - left. reflexivity.
  - eexists. reflexivity.
  - reflexivity.
  - reflexivity.
Defined.

Lemma readNamespacedConfigMap_start name c cfg f o :
  (readNamespacedConfigMap name (start c cfg f o)).1 = read_result name c f.
Proof.
  by destruct (readNamespacedConfigMap_reading name c cfg f (start c cfg f o)
                 (start_reading c cfg f o)).
Qed.

Lemma body_data_None d : body_data d = None -> d = ∅.
Proof. unfold body_data. by case_bool_decide. Qed.

Lemma updateClusterSettings_body_result q cfg w a :
  (updateClusterSettings_body q cfg w).1 = Normal a -> a = ok.
Proof.
  unfold updateClusterSettings_body, mbind, M_bind, bind.
  destruct (update_tracking_flag q w) as [[[]|e1] w1]; [| discriminate].
  destruct (update_size_and_timeout q cfg w1) as [[[]|e2] w2]; [| discriminate].
  destruct (rollout_changes q cfg w2) as [[[]|e3] w3]; [| discriminate].
  simpl. by intros [= <-].
Qed.

Lemma updateClusterSettings_never_reports_failure q w r :
  (updateClusterSettings q w).1 = Normal (Some r) -> success r = true.
Proof.
  unfold updateClusterSettings, getDashboardConfig, try_catch, mbind, M_bind, bind.
  pose proof (updateClusterSettings_body_result q (dashboardConfig w) w) as Hb.
  destruct (updateClusterSettings_body q (dashboardConfig w) w) as [[a|e] w1]; simpl in *.
  - intros [= ->]. by specialize (Hb _ eq_refl) as [= ->].
  - unfold updateClusterSettings_catch. case_bool_decide; discriminate.
Qed.

(** ** The claims about reading and about groups *)

(** C10.  [getClusterSettings] never returns a string.  On every cluster
    it either returns a ClusterSettings record, in which a failed read of
    the tracking ConfigMap leaves userTrackingEnabled null and, in legacy
    mode, a failed read of the legacy ConfigMap leaves pvcSize and
    cullerTimeout at their defaults; or it throws, which happens only in
    notebook-controller mode, with an error that is not a 404 and that
    comes from reading the culling ConfigMap: the error the API answered
    the read with, or the TypeError of reading CULL_IDLE_TIME in a
    ConfigMap that has no data. *)
Theorem getClusterSettings_total c cfg f o :
  let r := (getClusterSettings (start c cfg f o)).1 in
  (forall s, r <> Normal (inr s)) /\
  ((exists cs,
      r = Normal (inl cs) /\
      ((exists e, (readNamespacedConfigMap segmentKeyCfg (start c cfg f o)).1 = Throw e) ->
       userTrackingEnabled cs = None) /\
      (notebookController_enabled cfg = false ->
       (exists e, (readNamespacedConfigMap jupyterhubCfg (start c cfg f o)).1 = Throw e) ->
       pvcSize cs = DEFAULT_PVC_SIZE /\ cullerTimeout cs = DEFAULT_CULLER_TIMEOUT)) \/
   (exists e,
      r = Throw e /\
      notebookController_enabled cfg = true /\
      Js.statusCode e <> Some 404 /\
      (f (ReadConfigMap nbcCfg) = Some e \/
       (f (ReadConfigMap nbcCfg) = None /\ configMaps c !! nbcCfg = Some ∅ /\
        e = Js.undefined_property "CULL_IDLE_TIME")))).
Proof.
  intros r. subst r. rewrite !readNamespacedConfigMap_start.
  destruct (getClusterSettings_reading c cfg f (start c cfg f o) (start_reading c cfg f o))
    as [-> _].
  unfold settings_read.
  set (cs := tracking_settings DEFAULT_CLUSTER_SETTINGS c f).
  assert ((exists e, read_result segmentKeyCfg c f = Throw e) ->
          userTrackingEnabled cs = None) as Htrack.
  { intros [e He]. unfold cs, tracking_settings. by rewrite He. }
  assert (pvcSize cs = DEFAULT_PVC_SIZE /\ cullerTimeout cs = DEFAULT_CULLER_TIMEOUT) as Hcs.
  { unfold cs, tracking_settings. by destruct (read_result segmentKeyCfg c f) as [[?|]|]. }
  destruct (notebookController_enabled cfg) eqn:Hnbc.
  - unfold culler_settings, read_result.
    destruct (f (ReadConfigMap nbcCfg)) as [e|] eqn:Hf.
    + case_bool_decide as He.
      * split; [done|]. left. eexists. split; [reflexivity|]. split; [exact Htrack | done].
      * split; [done|]. right. exists e. repeat split; try done. by left.
    + destruct (configMaps c !! nbcCfg) as [d|] eqn:Hd.
      * destruct (body_data d) as [d'|] eqn:Hb.
        -- split; [done|]. left. eexists. split; [reflexivity|]. split; [|done].
           intros H. specialize (Htrack H).
           by destruct (Js.truthy (d' !! "ENABLE_CULLING")).
        -- split; [done|]. right. eexists. repeat split; try done.
           right. apply body_data_None in Hb as ->. done.
      * rewrite bool_decide_eq_true_2 by reflexivity.
        split; [done|]. left. eexists. split; [reflexivity|]. split; [exact Htrack | done].
  - split; [done|]. left. eexists. split; [reflexivity|]. split.
    + intros H. specialize (Htrack H). unfold legacy_settings.
      destruct (read_result jupyterhubCfg c f) as [[d|]|]; try done.
      by destruct (d !! "singleuser_pvc_size").
    + intros _ [e He]. unfold legacy_settings. by rewrite He.
Qed.

(** C9.  For every group name whose group does not exist, [getGroup]
    throws a MissingGroupError, not a plain Error. *)
Theorem getGroup_missing_group adminGroup c cfg f o :
  groups c !! adminGroup = None ->
  exists e,
    (getGroup adminGroup (start c cfg f o)).1 = Throw e /\
    Js.is_MissingGroupError e = true /\
    e = Js.MissingGroupError
          ("Failed to retrieve Group " ++ adminGroup ++ ", might not exist.").
Proof.
  intros Hg. eexists. split; [| split; [| reflexivity]]; [| reflexivity].
  unfold getGroup, getClusterCustomObject_users, try_catch, mbind, M_bind, bind.
  rewrite await_idle by reflexivity.
  cbv beta iota zeta delta [perform completion fst snd faults cluster start].
  destruct (f (GetGroup adminGroup)); [reflexivity|].
  rewrite Hg. reflexivity.
Qed.

Lemma getGroup_missing_group_witness :
  (getGroup "admins" (start empty_cluster (dashboard true) no_faults in_order)).1 =
    Throw (Js.MissingGroupError "Failed to retrieve Group admins, might not exist.").
Proof.
  destruct (getGroup_missing_group "admins" empty_cluster (dashboard true) no_faults in_order)
    as (e & Hthrown & _ & He).
  - reflexivity.
  - rewrite Hthrown, He. reflexivity.
Defined.

(** ** The claims the code breaks, and the frames *)

(** C2: the code breaks the claim.  No run of [updateClusterSettings]
    returns [{success: false, ...}]. *)
Lemma updateClusterSettings_no_failure_result q w r :
  (updateClusterSettings q w).1 <> Normal (Some {| success := false; error := r |}).
Proof.
  intros H. by apply updateClusterSettings_never_reports_failure in H.
Qed.

(** C2: the code breaks the claim.  Legacy mode, the legacy ConfigMap
    holding '20Gi' and '3600', a request for pvcSize 20 and cullerTimeout
    3600, the API answering the patch of the legacy ConfigMap with 500: the
    result is [{success: true, error: null}] and the failure is an
    unhandled rejection.  In notebook-controller mode a create answered
    with 500 ends in a TypeError thrown by the [catch], and a patch
    answered with 500 is swallowed, the result being
    [{success: true, error: null}]. *)
Theorem write_failure_not_surfaced :
  (updateClusterSettings (query_of "20" "3600" "null")
     (start legacy_cluster (dashboard false)
        (failing_patch jupyterhubCfg (Js.HttpError 500)) in_order)).1 = Normal ok /\
  unhandled
    (updateClusterSettings (query_of "20" "3600" "null")
       (start legacy_cluster (dashboard false)
          (failing_patch jupyterhubCfg (Js.HttpError 500)) in_order)).2 = [Js.HttpError 500] /\
  (updateClusterSettings (query_of "20" "3600" "null")
     (start empty_cluster (dashboard true)
        (failing_create nbcCfg (Js.HttpError 500)) in_order)).1 =
    Throw (Js.undefined_property "body") /\
  (updateClusterSettings (query_of "20" "3600" "null")
     (start (culler_cluster "true" "30") (dashboard true)
        (failing_patch nbcCfg (Js.HttpError 500)) in_order)).1 = Normal ok.
Proof. repeat split; vm_compute; reflexivity. Qed.

(** C3: the code breaks the claim.  Notebook-controller mode, the culling
    ConfigMap holding ENABLE_CULLING 'false' and CULL_IDLE_TIME '60':
    [getClusterSettings] returns cullerTimeout 3600, not the sentinel. *)
Theorem disabled_culling_still_converted :
  (getClusterSettings
     (start (culler_cluster "false" "60") (dashboard true) no_faults in_order)).1 =
    Normal (inl {| pvcSize := Js.num 20;
                   cullerTimeout := Js.num 3600;
                   userTrackingEnabled := None |}) /\
  Js.strict_eq (Js.num 3600) DEFAULT_CULLER_TIMEOUT = false.
Proof. split; vm_compute; reflexivity. Qed.

(** C4: the code breaks the claim.  Legacy mode, the legacy ConfigMap
    holding '20Gi' and '3600', a request for pvcSize 20 and cullerTimeout
    7200.  When the requests are served in the order they were sent, the
    ConfigMap read again already holds what was asked for and nothing is
    rolled out; the culler is rolled out only when the read overtakes the
    patch. *)
Theorem legacy_timeout_change_no_rollout :
  (update_in legacy_cluster false (query_of "20" "7200" "null")).1 = Normal ok /\
  restarted (cluster (update_in legacy_cluster false (query_of "20" "7200" "null")).2) = [] /\
  restarted
    (cluster (updateClusterSettings (query_of "20" "7200" "null")
                (start legacy_cluster (dashboard false) no_faults overtaking)).2) =
    [(DeploymentConfig, "jupyterhub-idle-culler")].
Proof. repeat split; vm_compute; reflexivity. Qed.

(** C5 (amended).  [updateClusterSettings] sends a request writing the
    tracking ConfigMap if and only if the userTrackingEnabled parameter is
    not the string 'null'; it is then the patch of segmentKeyEnabled with
    the value of the parameter, [undefined] when the parameter is left
    out.  When the parameter is 'null' the tracking ConfigMap is as it
    was. *)
Theorem tracking_patch_unless_null q c cfg f o :
  let w' := settle (updateClusterSettings q (start c cfg f o)).2 in
  (Exists (fun r => writes_to segmentKeyCfg r = true) (issued w') <->
   q !! "userTrackingEnabled" <> Some "null") /\
  (q !! "userTrackingEnabled" <> Some "null" -> tracking_patch q ∈ issued w') /\
  (q !! "userTrackingEnabled" = Some "null" ->
   configMaps (cluster w') !! segmentKeyCfg = configMaps c !! segmentKeyCfg).
Proof.
  intros w'.
  assert (q !! "userTrackingEnabled" <> Some "null" -> tracking_patch q ∈ issued w') as Hsent.
  { intros Hq. subst w'.
    destruct (settle_fixed (updateClusterSettings q (start c cfg f o)).2)
      as (_ & _ & _ & _ & -> & _).
    by apply (updateClusterSettings_sends_tracking_patch q Hq (start c cfg f o)). }
  assert (q !! "userTrackingEnabled" = Some "null" ->
          framed (fun n => bool_decide (n = segmentKeyCfg)) (configMaps c) w') as Hframed.
  { intros Hq. subst w'. apply settle_framed.
    apply (updateClusterSettings_framed (fun n => bool_decide (n = segmentKeyCfg))
             (configMaps c) q); [by left | by right | apply start_framed]. }
  split; [| split].
  - split.
    + intros Hex Hq. destruct (Hframed Hq) as [_ Hquiet].
      apply Exists_exists in Hex as (r & Hr & Hw).
      unfold quiet in Hquiet. rewrite Forall_forall in Hquiet.
      specialize (Hquiet r Hr). unfold writes_to in Hw. congruence.
    + intros Hq. apply Exists_exists. exists (tracking_patch q). split; [auto | reflexivity].
  - exact Hsent.
  - intros Hq. destruct (Hframed Hq) as [[Hkept _] _].
    apply Hkept. by apply bool_decide_eq_true.
Qed.

(** C5, as stated, fails: for a request that leaves userTrackingEnabled
    out, the first request sent is a patch of the tracking ConfigMap. *)
Lemma tracking_patch_when_omitted :
  size_and_timeout "20" "3600" !! "userTrackingEnabled" = None /\
  issued (update_in tracked_cluster false (size_and_timeout "20" "3600")).2 !! 0%nat =
    Some (PatchConfigMap segmentKeyCfg [("segmentKeyEnabled", None)]) /\
  writes_to segmentKeyCfg (PatchConfigMap segmentKeyCfg [("segmentKeyEnabled", None)]) = true.
Proof. repeat split; vm_compute; reflexivity. Qed.

(** C8.  For every request that does not give both a non-empty pvcSize and
    a non-empty cullerTimeout, the culling ConfigMap and the legacy
    ConfigMap are afterwards what they were, and no request sent by
    [updateClusterSettings] patches, creates or deletes either of them. *)
Theorem settings_store_untouched q c cfg f o :
  Js.truthy (q !! "pvcSize") && Js.truthy (q !! "cullerTimeout") = false ->
  let w' := settle (updateClusterSettings q (start c cfg f o)).2 in
  configMaps (cluster w') !! nbcCfg = configMaps c !! nbcCfg /\
  configMaps (cluster w') !! jupyterhubCfg = configMaps c !! jupyterhubCfg /\
  Forall (fun r => writes settings_store r = false) (issued w').
Proof.
  intros Hq w'.
  assert (framed settings_store (configMaps c) w') as [[Hkept _] Hquiet].
  { subst w'. apply settle_framed.
    apply (updateClusterSettings_framed settings_store (configMaps c) q);
      [by right | by left | apply start_framed]. }
  repeat split; [apply Hkept; reflexivity | apply Hkept; reflexivity | exact Hquiet].
Qed.

Lemma settings_store_untouched_witness :
  configMaps
    (cluster (settle (update_in tracked_cluster false (tracking_only "false")).2))
    !! jupyterhubCfg = configMaps tracked_cluster !! jupyterhubCfg /\
  issued (settle (update_in tracked_cluster false (tracking_only "false")).2) =
    [PatchConfigMap segmentKeyCfg [("segmentKeyEnabled", Some "false")];
     ReadConfigMap jupyterhubCfg;
     Rollout DeploymentConfig "jupyterhub";
     Rollout DeploymentConfig "jupyterhub-idle-culler"].
Proof.
  destruct (settings_store_untouched (tracking_only "false") tracked_cluster
              (dashboard false) no_faults in_order) as (_ & Hlegacy & _).
  - reflexivity.
  - split; [exact Hlegacy | vm_compute; reflexivity].
Defined.

(* ===================================================================== *)
(** * Further properties of the handlers *)
(* ===================================================================== *)

(** ** Outcomes of [updateClusterSettings] *)

(** X1.  Whatever the query and the world, [updateClusterSettings] ends in
    one of three ways: [{success: true, error: null}], [undefined], or the
    TypeError of the [catch] reading [e.respose.body].  It never returns
    [{success: false, ...}] and never throws the error it caught. *)
Theorem updateClusterSettings_outcomes q w :
  (updateClusterSettings q w).1 = Normal ok \/
  (updateClusterSettings q w).1 = Normal None \/
  (updateClusterSettings q w).1 = Throw (Js.undefined_property "body").
Proof.
  unfold updateClusterSettings, getDashboardConfig, try_catch, mbind, M_bind, bind.
  pose proof (updateClusterSettings_body_result q (dashboardConfig w) w) as Hb.
  destruct (updateClusterSettings_body q (dashboardConfig w) w) as [[a|e] w1]; simpl in *.
  - left. by rewrite (Hb a eq_refl).
  - right. unfold updateClusterSettings_catch. case_bool_decide; [by right | by left].
Qed.

(** X2.  When [dashConfig.spec?.notebookController] is undefined, the
    strict read of [dashConfig.spec.notebookController.enabled] before the
    rollouts throws: [updateClusterSettings] never returns
    [{success: true}], whatever the query and the cluster. *)
Theorem missing_notebookController_never_succeeds q w :
  spec (dashboardConfig w) ≫= notebookController = None ->
  (updateClusterSettings q w).1 <> Normal ok.
Proof.
  intros Hcfg.
  unfold updateClusterSettings, getDashboardConfig, try_catch, mbind at 1, M_bind, bind at 1.
  assert (forall w2, exists e, rollout_changes q (dashboardConfig w) w2 = (Throw e, w2)) as Hr.
  { intros w2. unfold rollout_changes, notebookController_enabled_strict.
    destruct (spec (dashboardConfig w)) as [sp|]; simpl in Hcfg.
    - rewrite Hcfg. by eexists.
    - by eexists. }
  unfold updateClusterSettings_body, mbind, M_bind, bind.
  destruct (update_tracking_flag q w) as [[[]|e1] w1]; simpl.
  - destruct (update_size_and_timeout q (dashboardConfig w) w1) as [[[]|e2] w2]; simpl.
    + destruct (Hr w2) as [e ->]. simpl.
      unfold updateClusterSettings_catch. case_bool_decide; discriminate.
    + unfold updateClusterSettings_catch. case_bool_decide; discriminate.
  - unfold updateClusterSettings_catch. case_bool_decide; discriminate.
Qed.

Lemma missing_notebookController_never_succeeds_witness :
  (updateClusterSettings (query_of "20" "3600" "null")
     (start legacy_cluster {| spec := Some {| notebookController := None |} |}
        no_faults in_order)).1 <> Normal ok.
Proof.
  apply (missing_notebookController_never_succeeds (query_of "20" "3600" "null")
           (start legacy_cluster {| spec := Some {| notebookController := None |} |}
              no_faults in_order)).
  reflexivity.
Defined.

(** X3.  When the parameter userTrackingEnabled is not 'null' and the patch
    of the tracking ConfigMap fails with [e], nothing else is done: the
    patch is the only request sent, the cluster is as it was, and the
    result is [undefined] when [e] is a 404 and the TypeError of the
    [catch] otherwise, also when pvcSize and cullerTimeout were given. *)
Theorem tracking_failure_aborts q c cfg f o e :
  q !! "userTrackingEnabled" <> Some "null" ->
  (patchCM segmentKeyCfg [("segmentKeyEnabled", q !! "userTrackingEnabled")]
     (start c cfg f o)).1 = Throw e ->
  issued (updateClusterSettings q (start c cfg f o)).2 = [tracking_patch q] /\
  inflight (updateClusterSettings q (start c cfg f o)).2 = [] /\
  cluster (updateClusterSettings q (start c cfg f o)).2 = c /\
  (updateClusterSettings q (start c cfg f o)).1 =
    if bool_decide (Js.response_statusCode e = Some 404) then Normal None
    else Throw (Js.undefined_property "body").
Proof.
  intros Hq. rewrite updateClusterSettings_start.
  unfold try_catch, updateClusterSettings_body, update_tracking_flag.
  rewrite bool_decide_eq_true_2 by exact Hq.
  unfold patchCM, patchCM_request, tracking_patch, mbind, M_bind, bind.
  rewrite await_idle by reflexivity.
  cbv beta iota zeta delta [perform completion fst snd faults cluster start
                            with_issued with_cluster issued inflight app].
  destruct c as [cms grp rst].
  cbv beta iota zeta delta [configMaps fst snd].
  destruct (f (PatchConfigMap segmentKeyCfg [("segmentKeyEnabled", q !! "userTrackingEnabled")]))
    as [e'|].
  - simpl. intros [= ->]. unfold updateClusterSettings_catch.
    cbv [Js.respose throw ret].
    case_bool_decide as He; simpl.
    + by rewrite bool_decide_eq_false_2.
    + by rewrite bool_decide_eq_true_2.
  - destruct (cms !! segmentKeyCfg) as [d|]; simpl; [discriminate|].
    intros [= <-]. cbv [updateClusterSettings_catch Js.respose throw ret]. done.
Qed.

Lemma tracking_failure_aborts_witness :
  (updateClusterSettings (query_of "20" "3600" "true")
     (start legacy_cluster (dashboard false) no_faults in_order)).1 = Normal None /\
  cluster (updateClusterSettings (query_of "20" "3600" "true")
             (start legacy_cluster (dashboard false) no_faults in_order)).2 = legacy_cluster.
Proof.
  destruct (tracking_failure_aborts (query_of "20" "3600" "true") legacy_cluster
              (dashboard false) no_faults in_order not_found) as (_ & _ & Hc & Hr).
  - discriminate.
  - reflexivity.
  - split; [exact Hr | exact Hc].
Defined.

(** ** What [getClusterSettings] reads *)

Lemma getClusterSettings_start c cfg f o :
  (getClusterSettings (start c cfg f o)).1 = settings_read c cfg f /\
  cluster (getClusterSettings (start c cfg f o)).2 = c /\
  inflight (getClusterSettings (start c cfg f o)).2 = [].
Proof.
  destruct (getClusterSettings_reading c cfg f (start c cfg f o) (start_reading c cfg f o))
    as (Hr & Hi & _ & Hc & _).
  done.
Qed.

Lemma hoare_conj {A} (P1 P2 : World -> Prop) (m : M A) Q1 Q2 :
  hoare P1 m Q1 -> hoare P2 m Q2 ->
  hoare (fun w => P1 w /\ P2 w) m (fun r w => Q1 r w /\ Q2 r w).
Proof. intros H1 H2 w [Hw1 Hw2]. split; [by apply H1 | by apply H2]. Qed.

Lemma hoare_issued_read name l :
  hoare (fun w => issued w = l) (readNamespacedConfigMap name)
    (fun _ w => issued w = (l ++ [ReadConfigMap name])%list).
Proof.
  intros w Hw. unfold readNamespacedConfigMap, mbind, M_bind, bind.
  pose proof (issued_await (ReadConfigMap name) w) as Hi.
  destruct (await (ReadConfigMap name) w) as [[x|e] w']; simpl in *; congruence.
Qed.

Lemma hoare_issued_log level msg l :
  hoare (fun w => issued w = l) (log level msg)
    (fun r w => r = Normal tt /\ issued w = l).
Proof. intros w Hw. by split. Qed.

(** A [try] that sends the read of [name] and whose [catch] only logs. *)
Lemma hoare_issued_try_read {A} name l (k : option (gmap string string) -> M A)
    (h : Js.JsError -> M A) :
  (forall d, preserves (fun w => issued w = (l ++ [ReadConfigMap name])%list) (k d)) ->
  (forall e, preserves (fun w => issued w = (l ++ [ReadConfigMap name])%list) (h e)) ->
  hoare (fun w => issued w = l) (try_catch (readNamespacedConfigMap name ≫= k) h)
    (fun _ w => issued w = (l ++ [ReadConfigMap name])%list).
Proof.
  intros Hk Hh.
  eapply hoare_try_catch with (R := fun _ w => issued w = (l ++ [ReadConfigMap name])%list);
    [| done | exact Hh].
  eapply hoare_bind; [apply hoare_issued_read | exact Hk | done].
Qed.

Ltac issued_step :=
  first
    [ apply preserves_ret
    | apply preserves_throw
    | apply preserves_bind; [| intros ?]
    | match goal with
      | |- preserves _ (log _ _) => intros ? ?; assumption
      | |- preserves _ (match ?x with _ => _ end) => destruct x
      end ].

(** X4.  [getClusterSettings] only reads: it leaves the cluster as it was
    and sends exactly two requests, the read of the tracking ConfigMap and
    the read of the ConfigMap of the mode; the ConfigMap of the other mode
    is not looked at. *)
Theorem getClusterSettings_read_only c cfg f o :
  cluster (getClusterSettings (start c cfg f o)).2 = c /\
  issued (getClusterSettings (start c cfg f o)).2 =
    [ReadConfigMap segmentKeyCfg; ReadConfigMap (authoritative cfg)].
Proof.
  split; [apply getClusterSettings_start|].
  cut (hoare (fun w => reading c cfg f w /\ issued w = []) getClusterSettings
         (fun _ w => issued w = [ReadConfigMap segmentKeyCfg; ReadConfigMap (authoritative cfg)])).
  { intros H. by apply H. }
  unfold getClusterSettings.
  eapply hoare_bind
    with (R := fun r w => r = Normal cfg /\ reading c cfg f w /\ issued w = []);
    [| | by intros ? ? [? _]].
  { intros w [Hr Hi]. split; [| done]. simpl. by destruct Hr as (_ & _ & _ & ->). }
  intros cfg'. apply hoare_pure. intros [= ->].
  eapply hoare_bind
    with (R := fun r w => (r = Normal (tracking_settings DEFAULT_CLUSTER_SETTINGS c f) /\
                           reading c cfg f w) /\
                          issued w = ([] ++ [ReadConfigMap segmentKeyCfg])%list).
  - apply hoare_conj; [apply read_tracking_flag_reading|].
    unfold read_tracking_flag, tracking_flag_catch.
    apply hoare_issued_try_read; intros; unfold property; repeat issued_step.
  - intros cs. unfold authoritative.
    eapply hoare_weaken
      with (P := fun w => issued w = ([] ++ [ReadConfigMap segmentKeyCfg])%list)
           (Q := fun _ w => issued w = [ReadConfigMap segmentKeyCfg;
                                        ReadConfigMap (if notebookController_enabled cfg
                                                       then nbcCfg else jupyterhubCfg)]);
      [| by intros w [_ ?] | done].
    eapply hoare_bind
      with (R := fun _ w => issued w = ([ReadConfigMap segmentKeyCfg] ++
                                        [ReadConfigMap (if notebookController_enabled cfg
                                                        then nbcCfg else jupyterhubCfg)])%list).
    + destruct (notebookController_enabled cfg).
      * unfold read_culler_config, culler_config_catch.
        apply hoare_issued_try_read; intros; unfold property; repeat issued_step.
      * unfold read_legacy_config, legacy_config_catch, readJupyterhubCfg.
        eapply hoare_try_catch
          with (R := fun _ w => issued w = ([ReadConfigMap segmentKeyCfg] ++
                                            [ReadConfigMap jupyterhubCfg])%list);
          [| done | intros; repeat issued_step].
        eapply hoare_bind
          with (R := fun _ w => issued w = ([ReadConfigMap segmentKeyCfg] ++
                                            [ReadConfigMap jupyterhubCfg])%list);
          [| intros [? ?]; apply preserves_ret | done].
        eapply hoare_bind; [apply hoare_issued_read | | done].
        intros d. unfold property, call_replace. repeat issued_step.
    + intros cs'. by apply hoare_ret.
    + intros ? ? H. exact H.
  - by intros ? ? [[? _] _].
Qed.

(** X5.  In notebook-controller mode the pvcSize returned is the
    placeholder 20, whatever the ConfigMaps hold and whatever the reads
    answer. *)
Theorem nbc_pvcSize_is_placeholder c cfg f o cs :
  notebookController_enabled cfg = true ->
  (getClusterSettings (start c cfg f o)).1 = Normal (inl cs) ->
  pvcSize cs = Js.num 20.
Proof.
  intros Hnbc. destruct (getClusterSettings_start c cfg f o) as (-> & _).
  unfold settings_read, culler_settings. rewrite Hnbc.
  destruct (read_result nbcCfg c f) as [[d|]|e]; try discriminate.
  - destruct (Js.truthy (d !! "ENABLE_CULLING")); by intros [= <-].
  - case_bool_decide; [by intros [= <-] | discriminate].
Qed.

Lemma nbc_pvcSize_is_placeholder_witness :
  pvcSize {| pvcSize := Js.num 20; cullerTimeout := Js.num 3600; userTrackingEnabled := None |}
    = Js.num 20.
Proof.
  apply (nbc_pvcSize_is_placeholder (culler_cluster "true" "60") (dashboard true)
           no_faults in_order).
  - reflexivity.
  - vm_compute. reflexivity.
Defined.

(** X6.  In notebook-controller mode, when the read of the culling ConfigMap
    is answered 404, [getClusterSettings] does not fail: it returns the
    sentinel 31536000 as cullerTimeout. *)
Theorem missing_culler_config_means_disabled c cfg f o e :
  notebookController_enabled cfg = true ->
  (readNamespacedConfigMap nbcCfg (start c cfg f o)).1 = Throw e ->
  Js.statusCode e = Some 404 ->
  exists cs,
    (getClusterSettings (start c cfg f o)).1 = Normal (inl cs) /\
    cullerTimeout cs = DEFAULT_CULLER_TIMEOUT.
Proof.
  intros Hnbc Hread He. rewrite readNamespacedConfigMap_start in Hread.
  destruct (getClusterSettings_start c cfg f o) as (-> & _).
  unfold settings_read, culler_settings. rewrite Hnbc, Hread.
  rewrite bool_decide_eq_true_2 by exact He.
  eexists. split; reflexivity.
Qed.

Lemma missing_culler_config_means_disabled_witness :
  exists cs,
    (getClusterSettings (start empty_cluster (dashboard true) no_faults in_order)).1 =
      Normal (inl cs) /\
    cullerTimeout cs = DEFAULT_CULLER_TIMEOUT.
Proof.
  apply (missing_culler_config_means_disabled empty_cluster (dashboard true)
           no_faults in_order not_found); reflexivity.
Defined.

(** X7.  In notebook-controller mode, when the culling ConfigMap is read
    with data [d]: for every non-empty string stored as ENABLE_CULLING
    ('false' included) the cullerTimeout returned is
    Number(CULL_IDLE_TIME) * 60, which is NaN when CULL_IDLE_TIME is
    missing; when ENABLE_CULLING is missing or empty it is the sentinel. *)
Theorem culling_flag_is_truthiness c cfg f o d :
  notebookController_enabled cfg = true ->
  (readNamespacedConfigMap nbcCfg (start c cfg f o)).1 = Normal (Some d) ->
  exists cs,
    (getClusterSettings (start c cfg f o)).1 = Normal (inl cs) /\
    (forall s, d !! "ENABLE_CULLING" = Some s -> s <> "" ->
       cullerTimeout cs = Js.mul (Js.Number (d !! "CULL_IDLE_TIME")) (Js.num 60) /\
       (d !! "CULL_IDLE_TIME" = None -> cullerTimeout cs = Js.NaN)) /\
    (d !! "ENABLE_CULLING" = None \/ d !! "ENABLE_CULLING" = Some "" ->
       cullerTimeout cs = DEFAULT_CULLER_TIMEOUT).
Proof.
  intros Hnbc Hread. rewrite readNamespacedConfigMap_start in Hread.
  destruct (getClusterSettings_start c cfg f o) as (-> & _).
  unfold settings_read, culler_settings. rewrite Hnbc, Hread.
  eexists. split; [reflexivity|]. split.
  - intros s Hs Hne. rewrite Hs. unfold Js.truthy.
    rewrite bool_decide_eq_false_2 by exact Hne. simpl.
    split; [reflexivity|]. by intros ->.
  - intros [-> | ->]; reflexivity.
Qed.

Lemma culling_flag_is_truthiness_witness :
  exists cs,
    (getClusterSettings
       (start (culler_cluster "no" "5") (dashboard true) no_faults in_order)).1 =
      Normal (inl cs) /\
    cullerTimeout cs = Js.num 300.
Proof.
  destruct (culling_flag_is_truthiness (culler_cluster "no" "5") (dashboard true)
              no_faults in_order {[ "ENABLE_CULLING" := "no"; "CULL_IDLE_TIME" := "5" ]})
    as (cs & Hr & Hon & _).
  - reflexivity.
  - vm_compute. reflexivity.
  - exists cs. split; [exact Hr|].
    destruct (Hon "no") as [-> _]; [reflexivity | discriminate |].
    vm_compute. reflexivity.
Defined.

(** X8.  The tracking flag returned is [true] exactly when the tracking
    ConfigMap is read with segmentKeyEnabled being the string 'true'; any
    other data gives [false], and a ConfigMap without data gives [null]. *)
Theorem tracking_flag_read c cfg f o cs :
  (getClusterSettings (start c cfg f o)).1 = Normal (inl cs) ->
  (forall d, (readNamespacedConfigMap segmentKeyCfg (start c cfg f o)).1 = Normal (Some d) ->
     userTrackingEnabled cs = Some (bool_decide (d !! "segmentKeyEnabled" = Some "true"))) /\
  ((readNamespacedConfigMap segmentKeyCfg (start c cfg f o)).1 = Normal None ->
     userTrackingEnabled cs = None).
Proof.
  rewrite readNamespacedConfigMap_start.
  destruct (getClusterSettings_start c cfg f o) as (-> & _).
  unfold settings_read.
  set (cs0 := tracking_settings DEFAULT_CLUSTER_SETTINGS c f).
  intros Hcs.
  assert (userTrackingEnabled cs = userTrackingEnabled cs0) as ->.
  { destruct (notebookController_enabled cfg).
    - unfold culler_settings in Hcs.
      destruct (read_result nbcCfg c f) as [[d|]|e]; try discriminate.
      + destruct (Js.truthy (d !! "ENABLE_CULLING")); by injection Hcs as <-.
      + revert Hcs. case_bool_decide; [by intros [= <-] | discriminate].
    - injection Hcs as <-. unfold legacy_settings.
      destruct (read_result jupyterhubCfg c f) as [[d|]|e]; try done.
      by destruct (d !! "singleuser_pvc_size"). }
  unfold cs0, tracking_settings.
  split; [intros d -> | intros ->]; reflexivity.
Qed.

Lemma tracking_flag_read_witness :
  userTrackingEnabled
    {| pvcSize := Js.num 20; cullerTimeout := Js.num 3600; userTrackingEnabled := Some true |}
    = Some (bool_decide (({[ "segmentKeyEnabled" := "true" ]} : gmap string string)
                           !! "segmentKeyEnabled" = Some "true")).
Proof.
  apply (tracking_flag_read tracked_cluster (dashboard false) no_faults in_order).
  - vm_compute. reflexivity.
  - vm_compute. reflexivity.
Defined.

(** X9.  Legacy mode, the legacy ConfigMap read with data [d].  With a
    singleuser_pvc_size the values returned are the Numbers of the stored
    strings, the first 'Gi' removed from the size; a missing
    culler_timeout then gives NaN, not the default.  Without a
    singleuser_pvc_size both values stay at their defaults, even when a
    culler_timeout is stored. *)
Theorem legacy_missing_keys c cfg f o d :
  notebookController_enabled cfg = false ->
  (readNamespacedConfigMap jupyterhubCfg (start c cfg f o)).1 = Normal (Some d) ->
  exists cs,
    (getClusterSettings (start c cfg f o)).1 = Normal (inl cs) /\
    (forall size, d !! "singleuser_pvc_size" = Some size ->
       pvcSize cs = Js.Number (Some (Js.replace "Gi" "" size)) /\
       cullerTimeout cs = Js.Number (d !! "culler_timeout") /\
       (d !! "culler_timeout" = None -> cullerTimeout cs = Js.NaN)) /\
    (d !! "singleuser_pvc_size" = None ->
       pvcSize cs = DEFAULT_PVC_SIZE /\ cullerTimeout cs = DEFAULT_CULLER_TIMEOUT).
Proof.
  intros Hnbc Hread. rewrite readNamespacedConfigMap_start in Hread.
  destruct (getClusterSettings_start c cfg f o) as (-> & _).
  unfold settings_read, legacy_settings. rewrite Hnbc, Hread.
  eexists. split; [reflexivity|].
  assert (pvcSize (tracking_settings DEFAULT_CLUSTER_SETTINGS c f) = DEFAULT_PVC_SIZE /\
          cullerTimeout (tracking_settings DEFAULT_CLUSTER_SETTINGS c f) = DEFAULT_CULLER_TIMEOUT)
    as Hdef.
  { unfold tracking_settings. by destruct (read_result segmentKeyCfg c f) as [[?|]|]. }
  split.
  - intros size ->. simpl. repeat split. by intros ->.
  - intros ->. exact Hdef.
Qed.

Lemma legacy_missing_keys_witness :
  exists cs,
    (getClusterSettings
       (start (cluster_of {[ jupyterhubCfg := {[ "singleuser_pvc_size" := "5Gi" ]} ]})
          (dashboard false) no_faults in_order)).1 = Normal (inl cs) /\
    pvcSize cs = Js.num 5 /\ cullerTimeout cs = Js.NaN.
Proof.
  destruct (legacy_missing_keys
              (cluster_of {[ jupyterhubCfg := {[ "singleuser_pvc_size" := "5Gi" ]} ]})
              (dashboard false) no_faults in_order {[ "singleuser_pvc_size" := "5Gi" ]})
    as (cs & Hr & Hsize & _).
  - reflexivity.
  - vm_compute. reflexivity.
  - exists cs. split; [exact Hr|].
    destruct (Hsize "5Gi") as (-> & _ & Hnan); [reflexivity|].
    split; [vm_compute; reflexivity | apply Hnan; reflexivity].
Defined.

(** ** The requests of each mode *)

Lemma await_only allowed r : allowed r = true -> preserves (only allowed) (await r).
Proof.
  intros Hr w Hw. unfold only. rewrite issued_await.
  apply Forall_app. split; [exact Hw | by constructor].
Qed.

Lemma fire_only allowed r : allowed r = true -> preserves (only allowed) (fire r).
Proof.
  intros Hr w Hw. unfold only. simpl.
  apply Forall_app. split; [exact Hw | by constructor].
Qed.

Lemma settle_only allowed w : only allowed w -> only allowed (settle w).
Proof. unfold only. by destruct (settle_fixed w) as (_ & _ & _ & _ & -> & _). Qed.

Section Modes.
Variable I : World -> Prop.
Variable allowed : ApiRequest -> bool.
Hypothesis I_await : forall r, allowed r = true -> preserves I (await r).
Hypothesis I_fire : forall r, allowed r = true -> preserves I (fire r).

Ltac mode_step :=
  first
    [ apply preserves_ret
    | apply preserves_throw
    | apply I_await; first [ assumption | auto ]
    | apply I_fire; first [ assumption | auto ]
    | apply preserves_bind; [| intros ?]
    | apply preserves_try_catch; [| intros ?]
    | match goal with
      | |- preserves _ (match ?x with _ => _ end) => destruct x
      end ].

Lemma update_culler_config_mode q :
  (forall r, writes_to nbcCfg r = true -> allowed r = true) ->
  preserves I (update_culler_config q).
Proof.
  intros H. unfold update_culler_config, patchCM, patchCM_request.
  unfold deleteNamespacedConfigMap, createNamespacedConfigMap.
  repeat first [ mode_step | apply I_await, H; reflexivity ].
Qed.

Lemma updateClusterSettings_nbc_mode q cfg :
  notebookController_enabled cfg = true ->
  (q !! "userTrackingEnabled" = Some "null" \/ allowed (tracking_patch q) = true) ->
  (forall r, writes_to nbcCfg r = true -> allowed r = true) ->
  allowed (Rollout Deployment "notebook-controller-deployment") = true ->
  preserves I (try_catch (updateClusterSettings_body q cfg) updateClusterSettings_catch).
Proof.
  intros Hnbc Htrack Hwrites Hroll.
  apply preserves_try_catch; [| apply updateClusterSettings_catch_stable].
  unfold updateClusterSettings_body.
  apply preserves_bind;
    [apply update_tracking_flag_stable with (allowed := allowed); assumption | intros _].
  apply preserves_bind; [| intros _].
  { unfold update_size_and_timeout. rewrite Hnbc.
    destruct (Js.truthy (q !! "pvcSize") && Js.truthy (q !! "cullerTimeout"));
      [by apply update_culler_config_mode | apply preserves_ret]. }
  apply preserves_bind; [| intros; apply preserves_ret].
  unfold rollout_changes.
  rewrite notebookController_enabled_strict_true by exact Hnbc.
  change (preserves I (rolloutDeployment "notebook-controller-deployment")).
  unfold rolloutDeployment. repeat mode_step.
Qed.

Lemma updateClusterSettings_legacy_mode q cfg :
  notebookController_enabled cfg = false ->
  (q !! "userTrackingEnabled" = Some "null" \/ allowed (tracking_patch q) = true) ->
  allowed (legacy_patch q) = true ->
  allowed (ReadConfigMap jupyterhubCfg) = true ->
  allowed (Rollout DeploymentConfig "jupyterhub") = true ->
  allowed (Rollout DeploymentConfig "jupyterhub-idle-culler") = true ->
  preserves I (try_catch (updateClusterSettings_body q cfg) updateClusterSettings_catch).
Proof.
  intros Hnbc Htrack Hpatch Hread Hhub Hculler.
  apply preserves_try_catch; [| apply updateClusterSettings_catch_stable].
  unfold updateClusterSettings_body.
  apply preserves_bind;
    [apply update_tracking_flag_stable with (allowed := allowed); assumption | intros _].
  apply preserves_bind; [| intros _].
  { unfold update_size_and_timeout. rewrite Hnbc.
    destruct (Js.truthy (q !! "pvcSize") && Js.truthy (q !! "cullerTimeout"));
      [| apply preserves_ret].
    unfold patchCM_detached, patchCM_request. by apply I_fire. }
  apply preserves_bind; [| intros; apply preserves_ret].
  unfold rollout_changes, notebookController_enabled_strict.
  destruct cfg as [[[[[b]|]]|]]; cbn in Hnbc; subst;
    [| intros w Hw; exact Hw ..].
  change (preserves I (rollout_legacy q)).
  unfold rollout_legacy, rolloutDeploymentConfig, readNamespacedConfigMap.
  unfold property, call_replace. repeat mode_step.
Qed.
End Modes.

Lemma framed_without prot cms0 w n :
  framed prot cms0 w -> prot n = true -> configMaps (cluster w) !! n = cms0 !! n.
Proof. intros [[H _] _]. apply H. Qed.

(** X10.  In notebook-controller mode [updateClusterSettings] sends only
    patches of the tracking ConfigMap, writes of the culling ConfigMap and
    the rollout of the controller deployment: the legacy ConfigMap is
    neither read nor written, no DeploymentConfig is rolled out, and every
    ConfigMap other than the tracking and the culling one is afterwards
    what it was. *)
Theorem nbc_mode_requests q c cfg f o :
  notebookController_enabled cfg = true ->
  let w' := settle (updateClusterSettings q (start c cfg f o)).2 in
  Forall (fun r => nbc_requests r = true) (issued w') /\
  (forall n, n <> segmentKeyCfg -> n <> nbcCfg ->
     configMaps (cluster w') !! n = configMaps c !! n).
Proof.
  intros Hnbc w'. subst w'. rewrite updateClusterSettings_start. split.
  - apply settle_only.
    apply (updateClusterSettings_nbc_mode (only nbc_requests) nbc_requests).
    + intros r. apply await_only.
    + exact Hnbc.
    + by right.
    + intros [] Hr; simpl in *; try discriminate; rewrite Hr; try reflexivity.
      apply orb_true_r.
    + reflexivity.
    + constructor.
  - intros n Hseg Hculler.
    set (prot := fun m => negb (bool_decide (m = segmentKeyCfg)) &&
                          negb (bool_decide (m = nbcCfg))).
    apply (framed_without prot).
    + apply settle_framed.
      apply (updateClusterSettings_nbc_mode (framed prot (configMaps c))
               (fun r => negb (writes prot r))).
      * intros r Hr. apply await_framed. by apply negb_true_iff.
      * exact Hnbc.
      * by right.
      * intros [] Hr; simpl in *; try discriminate.
        all: apply bool_decide_eq_true in Hr as ->; reflexivity.
      * reflexivity.
      * apply start_framed.
    + unfold prot. by rewrite !bool_decide_eq_false_2.
Qed.

Lemma nbc_mode_requests_witness :
  issued (settle (update_in legacy_cluster true (query_of "20" "3600" "null")).2) =
    [PatchConfigMap nbcCfg [("ENABLE_CULLING", Some "true"); ("CULL_IDLE_TIME", Some "60")];
     CreateConfigMap nbcCfg
       {[ "ENABLE_CULLING" := "true"; "CULL_IDLE_TIME" := "60";
          "IDLENESS_CHECK_PERIOD" := "1" ]};
     Rollout Deployment "notebook-controller-deployment"] /\
  configMaps (cluster (settle (update_in legacy_cluster true (query_of "20" "3600" "null")).2))
    !! jupyterhubCfg = configMaps legacy_cluster !! jupyterhubCfg.
Proof.
  destruct (nbc_mode_requests (query_of "20" "3600" "null") legacy_cluster
              (dashboard true) no_faults in_order) as [_ Hkept].
  - reflexivity.
  - split; [vm_compute; reflexivity | apply Hkept; discriminate].
Defined.

(** X11.  In legacy mode [updateClusterSettings] sends only patches of the
    tracking and of the legacy ConfigMap, the read of the legacy ConfigMap
    and the rollouts of the DeploymentConfigs jupyterhub and
    jupyterhub-idle-culler: the culling ConfigMap is neither read nor
    written, the controller deployment is not rolled out, and every
    ConfigMap other than the tracking and the legacy one is afterwards what
    it was. *)
Theorem legacy_mode_requests q c cfg f o :
  notebookController_enabled cfg = false ->
  let w' := settle (updateClusterSettings q (start c cfg f o)).2 in
  Forall (fun r => legacy_requests r = true) (issued w') /\
  (forall n, n <> segmentKeyCfg -> n <> jupyterhubCfg ->
     configMaps (cluster w') !! n = configMaps c !! n).
Proof.
  intros Hnbc w'. subst w'. rewrite updateClusterSettings_start. split.
  - apply settle_only.
    apply (updateClusterSettings_legacy_mode (only legacy_requests) legacy_requests);
      try reflexivity; try exact Hnbc.
    + intros r. apply await_only.
    + intros r. apply fire_only.
    + by right.
    + constructor.
  - intros n Hseg Hlegacy.
    set (prot := fun m => negb (bool_decide (m = segmentKeyCfg)) &&
                          negb (bool_decide (m = jupyterhubCfg))).
    apply (framed_without prot).
    + apply settle_framed.
      apply (updateClusterSettings_legacy_mode (framed prot (configMaps c))
               (fun r => negb (writes prot r)));
        try reflexivity; try exact Hnbc.
      * intros r Hr. apply await_framed. by apply negb_true_iff.
      * intros r Hr. apply fire_framed. by apply negb_true_iff.
      * by right.
      * apply start_framed.
    + unfold prot. by rewrite !bool_decide_eq_false_2.
Qed.

Lemma legacy_mode_requests_witness :
  issued (settle (update_in (culler_cluster "true" "60") false
                    (query_of "20" "3600" "null")).2) =
    [PatchConfigMap jupyterhubCfg
       [("singleuser_pvc_size", Some "20Gi"); ("culler_timeout", Some "3600")];
     ReadConfigMap jupyterhubCfg] /\
  configMaps (cluster (settle (update_in (culler_cluster "true" "60") false
                                 (query_of "20" "3600" "null")).2)) !! nbcCfg =
    configMaps (culler_cluster "true" "60") !! nbcCfg.
Proof.
  destruct (legacy_mode_requests (query_of "20" "3600" "null") (culler_cluster "true" "60")
              (dashboard false) no_faults in_order) as [_ Hkept].
  - reflexivity.
  - split; [vm_compute; reflexivity | apply Hkept; discriminate].
Defined.

(** ** The rollouts of legacy mode *)

Lemma perform_restarted r c :
  is_rollout r = false -> restarted (perform r c).2 = restarted c.
Proof.
  intros Hr. destruct r; try discriminate; simpl; try reflexivity.
  all: repeat match goal with |- context [match ?x with _ => _ end] => destruct x end.
  all: reflexivity.
Qed.

Lemma serve_restarted r w :
  is_rollout r = false -> restarted (cluster (serve r w).2) = restarted (cluster w).
Proof.
  intros Hr. unfold serve. destruct (faults w r); [done|].
  pose proof (perform_restarted r (cluster w) Hr) as H.
  destruct (perform r (cluster w)); exact H.
Qed.

Lemma settle_restarted w :
  Forall (fun r => is_rollout r = false) (inflight w) ->
  restarted (cluster (settle w)) = restarted (cluster w).
Proof.
  unfold settle. intros Hl.
  change (restarted (cluster w)) with (restarted (cluster (with_inflight [] w))).
  generalize (with_inflight [] w). induction Hl as [|r l Hr Hl IH]; intros w0; simpl; [done|].
  rewrite IH. unfold serve_detached.
  pose proof (serve_restarted r w0 Hr) as H.
  destruct (serve r w0) as [[e|x] w1]; exact H.
Qed.

(** An awaited rollout that the API does not fail restarts the workload,
    whatever else is in flight. *)
Lemma await_rollout f rs kind name :
  f (Rollout kind name) = None ->
  hoare (fun w => no_rollout_inflight f w /\ restarted (cluster w) = rs)
    (await (Rollout kind name))
    (fun r w => r = Normal Accepted /\ no_rollout_inflight f w /\
                restarted (cluster w) = (rs ++ [(kind, name)])%list).
Proof.
  intros Hf w [[Hfw Hfl] Hrs]. unfold await.
  set (r := Rollout kind name).
  set (w1 := with_issued (issued w ++ [r]) w).
  set (w2 := match inflight w1 with
             | [] => w1
             | _ :: _ => if overtakes w1 r then w1 else settle w1
             end).
  assert (no_rollout_inflight f w2 /\ restarted (cluster w2) = rs) as [[Hf2 Hfl2] Hrs2].
  { assert (no_rollout_inflight f w1 /\ restarted (cluster w1) = rs) as Hw1
      by (repeat split; assumption).
    subst w2. destruct (inflight w1) eqn:Hi; [exact Hw1|].
    destruct (overtakes w1 r); [exact Hw1|].
    destruct (settle_fixed w1) as (Hf' & _ & _ & Hi' & _).
    rewrite settle_restarted by exact Hfl.
    repeat split; [by rewrite Hf' | by rewrite Hi' | exact Hrs]. }
  unfold serve. rewrite Hf2. unfold r. rewrite Hf. simpl.
  repeat split; [exact Hf2 | exact Hfl2 | by rewrite Hrs2].
Qed.

Lemma hoare_ret_bind {A B} (P : World -> Prop) (a : A) (k : A -> M B) Q :
  hoare P (k a) Q -> hoare P (mret a ≫= k) Q.
Proof. intros H w Hw. exact (H w Hw). Qed.

Lemma rollout_if f rs (b : bool) name :
  (b = true -> f (Rollout DeploymentConfig name) = None) ->
  hoare (fun w => no_rollout_inflight f w /\ restarted (cluster w) = rs)
    (if b then rolloutDeploymentConfig name else mret tt)
    (fun r w => r = Normal tt /\ no_rollout_inflight f w /\
                restarted (cluster w) =
                  (rs ++ if b then [(DeploymentConfig, name)] else [])%list).
Proof.
  intros Hf. destruct b.
  - unfold rolloutDeploymentConfig.
    eapply hoare_bind; [by apply await_rollout, Hf | | by intros ? ? [? _]].
    intros x. apply hoare_ret. by intros w (_ & ? & ?).
  - apply hoare_ret. intros w [? ?]. by rewrite app_nil_r.
Qed.

(** The comparisons of lines 102-107, once the ConfigMap was read with
    [d]: the rollouts are those of [legacy_diff]. *)
Lemma rollout_legacy_after_read q f d size rs (P : World -> Prop) :
  (Some (Js.replace "Gi" "" size) <> q !! "pvcSize" ->
   f (Rollout DeploymentConfig "jupyterhub") = None) ->
  (d !! "culler_timeout" <> q !! "cullerTimeout" ->
   f (Rollout DeploymentConfig "jupyterhub-idle-culler") = None) ->
  d !! "singleuser_pvc_size" = Some size ->
  hoare P (readNamespacedConfigMap jupyterhubCfg)
    (fun r w => r = Normal (Some d) /\ no_rollout_inflight f w /\ restarted (cluster w) = rs) ->
  hoare P (rollout_legacy q)
    (fun r w => r = Normal tt /\ no_rollout_inflight f w /\
                restarted (cluster w) = (rs ++ legacy_diff q d size)%list).
Proof.
  intros Hhub Hculler Hsize Hread. unfold rollout_legacy.
  eapply hoare_bind; [exact Hread | | by intros ? ? [? _]].
  intros a. apply hoare_pure. intros [= ->].
  unfold property. rewrite Hsize.
  apply hoare_ret_bind. unfold call_replace. apply hoare_ret_bind.
  eapply hoare_bind;
    [apply rollout_if; intros Hb; apply bool_decide_eq_true in Hb; by apply Hhub | |
     by intros ? ? [? _]].
  intros []. apply hoare_pure. intros _.
  apply hoare_ret_bind.
  eapply hoare_weaken;
    [apply rollout_if; intros Hb; apply bool_decide_eq_true in Hb; by apply Hculler |
     intros w Hw; exact Hw |].
  intros r w (? & ? & ->). unfold legacy_diff. by rewrite <- app_assoc.
Qed.

(** The read of the legacy ConfigMap with nothing in flight. *)
Lemma read_legacy_idle f d rs :
  f (ReadConfigMap jupyterhubCfg) = None ->
  d <> ∅ ->
  hoare (settled f jupyterhubCfg (Some d) rs) (readNamespacedConfigMap jupyterhubCfg)
    (fun r w => r = Normal (Some d) /\ no_rollout_inflight f w /\ restarted (cluster w) = rs).
Proof.
  intros Hf Hd [[cms grp rst] cfg f' o fl iss unh lg] (Hi & Hfw & Hl & Hr).
  simpl in *. subst. unfold readNamespacedConfigMap, mbind, M_bind, bind.
  rewrite await_idle by reflexivity.
  cbv beta iota zeta delta [perform completion fst snd faults cluster configMaps].
  rewrite Hf, Hl. unfold body_data. rewrite bool_decide_eq_false_2 by exact Hd.
  repeat split. constructor.
Qed.

(** The read of the legacy ConfigMap with the patch in flight: it sees the
    ConfigMap as it was when it overtakes the patch, and patched
    otherwise. *)
Lemma read_legacy_pending f (o : ApiRequest -> bool) props (d0 : gmap string string) rs :
  (o (ReadConfigMap jupyterhubCfg) = false -> f (PatchConfigMap jupyterhubCfg props) = None) ->
  f (ReadConfigMap jupyterhubCfg) = None ->
  (if o (ReadConfigMap jupyterhubCfg) then d0 else json_data props ∪ d0) <> ∅ ->
  hoare (fun w => faults w = f /\ overtakes w = o /\
                  inflight w = [PatchConfigMap jupyterhubCfg props] /\
                  configMaps (cluster w) !! jupyterhubCfg = Some d0 /\
                  restarted (cluster w) = rs)
    (readNamespacedConfigMap jupyterhubCfg)
    (fun r w => r = Normal (Some (if o (ReadConfigMap jupyterhubCfg)
                                  then d0 else json_data props ∪ d0)) /\
                no_rollout_inflight f w /\ restarted (cluster w) = rs).
Proof.
  intros Hpatch Hread Hd [[cms grp rst] cfg f' o' fl iss unh lg]
    (Hfw & Ho & Hi & Hl & Hr).
  simpl in *. subst.
  unfold readNamespacedConfigMap, mbind, M_bind, bind, await.
  cbv beta iota zeta delta [with_issued inflight overtakes].
  destruct (o (ReadConfigMap jupyterhubCfg)) eqn:Eo.
  - unfold serve. cbv beta iota zeta delta [faults cluster perform configMaps].
    rewrite Hread, Hl. unfold body_data. rewrite bool_decide_eq_false_2 by exact Hd.
    simpl. repeat split. by repeat constructor.
  - unfold settle, serve_detached, serve. simpl.
    rewrite (Hpatch eq_refl), Hl. simpl. rewrite Hread. simpl.
    rewrite lookup_insert_eq. simpl.
    unfold body_data. rewrite bool_decide_eq_false_2 by exact Hd.
    repeat split. constructor.
Qed.

Lemma fire_legacy_patch f o props d0 rs :
  hoare (fun w => settled f jupyterhubCfg (Some d0) rs w /\ overtakes w = o)
    (fire (PatchConfigMap jupyterhubCfg props))
    (fun r w => r = Normal tt /\
                faults w = f /\ overtakes w = o /\
                inflight w = [PatchConfigMap jupyterhubCfg props] /\
                configMaps (cluster w) !! jupyterhubCfg = Some d0 /\
                restarted (cluster w) = rs).
Proof.
  intros w [(Hi & Hf & Hl & Hr) Ho]. simpl. rewrite Hi. done.
Qed.

Lemma await_overtakes o r : preserves (fun w => overtakes w = o) (await r).
Proof.
  intros w Hw. unfold await.
  set (w1 := with_issued (issued w ++ [r]) w).
  set (w2 := match inflight w1 with
             | [] => w1
             | _ :: _ => if overtakes w1 r then w1 else settle w1
             end).
  assert (overtakes w2 = o) as H2.
  { subst w2. destruct (inflight w1); [assumption|].
    destruct (overtakes w1 r) eqn:E; [assumption|].
    by destruct (settle_fixed w1) as (_ & -> & _). }
  pose proof (serve_fixed r w2) as (_ & Ho & _).
  destruct (serve r w2) as [[e|x] w3]; simpl in *; congruence.
Qed.

Lemma update_tracking_flag_settled_schedule q f o n X rs :
  n <> segmentKeyCfg ->
  hoare (fun w => (settled f n X rs w /\ tracking_step_ok q (cluster w) f) /\ overtakes w = o)
    (update_tracking_flag q)
    (fun r w => (r = Normal tt /\ settled f n X rs w) /\ overtakes w = o).
Proof.
  intros Hn. apply hoare_conj; [by apply update_tracking_flag_settled|].
  apply update_tracking_flag_stable with (allowed := fun _ => true); [| by right].
  intros r _. apply await_overtakes.
Qed.

Lemma prefix_cons a p c s :
  String.prefix (String a p) (String c s) =
  if ascii_dec a c then String.prefix p s else false.
Proof. reflexivity. Qed.

Lemma prefix_Gi_app c s :
  String.prefix "Gi" (String c s) = false ->
  String.prefix "Gi" (String c (s ++ "Gi")) = false.
Proof.
  rewrite !prefix_cons. destruct (ascii_dec "G" c); [| done].
  destruct s as [|c' s].
  - intros _. change ("" ++ "Gi") with "Gi". rewrite prefix_cons.
    destruct (ascii_dec "i" "G") as [E|]; [discriminate E | reflexivity].
  - change (String c' s ++ "Gi") with (String c' (s ++ "Gi")).
    rewrite !prefix_cons.
    destruct (ascii_dec "i" c'); [destruct s; intros H; discriminate H | reflexivity].
Qed.

(** Removing the first 'Gi' undoes appending 'Gi' to a string that has
    none. *)
Lemma replace_Gi_suffix s :
  occurs "Gi" s = false -> Js.replace "Gi" "" (s ++ "Gi") = s.
Proof.
  induction s as [|c s IH]; [reflexivity|].
  intros H. apply orb_false_iff in H as [Hp Ho].
  change (String c s ++ "Gi") with (String c (s ++ "Gi")).
  unfold Js.replace; fold Js.replace.
  rewrite (prefix_Gi_app c s Hp). by rewrite IH.
Qed.

(** Legacy mode, the tracking step succeeding and the legacy ConfigMap
    readable: the request succeeds and the DeploymentConfigs rolled out
    are those whose value in the ConfigMap, as the read of line 101 sees
    it, differs from the query.  The read sees the patch of line 90
    applied unless it overtakes it. *)
Lemma updateClusterSettings_legacy_rollouts q c f (o : ApiRequest -> bool) d0 seen size :
  tracking_step_ok q c f ->
  configMaps c !! jupyterhubCfg = Some d0 ->
  f (ReadConfigMap jupyterhubCfg) = None ->
  (Js.truthy (q !! "pvcSize") && Js.truthy (q !! "cullerTimeout") = true ->
   o (ReadConfigMap jupyterhubCfg) = false -> f (legacy_patch q) = None) ->
  seen = (if Js.truthy (q !! "pvcSize") && Js.truthy (q !! "cullerTimeout")
          then if o (ReadConfigMap jupyterhubCfg) then d0
               else json_data [("singleuser_pvc_size",
                                Some (Js.interpolate (q !! "pvcSize") ++ "Gi"));
                               ("culler_timeout", q !! "cullerTimeout")] ∪ d0
          else d0) ->
  seen <> ∅ ->
  seen !! "singleuser_pvc_size" = Some size ->
  (Some (Js.replace "Gi" "" size) <> q !! "pvcSize" ->
   f (Rollout DeploymentConfig "jupyterhub") = None) ->
  (seen !! "culler_timeout" <> q !! "cullerTimeout" ->
   f (Rollout DeploymentConfig "jupyterhub-idle-culler") = None) ->
  (updateClusterSettings q (start c (dashboard false) f o)).1 = Normal ok /\
  restarted (cluster (updateClusterSettings q (start c (dashboard false) f o)).2) =
    (restarted c ++ legacy_diff q seen size)%list.
Proof.
  intros Htrack Hd0 Hread Hpatch Hseen Hne Hsize Hhub Hculler.
  rewrite updateClusterSettings_start.
  cut (hoare (fun w => (settled f jupyterhubCfg (Some d0) (restarted c) w /\
                        tracking_step_ok q (cluster w) f) /\ overtakes w = o)
         (try_catch (updateClusterSettings_body q (dashboard false))
            updateClusterSettings_catch)
         (fun r w => r = Normal ok /\
                     restarted (cluster w) = (restarted c ++ legacy_diff q seen size)%list)).
  { intros H. apply (H (start c (dashboard false) f o)). by repeat split. }
  eapply hoare_try_catch with
    (R := fun r w => r = Normal ok /\
                     restarted (cluster w) = (restarted c ++ legacy_diff q seen size)%list);
    [| intros a w Hw; exact Hw | intros e w [H _]; discriminate H].
  unfold updateClusterSettings_body.
  eapply hoare_bind;
    [by apply update_tracking_flag_settled_schedule | |
     intros e w [[H _] _]; discriminate H].
  intros [].
  eapply hoare_weaken with
    (P := fun w => settled f jupyterhubCfg (Some d0) (restarted c) w /\ overtakes w = o);
    [| by intros w [[_ ?] ?] | intros r w Hw; exact Hw].
  change (rollout_changes q (dashboard false)) with (rollout_legacy q).
  unfold update_size_and_timeout.
  change (notebookController_enabled (dashboard false)) with false. cbv iota.
  destruct (Js.truthy (q !! "pvcSize") && Js.truthy (q !! "cullerTimeout")) eqn:Ht.
  - eapply hoare_bind;
      [apply fire_legacy_patch | | intros e w [H _]; discriminate H].
    intros []. apply hoare_pure. intros _.
    eapply hoare_bind;
      [eapply rollout_legacy_after_read;
         [exact Hhub | exact Hculler | exact Hsize |
          rewrite Hseen; apply read_legacy_pending;
            [intros Ho; by apply Hpatch | exact Hread | by rewrite <- Hseen]] | |
       intros e w [H _]; discriminate H].
    intros []. apply hoare_ret. by intros w (_ & _ & ->).
  - apply hoare_ret_bind.
    eapply hoare_bind;
      [eapply rollout_legacy_after_read;
         [exact Hhub | exact Hculler | exact Hsize |
          eapply hoare_weaken;
            [apply read_legacy_idle; [exact Hread | by rewrite <- Hseen] |
             by intros w [? _] | rewrite Hseen; intros r w Hw; exact Hw]] | |
       intros e w [H _]; discriminate H].
    intros []. apply hoare_ret. by intros w (_ & _ & ->).
Qed.

(** X12.  Legacy mode, a request that leaves pvcSize out (a change of the
    tracking flag alone, for instance): when the tracking step succeeds and
    the legacy ConfigMap is readable and holds a PVC size, the request
    succeeds and the jupyterhub DeploymentConfig is restarted, whatever the
    stored size, because the stored size is compared with [undefined]; the
    idle culler is restarted as well unless the stored timeout is the
    requested one. *)
Theorem legacy_update_without_size_restarts_jupyterhub q c f o d0 size :
  q !! "pvcSize" = None ->
  tracking_step_ok q c f ->
  configMaps c !! jupyterhubCfg = Some d0 ->
  d0 !! "singleuser_pvc_size" = Some size ->
  f (ReadConfigMap jupyterhubCfg) = None ->
  f (Rollout DeploymentConfig "jupyterhub") = None ->
  f (Rollout DeploymentConfig "jupyterhub-idle-culler") = None ->
  (updateClusterSettings q (start c (dashboard false) f o)).1 = Normal ok /\
  restarted (cluster (updateClusterSettings q (start c (dashboard false) f o)).2) =
    (restarted c ++
     (DeploymentConfig, "jupyterhub") ::
     (if bool_decide (d0 !! "culler_timeout" ≠ q !! "cullerTimeout")
      then [(DeploymentConfig, "jupyterhub-idle-culler")] else []))%list.
Proof.
  intros Hq Htrack Hd0 Hsize Hread Hhub Hculler.
  assert (d0 <> ∅) as Hne by (intros ->; by rewrite lookup_empty in Hsize).
  destruct (updateClusterSettings_legacy_rollouts q c f o d0 d0 size) as [Hok Hrs];
    [exact Htrack | exact Hd0 | exact Hread | by rewrite Hq | by rewrite Hq |
     exact Hne | exact Hsize | by intros _ | by intros _ |].
  split; [exact Hok|]. rewrite Hrs. unfold legacy_diff.
  rewrite Hq. by rewrite bool_decide_eq_true_2.
Qed.

Lemma legacy_update_without_size_restarts_jupyterhub_witness :
  (update_in legacy_cluster false (tracking_only "null")).1 = Normal ok /\
  restarted (cluster (update_in legacy_cluster false (tracking_only "null")).2) =
    [(DeploymentConfig, "jupyterhub"); (DeploymentConfig, "jupyterhub-idle-culler")].
Proof.
  destruct (legacy_update_without_size_restarts_jupyterhub (tracking_only "null")
              legacy_cluster no_faults in_order
              {[ "singleuser_pvc_size" := "20Gi"; "culler_timeout" := "3600" ]} "20Gi") as [Hok Hrs];
    [reflexivity | left; reflexivity | reflexivity | reflexivity | reflexivity | reflexivity | reflexivity |].
  split; [exact Hok | etransitivity; [exact Hrs | vm_compute; reflexivity]].
Defined.

(** X13.  Legacy mode, requests served in the order they were sent: for
    every request that gives a pvcSize without 'Gi' in it and a
    cullerTimeout, when the tracking step succeeds, the legacy ConfigMap
    exists and the API fails neither its patch nor its read, the request
    succeeds and no workload is restarted, whatever the ConfigMap held
    before: the read of line 101 returns what line 90 has just written. *)
Theorem legacy_update_in_order_restarts_nothing q c f o d0 size timeout :
  q !! "pvcSize" = Some size -> size <> "" -> occurs "Gi" size = false ->
  q !! "cullerTimeout" = Some timeout -> timeout <> "" ->
  tracking_step_ok q c f ->
  configMaps c !! jupyterhubCfg = Some d0 ->
  f (legacy_patch q) = None ->
  f (ReadConfigMap jupyterhubCfg) = None ->
  o (ReadConfigMap jupyterhubCfg) = false ->
  (updateClusterSettings q (start c (dashboard false) f o)).1 = Normal ok /\
  restarted (cluster (updateClusterSettings q (start c (dashboard false) f o)).2) =
    restarted c.
Proof.
  intros Hsize Hne Hgi Htimeout Hnt Htrack Hd0 Hpatch Hread Ho.
  set (seen := json_data [("singleuser_pvc_size", Some (size ++ "Gi"));
                          ("culler_timeout", Some timeout)] ∪ d0).
  assert (seen !! "singleuser_pvc_size" = Some (size ++ "Gi")) as Hs.
  { unfold seen, json_data. apply lookup_union_Some_l. apply lookup_insert_eq. }
  assert (seen !! "culler_timeout" = Some timeout) as Ht.
  { unfold seen, json_data. apply lookup_union_Some_l.
    rewrite lookup_insert_ne by discriminate. apply lookup_insert_eq. }
  assert (Js.truthy (q !! "pvcSize") && Js.truthy (q !! "cullerTimeout") = true) as Hboth.
  { rewrite Hsize, Htimeout. simpl. by rewrite !bool_decide_eq_false_2. }
  assert (seen <> ∅) as Hseen.
  { intros E. rewrite E in Hs. by rewrite lookup_empty in Hs. }
  destruct (updateClusterSettings_legacy_rollouts q c f o d0 seen (size ++ "Gi"))
    as [Hok Hrs];
    [exact Htrack | exact Hd0 | exact Hread | by intros _ _ |
     rewrite Hboth, Ho, Hsize, Htimeout; reflexivity |
     exact Hseen | exact Hs |
     rewrite replace_Gi_suffix, Hsize by exact Hgi; by intros [] |
     rewrite Ht, Htimeout; by intros [] |].
  split; [exact Hok|]. rewrite Hrs. unfold legacy_diff.
  rewrite replace_Gi_suffix, Hsize, Ht, Htimeout by exact Hgi.
  rewrite !bool_decide_eq_false_2 by (by intros []).
  by rewrite app_nil_r.
Qed.

Lemma legacy_update_in_order_restarts_nothing_witness :
  (update_in legacy_cluster false (query_of "50" "7200" "null")).1 = Normal ok /\
  restarted (cluster (update_in legacy_cluster false (query_of "50" "7200" "null")).2) = [].
Proof.
  destruct (legacy_update_in_order_restarts_nothing (query_of "50" "7200" "null")
              legacy_cluster no_faults in_order
              {[ "singleuser_pvc_size" := "20Gi"; "culler_timeout" := "3600" ]} "50" "7200") as [Hok Hrs];
    [reflexivity | discriminate | reflexivity | reflexivity | discriminate | left; reflexivity | reflexivity | reflexivity | reflexivity | reflexivity |].
  split; [exact Hok | etransitivity; [exact Hrs | vm_compute; reflexivity]].
Defined.

(** X14.  Legacy mode, the read of line 101 served before the patch of line
    90, which is not awaited: for every request that gives a pvcSize and a
    cullerTimeout, when the tracking step succeeds and the legacy ConfigMap
    is readable and holds a PVC size, the request succeeds and the
    workloads restarted are exactly those whose stored value differs from
    the requested one: jupyterhub for the size, the idle culler for the
    timeout. *)
Theorem legacy_update_overtaken_restarts_changed q c f o d0 size0 :
  Js.truthy (q !! "pvcSize") && Js.truthy (q !! "cullerTimeout") = true ->
  o (ReadConfigMap jupyterhubCfg) = true ->
  tracking_step_ok q c f ->
  configMaps c !! jupyterhubCfg = Some d0 ->
  d0 !! "singleuser_pvc_size" = Some size0 ->
  f (ReadConfigMap jupyterhubCfg) = None ->
  f (Rollout DeploymentConfig "jupyterhub") = None ->
  f (Rollout DeploymentConfig "jupyterhub-idle-culler") = None ->
  (updateClusterSettings q (start c (dashboard false) f o)).1 = Normal ok /\
  restarted (cluster (updateClusterSettings q (start c (dashboard false) f o)).2) =
    (restarted c ++
     (if bool_decide (Some (Js.replace "Gi" "" size0) ≠ q !! "pvcSize")
      then [(DeploymentConfig, "jupyterhub")] else []) ++
     (if bool_decide (d0 !! "culler_timeout" ≠ q !! "cullerTimeout")
      then [(DeploymentConfig, "jupyterhub-idle-culler")] else []))%list.
Proof.
  intros Hboth Ho Htrack Hd0 Hsize Hread Hhub Hculler.
  assert (d0 <> ∅) as Hne by (intros ->; by rewrite lookup_empty in Hsize).
  apply (updateClusterSettings_legacy_rollouts q c f o d0 d0 size0);
    [exact Htrack | exact Hd0 | exact Hread | intros _ E; by rewrite Ho in E |
     by rewrite Hboth, Ho | exact Hne | exact Hsize | by intros _ | by intros _].
Qed.

Lemma legacy_update_overtaken_restarts_changed_witness :
  (updateClusterSettings (query_of "50" "3600" "null")
     (start legacy_cluster (dashboard false) no_faults overtaking)).1 = Normal ok /\
  restarted (cluster (updateClusterSettings (query_of "50" "3600" "null")
                        (start legacy_cluster (dashboard false) no_faults overtaking)).2) =
    [(DeploymentConfig, "jupyterhub")].
Proof.
  destruct (legacy_update_overtaken_restarts_changed (query_of "50" "3600" "null")
              legacy_cluster no_faults overtaking
              {[ "singleuser_pvc_size" := "20Gi"; "culler_timeout" := "3600" ]} "20Gi") as [Hok Hrs];
    [reflexivity | reflexivity | left; reflexivity | reflexivity | reflexivity | reflexivity | reflexivity | reflexivity |].
  split; [exact Hok | etransitivity; [exact Hrs | vm_compute; reflexivity]].
Defined.

(** ** Writing the culling ConfigMap and reading it back *)

(** Culling switched on while the culling ConfigMap exists: the patch is
    merged into it. *)
Lemma update_culler_config_patches q f d0 rs :
  Js.strict_eq (Js.Number (q !! "cullerTimeout")) DEFAULT_CULLER_TIMEOUT = false ->
  (forall r, writes_to nbcCfg r = true -> f r = None) ->
  hoare (settled f nbcCfg (Some d0) rs) (update_culler_config q)
    (fun r w =>
       r = Normal tt /\
       settled f nbcCfg
         (Some (json_data
                  [("ENABLE_CULLING", Some "true");
                   ("CULL_IDLE_TIME",
                    Some (Js.number_to_string
                            (Js.div (Js.Number (q !! "cullerTimeout")) (Js.num 60))))]
                ∪ d0))
         rs w).
Proof.
  intros Hne Hf [[cms grp rst] cfg f' o fl iss unh lg] (Hi & Hfw & Hl & Hr).
  simpl in *. subst. unfold update_culler_config.
  rewrite Hne. cbv [negb]. unfold nbcCfg in *.
  unfold try_catch, patchCM, patchCM_request, mbind, M_bind, bind.
  run_request. rewrite Hf by reflexivity. rewrite Hl.
  unfold settled. simpl.
  repeat split.
  apply lookup_insert_eq.
Qed.

(** The rollout of the controller leaves the ConfigMaps alone and nothing
    in flight. *)
Lemma rollout_changes_idle q cfg f n X :
  notebookController_enabled cfg = true ->
  preserves (fun w => inflight w = [] /\ faults w = f /\ configMaps (cluster w) !! n = X)
    (rollout_changes q cfg).
Proof.
  intros Hnbc [[cms grp rst] cfg' f' o fl iss unh lg] (Hi & Hfw & Hl).
  simpl in *. subst. unfold rollout_changes.
  rewrite notebookController_enabled_strict_true by exact Hnbc.
  unfold rolloutDeployment, mbind, mret, M_bind, M_ret, bind, ret.
  run_request.
  by destruct (f (Rollout Deployment "notebook-controller-deployment")).
Qed.

(** The world after an update of notebook-controller mode that reaches the
    culling ConfigMap: nothing is in flight and the ConfigMap is what
    [update_culler_config] left. *)
Lemma updateClusterSettings_nbc_state q c cfg f o X' :
  notebookController_enabled cfg = true ->
  Js.truthy (q !! "pvcSize") = true ->
  Js.truthy (q !! "cullerTimeout") = true ->
  tracking_step_ok q c f ->
  hoare (settled f nbcCfg (configMaps c !! nbcCfg) (restarted c)) (update_culler_config q)
    (fun _ w => inflight w = [] /\ faults w = f /\ configMaps (cluster w) !! nbcCfg = X') ->
  let w' := (updateClusterSettings q (start c cfg f o)).2 in
  reading (cluster w') cfg f w' /\ configMaps (cluster w') !! nbcCfg = X'.
Proof.
  intros Hnbc Hsize Htimeout Htrack Hstep w'.
  pose proof (updateClusterSettings_dashboardConfig q cfg (start c cfg f o) eq_refl) as Hcfg.
  cbv beta in Hcfg. fold w' in Hcfg.
  cut (inflight w' = [] /\ faults w' = f /\ configMaps (cluster w') !! nbcCfg = X').
  { intros (Hi & Hf & Hl). by repeat split. }
  subst w'. rewrite updateClusterSettings_start.
  set (J := fun w => inflight w = [] /\ faults w = f /\ configMaps (cluster w) !! nbcCfg = X').
  cut (hoare (fun w => settled f nbcCfg (configMaps c !! nbcCfg) (restarted c) w /\
                       tracking_step_ok q (cluster w) f)
         (try_catch (updateClusterSettings_body q cfg) updateClusterSettings_catch)
         (fun _ => J)).
  { intros H. apply H. split; [apply start_settled | exact Htrack]. }
  eapply hoare_try_catch with (R := fun _ => J);
    [| done | intros e; apply updateClusterSettings_catch_stable].
  unfold updateClusterSettings_body.
  eapply hoare_bind;
    [apply update_tracking_flag_settled; done | intros [] | by intros e w [? _]].
  apply hoare_pure; intros _.
  eapply hoare_bind with (R := fun _ => J).
  - unfold update_size_and_timeout. rewrite Hsize, Htimeout, Hnbc. cbv [andb].
    exact Hstep.
  - intros _. apply preserves_bind; [by apply rollout_changes_idle | intros; apply preserves_ret].
  - done.
Qed.

(** X15.  Round trip of switching culling off in notebook-controller mode:
    after a request with a non-empty pvcSize and the sentinel 31536000 as
    cullerTimeout, whose tracking step succeeds and whose delete the API
    does not fail, [getClusterSettings] answers with the sentinel as
    cullerTimeout, whether or not the culling ConfigMap existed before
    (and so also after the update that ended without a result because the
    delete was answered 404). *)
Theorem culling_off_round_trip q c cfg f o :
  notebookController_enabled cfg = true ->
  Js.truthy (q !! "pvcSize") = true ->
  Js.strict_eq (Js.Number (q !! "cullerTimeout")) DEFAULT_CULLER_TIMEOUT = true ->
  tracking_step_ok q c f ->
  f (DeleteConfigMap nbcCfg) = None ->
  f (ReadConfigMap nbcCfg) = None ->
  exists cs,
    (getClusterSettings (updateClusterSettings q (start c cfg f o)).2).1 = Normal (inl cs) /\
    cullerTimeout cs = DEFAULT_CULLER_TIMEOUT.
Proof.
  intros Hnbc Hsize He Htrack Hdel Hread.
  destruct (updateClusterSettings_nbc_state q c cfg f o None) as [Hreading Hl];
    [exact Hnbc | exact Hsize | exact (sentinel_truthy _ He) | exact Htrack | |].
  { eapply hoare_weaken;
      [by apply update_culler_config_deletes | intros w Hw; exact Hw |].
    by intros r w [(? & ? & ? & _) _]. }
  destruct (getClusterSettings_reading _ cfg f _ Hreading) as [-> _].
  unfold settings_read, culler_settings, read_result. rewrite Hnbc, Hread, Hl.
  rewrite bool_decide_eq_true_2 by reflexivity.
  eexists. split; reflexivity.
Qed.

Lemma culling_off_round_trip_witness :
  exists cs,
    (getClusterSettings
       (update_in (culler_cluster "true" "60") true (query_of "20" "31536000" "null")).2).1 =
      Normal (inl cs) /\
    cullerTimeout cs = DEFAULT_CULLER_TIMEOUT.
Proof.
  apply (culling_off_round_trip (query_of "20" "31536000" "null")
           (culler_cluster "true" "60") (dashboard true) no_faults in_order).
  - reflexivity.
  - reflexivity.
  - vm_compute. reflexivity.
  - left. reflexivity.
  - reflexivity.
  - reflexivity.
Defined.

(** X16.  Round trip of switching culling on in notebook-controller mode:
    after a request with a non-empty pvcSize and a cullerTimeout that is
    not the sentinel, whose tracking step succeeds and whose writes of the
    culling ConfigMap the API does not fail, [getClusterSettings] answers
    with cullerTimeout Number(String(Number(cullerTimeout) / 60)) * 60,
    both when the ConfigMap was created and when an existing one was
    patched; the other keys of an existing ConfigMap are kept. *)
Theorem culling_on_round_trip q c cfg f o :
  notebookController_enabled cfg = true ->
  Js.truthy (q !! "pvcSize") = true ->
  Js.truthy (q !! "cullerTimeout") = true ->
  Js.strict_eq (Js.Number (q !! "cullerTimeout")) DEFAULT_CULLER_TIMEOUT = false ->
  tracking_step_ok q c f ->
  (forall r, writes_to nbcCfg r = true -> f r = None) ->
  f (ReadConfigMap nbcCfg) = None ->
  let w' := (updateClusterSettings q (start c cfg f o)).2 in
  (exists cs,
     (getClusterSettings w').1 = Normal (inl cs) /\
     cullerTimeout cs =
       Js.mul (Js.Number (Some (Js.number_to_string
                                  (Js.div (Js.Number (q !! "cullerTimeout")) (Js.num 60)))))
         (Js.num 60)) /\
  (forall d0 d k, configMaps c !! nbcCfg = Some d0 ->
     configMaps (cluster w') !! nbcCfg = Some d ->
     k <> "ENABLE_CULLING" -> k <> "CULL_IDLE_TIME" -> d !! k = d0 !! k).
Proof.
  intros Hnbc Hsize Htimeout Hne Htrack Hf Hread w'.
  set (minutes := Js.number_to_string (Js.div (Js.Number (q !! "cullerTimeout")) (Js.num 60))).
  set (patch := json_data [("ENABLE_CULLING", Some "true"); ("CULL_IDLE_TIME", Some minutes)]).
  set (after := match configMaps c !! nbcCfg with
                | Some d0 => patch ∪ d0
                | None => culler_config true
                            (Js.div (Js.Number (q !! "cullerTimeout")) (Js.num 60))
                end).
  assert (after !! "ENABLE_CULLING" = Some "true") as Hon.
  { unfold after. destruct (configMaps c !! nbcCfg).
    - apply lookup_union_Some_l. apply lookup_insert_eq.
    - apply lookup_insert_eq. }
  assert (after !! "CULL_IDLE_TIME" = Some minutes) as Hmin.
  { unfold after. destruct (configMaps c !! nbcCfg).
    - apply lookup_union_Some_l.
      unfold patch, json_data. rewrite lookup_insert_ne by discriminate.
      apply lookup_insert_eq.
    - unfold culler_config. rewrite lookup_insert_ne by discriminate.
      apply lookup_insert_eq. }
  destruct (updateClusterSettings_nbc_state q c cfg f o (Some after)) as [Hreading Hl];
    [exact Hnbc | exact Hsize | exact Htimeout | exact Htrack | |].
  { unfold after. destruct (configMaps c !! nbcCfg) as [d0|].
    - eapply hoare_weaken;
        [by apply update_culler_config_patches | intros w Hw; exact Hw |].
      by intros r w [_ (? & ? & ? & _)].
    - eapply hoare_weaken;
        [by apply update_culler_config_creates | intros w Hw; exact Hw |].
      by intros r w [_ (? & ? & ? & _)]. }
  fold w' in Hreading, Hl. split.
  - destruct (getClusterSettings_reading _ cfg f _ Hreading) as [-> _].
    unfold settings_read, culler_settings, read_result.
    rewrite Hnbc, Hread, Hl, (body_data_Some _ _ _ Hon), Hon, Hmin.
    eexists. split; reflexivity.
  - intros d0 d k Hd0 Hd Hk1 Hk2. rewrite Hl in Hd. injection Hd as <-.
    unfold after. rewrite Hd0.
    rewrite lookup_union_r; [reflexivity|].
    unfold patch, json_data. by rewrite !lookup_insert_ne.
Qed.

Lemma culling_on_round_trip_witness :
  exists cs,
    (getClusterSettings
       (update_in (culler_cluster "false" "5") true (query_of "20" "3600" "null")).2).1 =
      Normal (inl cs) /\
    cullerTimeout cs = Js.num 3600.
Proof.
  destruct (culling_on_round_trip (query_of "20" "3600" "null")
              (culler_cluster "false" "5") (dashboard true) no_faults in_order)
    as [(cs & Hr & Ht) _].
  - reflexivity.
  - reflexivity.
  - reflexivity.
  - vm_compute. reflexivity.
  - left. reflexivity.
  - intros r _. reflexivity.
  - reflexivity.
  - exists cs. split; [exact Hr|]. rewrite Ht. vm_compute. reflexivity.
Defined.

(** ** Writing the tracking flag and reading it back *)







(** ** Groups *)

Lemma getAllGroups_start c cfg f o :
  getAllGroups (start c cfg f o) =
  (match f ListGroups with
   | Some _ => Throw (Js.Error "Failed to list groups.")
   | None => Normal (map fst (map_to_list (groups c)))
   end,
   with_issued [ListGroups] (start c cfg f o)).
Proof.
  unfold getAllGroups, try_catch, listClusterCustomObject_names, mbind, M_bind, bind.
  rewrite await_idle by reflexivity. simpl.
  by destruct (f ListGroups).
Qed.

Lemma listed_groups (gs : gmap string (list string)) n :
  n ∈ map fst (map_to_list gs) <-> is_Some (gs !! n).
Proof.
  change (map fst (map_to_list gs)) with ((map_to_list gs).*1).
  rewrite list_elem_of_fmap. split.
  - intros ([k v] & -> & Hkv). exists v. by apply elem_of_map_to_list.
  - intros [v Hv]. exists (n, v). split; [reflexivity | by apply elem_of_map_to_list].
Qed.

(** X18.  [getAllGroups] changes nothing on the cluster.  When the list
    request is not failed it returns the names of the groups of the
    cluster, each exactly once; every failure of the request is rethrown
    as a plain Error with the message 'Failed to list groups.', which
    keeps neither the status code nor the message of the failure. *)
Theorem getAllGroups_lists_every_group c cfg f o :
  cluster (getAllGroups (start c cfg f o)).2 = c /\
  (f ListGroups = None ->
   exists names,
     (getAllGroups (start c cfg f o)).1 = Normal names /\
     NoDup names /\
     forall n, n ∈ names <-> is_Some (groups c !! n)) /\
  (forall e, f ListGroups = Some e ->
     (getAllGroups (start c cfg f o)).1 = Throw (Js.Error "Failed to list groups.") /\
     Js.statusCode (Js.Error "Failed to list groups.") = None).
Proof.
  rewrite getAllGroups_start. split; [reflexivity|]. split.
  - intros ->. eexists. split; [reflexivity|]. split.
    + change (map fst (map_to_list (groups c))) with ((map_to_list (groups c)).*1).
      apply NoDup_fst_map_to_list.
    + apply listed_groups.
  - intros e ->. split; reflexivity.
Qed.

(** X19.  [getAllGroups] followed by [getGroup]: every name [getAllGroups]
    returned can be retrieved afterwards.  When the API fails neither
    request, [getGroup] on a listed name returns the users of that group
    and does not raise MissingGroupError. *)
Theorem listed_group_is_retrievable c cfg f o names w n :
  f ListGroups = None ->
  f (GetGroup n) = None ->
  getAllGroups (start c cfg f o) = (Normal names, w) ->
  n ∈ names ->
  exists users,
    groups c !! n = Some users /\
    (getGroup n w).1 = Normal users /\
    cluster (getGroup n w).2 = c.
Proof.
  intros Hlist Hget. rewrite getAllGroups_start, Hlist. intros [= <- <-] Hn.
  apply listed_groups in Hn as [users Hu]. exists users. split; [exact Hu|].
  unfold getGroup, try_catch, getClusterCustomObject_users, mbind, M_bind, bind.
  rewrite await_idle by reflexivity. simpl. rewrite Hget, Hu. simpl.
  by destruct c.
Qed.

Lemma listed_group_is_retrievable_witness :
  exists users,
    groups {| configMaps := ∅; groups := {[ "admins" := ["alice"; "bob"] ]}; restarted := [] |}
      !! "admins" = Some users /\
    (getGroup "admins"
       (with_issued [ListGroups]
          (start {| configMaps := ∅; groups := {[ "admins" := ["alice"; "bob"] ]};
                    restarted := [] |}
             (dashboard true) no_faults in_order))).1 = Normal users /\
    cluster
      (getGroup "admins"
         (with_issued [ListGroups]
            (start {| configMaps := ∅; groups := {[ "admins" := ["alice"; "bob"] ]};
                      restarted := [] |}
               (dashboard true) no_faults in_order))).2 =
    {| configMaps := ∅; groups := {[ "admins" := ["alice"; "bob"] ]}; restarted := [] |}.
Proof.
  apply (listed_group_is_retrievable
           {| configMaps := ∅; groups := {[ "admins" := ["alice"; "bob"] ]}; restarted := [] |}
           (dashboard true) no_faults in_order ["admins"]).
  - reflexivity.
  - reflexivity.
  - vm_compute. reflexivity.
  - apply list_elem_of_here.
Defined.

(** X20.  The admin and allowed groups of the dashboard configuration.
    With a [spec], [getAdminGroups] and [getAllowedGroups] do not throw:
    they return the attribute of [groupsConfig], and the empty string when
    [groupsConfig] is missing.  Without a [spec] each throws a plain Error
    whose message is the inner error converted to a string, 'Error: '
    included, followed by the name of the attribute. *)
Theorem group_attributes g w :
  (getAdminGroups g w).2 = w /\ (getAllowedGroups g w).2 = w /\
  match spec (dashboardConfig w) with
  | Some _ =>
      (getAdminGroups g w).1 = Normal (from_option adminGroups "" g) /\
      (getAllowedGroups g w).1 = Normal (from_option allowedGroups "" g)
  | None =>
      (getAdminGroups g w).1 =
        Throw (Js.Error ("Error: Failed to retrieve Dashboard CR groups configuration" ++
                         " for adminGroups attribute")) /\
      (getAllowedGroups g w).1 =
        Throw (Js.Error ("Error: Failed to retrieve Dashboard CR groups configuration" ++
                         " for allowedGroups attribute"))
  end.
Proof.
  unfold getAdminGroups, getAllowedGroups, getGroupsCR, spec_groupsConfig, getDashboardConfig.
  unfold try_catch, mbind, M_bind, bind, mret, M_ret, ret, throw.
  destruct (spec (dashboardConfig w)); [destruct g |]; repeat split.
Qed.

(** ** A failed patch of the legacy ConfigMap *)

Lemma await_quiet_unhandled r :
  preserves (fun w => inflight w = [] /\ unhandled w = []) (await r).
Proof.
  intros w [Hi Hu]. rewrite await_idle by exact Hi.
  destruct (faults w r); [by destruct w|].
  by destruct w.
Qed.

Lemma serve_lookup_other r w n :
  writes_to n r = false ->
  configMaps (cluster (serve r w).2) !! n = configMaps (cluster w) !! n.
Proof.
  intros Hr. apply (serve_kept (fun m => bool_decide (m = n))); [exact Hr|].
  by apply bool_decide_eq_true.
Qed.

Lemma await_patch_failing name props d0 e f r :
  f (PatchConfigMap name props) = Some e ->
  writes_to name r = false ->
  preserves (patch_failing name props d0 e f) (await r).
Proof.
  intros Hpatch Hr w (Hf & Hl & Hcase). unfold await.
  set (w1 := with_issued (issued w ++ [r]) w).
  assert (faults w1 = f /\ configMaps (cluster w1) !! name = Some d0) as [Hf1 Hl1] by done.
  set (w2 := match inflight w1 with
             | [] => w1
             | _ :: _ => if overtakes w1 r then w1 else settle w1
             end).
  assert (patch_failing name props d0 e f w2) as (Hf2 & Hl2 & Hcase2).
  { subst w2. destruct Hcase as [[Hi Hu] | [Hi Hu]].
    - change (inflight w1) with (inflight w). rewrite Hi.
      destruct (overtakes w1 r); [repeat split; try done; by left|].
      unfold settle. change (inflight w1) with (inflight w). rewrite Hi. simpl.
      unfold serve_detached, serve. simpl. rewrite Hf, Hpatch.
      split; [exact Hf|]. split; [exact Hl|]. right. split; [reflexivity|].
      cbn. change (unhandled w ++ [e] = [e])%list. by rewrite Hu.
    - change (inflight w1) with (inflight w). rewrite Hi.
      repeat split; try done. by right. }
  pose proof (serve_fixed r w2) as (Hfs & _ & _ & His & _ & Hus & _).
  pose proof (serve_lookup_other r w2 name Hr) as Hls.
  destruct (serve r w2) as [[e'|x] w3]; simpl in *.
  all: repeat split; [congruence | congruence |].
  all: rewrite His, Hus; exact Hcase2.
Qed.

Lemma settle_patch_failing name props d0 e f w :
  f (PatchConfigMap name props) = Some e ->
  patch_failing name props d0 e f w ->
  unhandled (settle w) = [e] /\ configMaps (cluster (settle w)) !! name = Some d0.
Proof.
  intros Hpatch (Hf & Hl & [[Hi Hu] | [Hi Hu]]).
  - unfold settle. rewrite Hi. simpl.
    unfold serve_detached, serve. simpl. rewrite Hf, Hpatch. simpl.
    by rewrite Hu.
  - by rewrite settle_idle.
Qed.

(** The read of the legacy ConfigMap while the failing patch is in
    flight. *)
Lemma read_legacy_failing f props (d0 : gmap string string) e rs :
  f (PatchConfigMap jupyterhubCfg props) = Some e ->
  f (ReadConfigMap jupyterhubCfg) = None ->
  d0 <> ∅ ->
  hoare (fun w => faults w = f /\ inflight w = [PatchConfigMap jupyterhubCfg props] /\
                  configMaps (cluster w) !! jupyterhubCfg = Some d0 /\
                  restarted (cluster w) = rs)
    (readNamespacedConfigMap jupyterhubCfg)
    (fun r w => r = Normal (Some d0) /\
                no_rollout_inflight f w /\ restarted (cluster w) = rs).
Proof.
  intros Hpatch Hread Hd [[cms grp rst] cfg f' o' fl iss unh lg] (Hfw & Hi & Hl & Hr).
  simpl in *. subst.
  unfold readNamespacedConfigMap, mbind, M_bind, bind, await.
  cbv beta iota zeta delta [with_issued inflight overtakes].
  destruct (o' (ReadConfigMap jupyterhubCfg)).
  - unfold serve. cbv beta iota zeta delta [faults cluster perform configMaps].
    rewrite Hread, Hl. unfold body_data. rewrite bool_decide_eq_false_2 by exact Hd.
    simpl. repeat split. by repeat constructor.
  - unfold settle, serve_detached, serve. simpl.
    rewrite Hpatch. simpl. rewrite Hread, Hl. simpl.
    unfold body_data. rewrite bool_decide_eq_false_2 by exact Hd.
    repeat split. constructor.
Qed.

(** X21.  Legacy mode, a request that gives a pvcSize and a cullerTimeout,
    the API failing the patch of the legacy ConfigMap with [e], on every
    schedule: when the tracking step succeeds and the ConfigMap is
    readable and holds a PVC size, the request is answered
    [{success: true, error: null}]; the ConfigMap is left as it was; the
    failure ends as the one unhandled rejection; and the workloads
    restarted are those whose stored value differs from the requested
    one, although nothing was stored. *)
Theorem failed_legacy_patch_reported_as_success q c f o d0 size0 e :
  Js.truthy (q !! "pvcSize") && Js.truthy (q !! "cullerTimeout") = true ->
  f (legacy_patch q) = Some e ->
  tracking_step_ok q c f ->
  configMaps c !! jupyterhubCfg = Some d0 ->
  d0 !! "singleuser_pvc_size" = Some size0 ->
  f (ReadConfigMap jupyterhubCfg) = None ->
  f (Rollout DeploymentConfig "jupyterhub") = None ->
  f (Rollout DeploymentConfig "jupyterhub-idle-culler") = None ->
  let run := updateClusterSettings q (start c (dashboard false) f o) in
  run.1 = Normal ok /\
  configMaps (cluster (settle run.2)) !! jupyterhubCfg = Some d0 /\
  unhandled (settle run.2) = [e] /\
  restarted (cluster run.2) = (restarted c ++ legacy_diff q d0 size0)%list.
Proof.
  intros Hboth Hpatch Htrack Hd0 Hsize Hread Hhub Hculler run. subst run.
  assert (d0 <> ∅) as Hne by (intros ->; by rewrite lookup_empty in Hsize).
  set (props := [("singleuser_pvc_size", Some (Js.interpolate (q !! "pvcSize") ++ "Gi"));
                 ("culler_timeout", q !! "cullerTimeout")]).
  rewrite updateClusterSettings_start.
  set (Q := fun (r : Completion (option UpdateResult)) w =>
              (r = Normal ok /\
               restarted (cluster w) = (restarted c ++ legacy_diff q d0 size0)%list) /\
              patch_failing jupyterhubCfg props d0 e f w).
  cut (hoare (fun w => (settled f jupyterhubCfg (Some d0) (restarted c) w /\
                        tracking_step_ok q (cluster w) f) /\
                       (inflight w = [] /\ unhandled w = []))
         (try_catch (updateClusterSettings_body q (dashboard false))
            updateClusterSettings_catch) Q).
  { intros H.
    destruct (H (start c (dashboard false) f o)) as [[Hok Hrs] Hfail];
      [by repeat split|].
    destruct (settle_patch_failing _ _ _ _ _ _ Hpatch Hfail) as [Hu Hl].
    by repeat split. }
  eapply hoare_try_catch with (R := Q);
    [| intros a w Hw; exact Hw | intros e' w [[H _] _]; discriminate H].
  unfold updateClusterSettings_body.
  eapply hoare_bind with
    (R := fun r w => (r = Normal tt /\ settled f jupyterhubCfg (Some d0) (restarted c) w) /\
                     (inflight w = [] /\ unhandled w = []));
    [| | intros e' w [[H _] _]; discriminate H].
  { apply hoare_conj; [by apply update_tracking_flag_settled|].
    apply update_tracking_flag_stable with (allowed := fun _ => true); [| by right].
    intros r _. apply await_quiet_unhandled. }
  intros [].
  change (rollout_changes q (dashboard false)) with (rollout_legacy q).
  unfold update_size_and_timeout.
  change (notebookController_enabled (dashboard false)) with false. cbv iota.
  rewrite Hboth. fold props.
  eapply hoare_bind with
    (R := fun r w => r = Normal tt /\
                     (faults w = f /\ inflight w = [PatchConfigMap jupyterhubCfg props] /\
                      configMaps (cluster w) !! jupyterhubCfg = Some d0 /\
                      restarted (cluster w) = restarted c) /\
                     patch_failing jupyterhubCfg props d0 e f w);
    [| | intros e' w [H _]; discriminate H].
  { intros w [[_ (Hi & Hf & Hl & Hr)] [_ Hu]]. simpl. rewrite Hi. simpl.
    repeat split; try done. left. split; [reflexivity | exact Hu]. }
  intros []. apply hoare_pure. intros _.
  eapply hoare_bind with
    (R := fun r w => (r = Normal tt /\ no_rollout_inflight f w /\
                      restarted (cluster w) = (restarted c ++ legacy_diff q d0 size0)%list) /\
                     patch_failing jupyterhubCfg props d0 e f w);
    [| | intros e' w [[H _] _]; discriminate H].
  { apply hoare_conj.
    - apply (rollout_legacy_after_read q f d0 size0); [by intros _ | by intros _ | exact Hsize |].
      by apply (read_legacy_failing f props d0 e (restarted c)).
    - change (rollout_legacy q) with (rollout_changes q (dashboard false)).
      apply rollout_changes_stable with (allowed := fun r => negb (writes_to jupyterhubCfg r)).
      + intros r Hr. apply await_patch_failing; [exact Hpatch | by apply negb_true_iff].
      + intros [] Hr; simpl in *; congruence. }
  intros []. apply hoare_ret. intros w [(_ & _ & Hrs) Hfail].
  split; [split; [reflexivity | exact Hrs] | exact Hfail].
Qed.

Lemma failed_legacy_patch_reported_as_success_witness :
  (updateClusterSettings (query_of "50" "7200" "null")
     (start legacy_cluster (dashboard false)
        (failing_patch jupyterhubCfg (Js.HttpError 500)) in_order)).1 = Normal ok /\
  unhandled
    (settle (updateClusterSettings (query_of "50" "7200" "null")
               (start legacy_cluster (dashboard false)
                  (failing_patch jupyterhubCfg (Js.HttpError 500)) in_order)).2) =
    [Js.HttpError 500] /\
  restarted
    (cluster (updateClusterSettings (query_of "50" "7200" "null")
                (start legacy_cluster (dashboard false)
                   (failing_patch jupyterhubCfg (Js.HttpError 500)) in_order)).2) =
    [(DeploymentConfig, "jupyterhub"); (DeploymentConfig, "jupyterhub-idle-culler")].
Proof.
  destruct (failed_legacy_patch_reported_as_success (query_of "50" "7200" "null")
              legacy_cluster (failing_patch jupyterhubCfg (Js.HttpError 500)) in_order
              {[ "singleuser_pvc_size" := "20Gi"; "culler_timeout" := "3600" ]} "20Gi"
              (Js.HttpError 500))
    as (Hok & _ & Hu & Hrs);
    [reflexivity | reflexivity | left; reflexivity | reflexivity | reflexivity |
     reflexivity | reflexivity | reflexivity |].
  split; [exact Hok|]. split; [exact Hu|].
  etransitivity; [exact Hrs | vm_compute; reflexivity].
Defined.
